(** * The interactive shell of the playground terminal (PgShell)

    A shallow embedding of the line-editing shell of the in-browser terminal
    ([PgShell]: input decoding, cursor handling, autocomplete dispatch, the
    prompt/read cycle and the command dispatcher), followed by the properties
    proved about it.

    JavaScript strings are sequences of UTF-16 code units, numbers that hold
    offsets and counters are integers, the mutable fields of the class form a
    record that every method takes and returns, and what the shell does to its
    surroundings (the terminal surface, timers, promises, document listeners)
    is kept in explicit browser state. *)

From Stdlib Require Import ZArith List Bool String Ascii Lia DecimalString.
From Stdlib Require Import Sorted Permutation.
Import ListNotations.

Local Open Scope Z_scope.

Set Implicit Arguments.

(** ** JavaScript strings *)

(** A string is its sequence of UTF-16 code units. *)
Definition jsstring := list Z.

Module JS.

(** A literal, written with Rocq's byte strings (code units below 256). *)
Definition lit (s : string) : jsstring :=
  map (fun a => Z.of_nat (nat_of_ascii a)) (list_ascii_of_string s).

Definition length (s : jsstring) : Z := Z.of_nat (List.length s).

(** [s.charCodeAt(0)]: [None] stands for NaN (the empty string). *)
Definition charCodeAt0 (s : jsstring) : option Z := hd_error s.

(** [ord === k] and [ord < k] on a possibly-NaN number. *)
Definition num_eqb (o : option Z) (k : Z) : bool :=
  match o with Some c => c =? k | None => false end.
Definition num_ltb (o : option Z) (k : Z) : bool :=
  match o with Some c => c <? k | None => false end.

Fixpoint eqb (a b : jsstring) : bool :=
  match a, b with
  | [], [] => true
  | x :: a', y :: b' => (x =? y) && eqb a' b'
  | _, _ => false
  end.

(** An index argument of [substring], clamped into [0, length]. *)
Definition clamp (s : jsstring) (i : Z) : nat :=
  Z.to_nat (Z.max 0 (Z.min i (length s))).

(** [s.substring(a)] *)
Definition substringFrom (s : jsstring) (a : Z) : jsstring :=
  skipn (clamp s a) s.

(** [s.substring(a, b)]: both ends clamped, swapped when [a > b]. *)
Definition substring (s : jsstring) (a b : Z) : jsstring :=
  let lo := Nat.min (clamp s a) (clamp s b) in
  let hi := Nat.max (clamp s a) (clamp s b) in
  firstn (hi - lo) (skipn lo s).

(** White space and line terminators, as [trim] and the regex class [\s]
    see them. *)
Definition isWhiteSpace (c : Z) : bool :=
  ((9 <=? c) && (c <=? 13)) || (c =? 32) || (c =? 160) || (c =? 5760)
  || ((8192 <=? c) && (c <=? 8202)) || (c =? 8232) || (c =? 8233)
  || (c =? 8239) || (c =? 8287) || (c =? 12288) || (c =? 65279).

Fixpoint trimStart (s : jsstring) : jsstring :=
  match s with
  | c :: r => if isWhiteSpace c then trimStart r else s
  | [] => []
  end.

Definition trimEnd (s : jsstring) : jsstring := rev (trimStart (rev s)).

Definition trim (s : jsstring) : jsstring := trimEnd (trimStart s).

(** [s.split(" ")?.at(0)]: the part before the first space. [split] never
    returns an empty array, so the result is always a string. *)
Fixpoint splitSpaceFirst (s : jsstring) : jsstring :=
  match s with
  | [] => []
  | c :: r => if c =? 32 then [] else c :: splitSpaceFirst r
  end.

Fixpoint startsWith (s p : jsstring) : bool :=
  match p, s with
  | [], _ => true
  | y :: p', x :: s' => (x =? y) && startsWith s' p'
  | _ :: _, [] => false
  end.

(** Truthiness of a string: non-empty. *)
Definition truthy (s : jsstring) : bool :=
  match s with [] => false | _ => true end.

(** The decimal rendering of a non-negative count in a template string. *)
Definition ofNat (n : nat) : jsstring :=
  lit (NilEmpty.string_of_uint (Nat.to_uint n)).

Definition isHighSurrogate (c : Z) : bool := (55296 <=? c) && (c <=? 56319).
Definition isLowSurrogate (c : Z) : bool := (56320 <=? c) && (c <=? 57343).

(** [Array.from(s)]: the string cut into code points; a high surrogate
    followed by a low one stays together as one two-unit string. *)
Fixpoint arrayFrom (s : jsstring) : list jsstring :=
  match s with
  | [] => []
  | c :: r =>
      match r with
      | d :: r' =>
          if isHighSurrogate c && isLowSurrogate d
          then [c; d] :: arrayFrom r'
          else [c] :: arrayFrom r
      | [] => [[c]]
      end
  end.

Definition isNewline (c : Z) : bool := (c =? 13) || (c =? 10).

(** [s.replace(/[\r\n]+/g, "\r")]: scanning left to right, a carriage
    return is emitted where a run of CR/LF starts and the rest of the run
    is dropped. [inRun] tells whether the previous unit was part of a run. *)
Fixpoint replaceNewlineRuns (inRun : bool) (s : jsstring) : jsstring :=
  match s with
  | [] => []
  | c :: r =>
      if isNewline c
      then (if inRun then replaceNewlineRuns true r
            else 13 :: replaceNewlineRuns true r)
      else c :: replaceNewlineRuns false r
  end.

(** Default [Array.prototype.sort] on strings: ascending by code units. *)
Fixpoint leb (a b : jsstring) : bool :=
  match a, b with
  | [], _ => true
  | _ :: _, [] => false
  | x :: a', y :: b' => (x <? y) || ((x =? y) && leb a' b')
  end.

Fixpoint insertSorted (x : jsstring) (l : list jsstring) : list jsstring :=
  match l with
  | [] => [x]
  | y :: l' => if leb x y then x :: l else y :: insertSorted x l'
  end.

Definition sort (l : list jsstring) : list jsstring :=
  fold_right insertSorted [] l.

(** The character classes of the regular expression that the run and test
    commands apply to the command line: word characters, an optional
    white-space unit, then a captured run of non-terminators. *)
Definition isWordChar (c : Z) : bool :=
  ((48 <=? c) && (c <=? 57)) || ((65 <=? c) && (c <=? 90))
  || (c =? 95) || ((97 <=? c) && (c <=? 122)).

Definition isLineTerminator (c : Z) : bool :=
  (c =? 10) || (c =? 13) || (c =? 8232) || (c =? 8233).

Fixpoint dropWhile (p : Z -> bool) (s : jsstring) : jsstring :=
  match s with
  | c :: r => if p c then dropWhile p r else s
  | [] => []
  end.

Fixpoint takeWhile (p : Z -> bool) (s : jsstring) : jsstring :=
  match s with
  | c :: r => if p c then c :: takeWhile p r else []
  | [] => []
  end.

(** [regex.exec(cmd)] for that expression, reduced to its capture group:
    [None] when there is no match. The greedy word class takes every
    leading word character, the optional class one white-space unit when
    there is one, and the capture everything up to the first line
    terminator. *)
Definition execWordRest (cmd : jsstring) : option jsstring :=
  match cmd with
  | c :: _ =>
      if isWordChar c then
        let rest := dropWhile isWordChar cmd in
        let rest' := match rest with
                     | d :: r => if isWhiteSpace d then r else rest
                     | [] => []
                     end in
        Some (takeWhile (fun x => negb (isLineTerminator x)) rest')
      else None
  | [] => None
  end.

End JS.

(** ** Names and enumerations of the client *)

(** [PgCommand]: the command names the sources declare. *)
Module PgCommand.
Definition BUILD : jsstring := JS.lit "build".
Definition CLEAR : jsstring := JS.lit "clear".
Definition CONNECT : jsstring := JS.lit "connect".
Definition DEPLOY : jsstring := JS.lit "deploy".
Definition HELP : jsstring := JS.lit "help".
Definition SOLANA : jsstring := JS.lit "solana".
Definition SPL_TOKEN : jsstring := JS.lit "spl-token".
Definition RUN_LAST_CMD : jsstring := JS.lit "!!".

Record Command := { name : jsstring; description : jsstring }.

(** Commands that show up in the help command. *)
Definition COMMANDS : list Command :=
  [ {| name := BUILD; description := JS.lit "Build your program" |};
    {| name := CLEAR; description := JS.lit "Clear terminal" |};
    {| name := CONNECT;
       description := JS.lit "Toggle connection to Playground Wallet" |};
    {| name := DEPLOY; description := JS.lit "Deploy your program" |};
    {| name := SOLANA;
       description := JS.lit "Commands for interacting with Solana" |};
    {| name := SPL_TOKEN;
       description := JS.lit "Commands related to SPL Token" |} ].

(** [new Array(25 - cmdLength).fill(" ").reduce(...)]: that many spaces
    (every listed name is shorter than 25 units, where the array is
    non-empty and the reduction is defined). *)
Definition fillWhitespace (cmdLength : Z) : jsstring :=
  repeat 32 (Z.to_nat (25 - cmdLength)).

Definition help : jsstring :=
  JS.lit "COMMANDS:" ++ [10]
  ++ fold_left
       (fun acc cmd =>
          acc ++ JS.lit "    " ++ name cmd
          ++ fillWhitespace (JS.length (name cmd))
          ++ description cmd ++ [10])
       COMMANDS [].
End PgCommand.

(** The command names the shell switches on that the sources do not
    declare; they are taken as given. *)
Class ExtraCommandNames := {
  PRETTIER : jsstring;
  RUN : jsstring;
  TEST : jsstring;
  RUSTFMT : jsstring;
  SUGAR : jsstring }.

Inductive EventName :=
| CLIENT_RUN | CONNECTION_REFRESH | CONNECTION_STATIC
| EDITOR_FOCUS | EDITOR_FORMAT | EXPLORER_STATIC | MODAL_SET
| TERMINAL_DISABLE | TERMINAL_ENABLE | TERMINAL_LOG
| TERMINAL_RUN_CMD_FROM_STR | TERMINAL_RUN_LAST_CMD
| TERMINAL_SCROLL_TO_BOTTOM | TERMINAL_STATE | TERMINAL_STATIC
| TERMINAL_WAIT_FOR_INPUT | WALLET_STATIC.

Inductive TerminalAction := buildStart | walletConnectOrSetupStart | deployStart.

Inductive Lang := RUST | TYPESCRIPT.

Inductive PkgName := SOLANA_CLI | SPL_TOKEN_CLI | SUGAR_CLI.

Definition PkgName_eqb (a b : PkgName) : bool :=
  match a, b with
  | SOLANA_CLI, SOLANA_CLI | SPL_TOKEN_CLI, SPL_TOKEN_CLI
  | SUGAR_CLI, SUGAR_CLI => true
  | _, _ => false
  end.

(** The text constants and decorations of [PgTerminal] that the shell
    prints; the sources do not contain them. *)
Class TerminalText := {
  PROMPT_PREFIX : jsstring;
  WAITING_INPUT_PROMPT_PREFIX : jsstring;
  WAITING_INPUT_MSG_PREFIX : jsstring;
  secondary : jsstring -> jsstring;
  italic : jsstring -> jsstring }.

(** ** Collaborators outside the sources *)

Definition AutoCompleteHandler := Z -> list jsstring -> list jsstring.

(** The helpers the shell imports from its utilities module: word-boundary
    search, candidate collection, the trailing-white-space test and the
    multi-line continuation predicate. They are parameters of the shell. *)
Class ShellUtils := {
  closestLeftBoundary : jsstring -> Z -> Z;
  closestRightBoundary : jsstring -> Z -> Z;
  collectAutocompleteCandidates :
    list AutoCompleteHandler -> jsstring -> list jsstring;
  hasTrailingWhitespace : jsstring -> bool;
  isIncompleteInput : jsstring -> bool }.

(** The history object the shell owns ([PgShellHistory]), through the
    operations the shell calls. [getPrevious] and [getNext] return a string
    or undefined and move the traversal cursor. *)
Class ShellHistory := {
  History : Type;
  newHistory : Z -> History;
  getEntries : History -> list jsstring;
  push : jsstring -> History -> History;
  getPrevious : History -> option jsstring * History;
  getNext : History -> option jsstring * History }.

(** ** The terminal surface (PgTty) *)

(** What the shell asks the surface to render. *)
Inductive TtyOut :=
| Print (s : jsstring)
| Println (s : jsstring)
| PrintWide (items : list jsstring)
| ClearInput
| ClearLine
| ClearTty
| Clear
| ReadLine (prefix : jsstring)
| ReadChar (prefix : jsstring).

(** A pending read: the promise it stands for and, when present, the
    resolver of that promise. *)
Record ActivePrompt := {
  ap_promptPrefix : jsstring;
  ap_promise : nat;
  ap_resolve : option nat }.

Record ActiveCharPrompt := {
  acp_promptPrefix : jsstring;
  acp_promise : nat;
  acp_resolve : option nat }.

(** Modelled from the spec: the [PgTty] class is not among the sources. The
    rendering sink holds the input line and the cursor offset, which its
    getters and setters read and replace; printing and clearing only reach
    the screen; [bufferLine] is the text of the terminal buffer's current
    line up to the cursor column, absent when the buffer has no such line;
    [inputStartsWithPrompt] is the surface's own answer to whether the
    visible input still starts with the prompt prefix. *)
Record PgTty := {
  input : jsstring;
  cursor : Z;
  promptPrefix : jsstring;
  firstInit : bool;
  inputStartsWithPrompt : bool;
  bufferLine : option jsstring;
  screen : list TtyOut }.

(** Modelled from the spec: the operations of the rendering sink that the
    shell consumes (get and set the input text and the cursor, print, clear,
    issue a read). *)
Module Tty.
(** [setInput(newInput, flag)]: the optional second argument only
    concerns how the surface redraws the line. *)
Definition setInput (v : jsstring) (flag : bool) (t : PgTty) : PgTty :=
  {| input := v; cursor := cursor t; promptPrefix := promptPrefix t;
     firstInit := firstInit t;
     inputStartsWithPrompt := inputStartsWithPrompt t;
     bufferLine := bufferLine t; screen := screen t |}.

Definition setCursor (c : Z) (t : PgTty) : PgTty :=
  {| input := input t; cursor := c; promptPrefix := promptPrefix t;
     firstInit := firstInit t;
     inputStartsWithPrompt := inputStartsWithPrompt t;
     bufferLine := bufferLine t; screen := screen t |}.

Definition setCursorDirectly := setCursor.

Definition setPromptPrefix (p : jsstring) (t : PgTty) : PgTty :=
  {| input := input t; cursor := cursor t; promptPrefix := p;
     firstInit := firstInit t;
     inputStartsWithPrompt := inputStartsWithPrompt t;
     bufferLine := bufferLine t; screen := screen t |}.

Definition setFirstInit (b : bool) (t : PgTty) : PgTty :=
  {| input := input t; cursor := cursor t; promptPrefix := promptPrefix t;
     firstInit := b;
     inputStartsWithPrompt := inputStartsWithPrompt t;
     bufferLine := bufferLine t; screen := screen t |}.

Definition render (o : TtyOut) (t : PgTty) : PgTty :=
  {| input := input t; cursor := cursor t; promptPrefix := promptPrefix t;
     firstInit := firstInit t;
     inputStartsWithPrompt := inputStartsWithPrompt t;
     bufferLine := bufferLine t; screen := screen t ++ [o] |}.

Definition print (s : jsstring) := render (Print s).
Definition println (s : jsstring) := render (Println s).
Definition printWide (l : list jsstring) := render (PrintWide l).
Definition clearInput := render ClearInput.
Definition clearLine := render ClearLine.
Definition clearTty := render ClearTty.
Definition clear := render Clear.

(** Issuing a line read shows the prefix and starts from an empty line. *)
Definition read (prefix : jsstring) (t : PgTty) : PgTty :=
  render (ReadLine prefix)
    (setCursor 0 (setInput [] false (setPromptPrefix prefix t))).

Definition readChar (prefix : jsstring) (t : PgTty) : PgTty :=
  render (ReadChar prefix) t.
End Tty.

(** ** The browser around the shell *)

(** The payload of a custom event. *)
Inductive Detail :=
| NoDetail
| FormatDetail (lang : Lang) (fromTerminal : bool)
| RunDetail (isTest : bool) (path : option jsstring).

(** What the dispatcher hands to the rest of the client. [LoadPkg] is the
    start of the asynchronous package load whose continuation runs the
    package's entry point on the command line; [RunCmd] hands the sugar job
    to the terminal's command runner. *)
Inductive Event :=
| SetTerminalState (a : TerminalAction)
| LogWasm (msg : jsstring)
| CustomEvent (name : EventName) (detail : Detail)
| LoadPkg (pkg : PkgName) (log : bool) (cmd : jsstring)
| RunCmd (cmd : jsstring).

(** What waits for a promise: the rest of [prompt] after its await, the
    answer handler of the over-limit confirmation, and [resume]. *)
Inductive Continuation :=
| KPromptHistory
| KCharConfirm (candidates : list jsstring) (chained : nat)
| KResume.

(** Timers, promises, the document's listeners for the wait-for-input
    event, the events handed out so far, and whether the playground wallet
    is connected. *)
Record Browser := {
  nextId : nat;
  timers : nat;
  listeners : list nat;
  awaiting : list (nat * Continuation);
  microtasks : list (Continuation * jsstring);
  settled : list (nat * jsstring);
  events : list Event;
  walletConnected : bool }.

Module Br.
Definition fresh (b : Browser) : nat * Browser :=
  (nextId b,
   {| nextId := S (nextId b); timers := timers b; listeners := listeners b;
      awaiting := awaiting b; microtasks := microtasks b;
      settled := settled b; events := events b;
      walletConnected := walletConnected b |}).

(** [setTimeout(callback, 10)] with the callback of [enable]. *)
Definition setTimeout (b : Browser) : Browser :=
  {| nextId := nextId b; timers := S (timers b); listeners := listeners b;
     awaiting := awaiting b; microtasks := microtasks b;
     settled := settled b; events := events b;
     walletConnected := walletConnected b |}.

Definition clearTimer (b : Browser) : Browser :=
  {| nextId := nextId b; timers := pred (timers b);
     listeners := listeners b;
     awaiting := awaiting b; microtasks := microtasks b;
     settled := settled b; events := events b;
     walletConnected := walletConnected b |}.

Definition setListeners (l : list nat) (b : Browser) : Browser :=
  {| nextId := nextId b; timers := timers b; listeners := l;
     awaiting := awaiting b; microtasks := microtasks b;
     settled := settled b; events := events b;
     walletConnected := walletConnected b |}.

Definition addEventListener (w : nat) (b : Browser) : Browser :=
  setListeners (listeners b ++ [w]) b.

Definition removeEventListener (w : nat) (b : Browser) : Browser :=
  setListeners (filter (fun x => negb (Nat.eqb x w)) (listeners b)) b.

(** [await p] / [p.then(k)]: [k] runs once [p] is fulfilled. *)
Definition await (p : nat) (k : Continuation) (b : Browser) : Browser :=
  {| nextId := nextId b; timers := timers b; listeners := listeners b;
     awaiting := awaiting b ++ [(p, k)]; microtasks := microtasks b;
     settled := settled b; events := events b;
     walletConnected := walletConnected b |}.

Definition isSettled (p : nat) (b : Browser) : bool :=
  existsb (fun x => Nat.eqb (fst x) p) (settled b).

(** Fulfilling a promise: a second call is ignored; the continuations
    that wait for it are queued as microtasks with the value. *)
Definition resolve (p : nat) (v : jsstring) (b : Browser) : Browser :=
  if isSettled p b then b
  else
    {| nextId := nextId b; timers := timers b; listeners := listeners b;
       awaiting := filter (fun x => negb (Nat.eqb (fst x) p)) (awaiting b);
       microtasks :=
         microtasks b
         ++ map (fun x => (snd x, v))
              (filter (fun x => Nat.eqb (fst x) p) (awaiting b));
       settled := settled b ++ [(p, v)]; events := events b;
       walletConnected := walletConnected b |}.

Definition setMicrotasks (m : list (Continuation * jsstring))
           (b : Browser) : Browser :=
  {| nextId := nextId b; timers := timers b; listeners := listeners b;
     awaiting := awaiting b; microtasks := m;
     settled := settled b; events := events b;
     walletConnected := walletConnected b |}.

Definition emit (e : Event) (b : Browser) : Browser :=
  {| nextId := nextId b; timers := timers b; listeners := listeners b;
     awaiting := awaiting b; microtasks := microtasks b;
     settled := settled b; events := events b ++ [e];
     walletConnected := walletConnected b |}.
End Br.

(** [PgWallet.checkIsPgConnected] is not among the sources. It is taken as
    given: it answers whether the wallet precondition is met, and whatever
    else it does (it may log, or ask for the terminal to be enabled) shows
    in the browser state it returns. *)
Class Wallet := {
  checkIsPgConnected : Browser -> bool * Browser }.

(** Modelled from the spec: the wallet-connected precondition. A handler
    whose precondition is unmet does nothing, after still calling
    [enable()], and the prompt is released; the dispatcher's own arms
    return right after the failed test, so the call to [enable] is the
    check's. When the wallet is connected the check only answers. *)
Definition walletFromSpec : Wallet := {|
  checkIsPgConnected := fun b =>
    if walletConnected b then (true, b) else (false, Br.setTimeout b) |}.

(** ** The shell *)

Section Shell.

Context {names : ExtraCommandNames} {text : TerminalText}
        {utils : ShellUtils} {hist : ShellHistory} {wallet : Wallet}.

(** The fields of the class. The registered autocomplete handlers are
    closures over the shell's history object, so they take the history as
    it is when they are called. [_loadedPkgs] is the object used as a map
    from package name to boolean. *)
Record PgShell := {
  _pgTty : PgTty;
  _history : History;
  _active : bool;
  _waitingForInput : bool;
  _processCount : Z;
  _maxAutocompleteEntries : Z;
  _autocompleteHandlers : list (History -> AutoCompleteHandler);
  _loadedPkgs : list (PkgName * bool);
  _activePrompt : option ActivePrompt;
  _activeCharPrompt : option ActiveCharPrompt;
  browser : Browser }.

Definition onTty (f : PgTty -> PgTty) (s : PgShell) : PgShell :=
  {| _pgTty := f (_pgTty s); _history := _history s; _active := _active s;
     _waitingForInput := _waitingForInput s;
     _processCount := _processCount s;
     _maxAutocompleteEntries := _maxAutocompleteEntries s;
     _autocompleteHandlers := _autocompleteHandlers s;
     _loadedPkgs := _loadedPkgs s; _activePrompt := _activePrompt s;
     _activeCharPrompt := _activeCharPrompt s; browser := browser s |}.

Definition onBrowser (f : Browser -> Browser) (s : PgShell) : PgShell :=
  {| _pgTty := _pgTty s; _history := _history s; _active := _active s;
     _waitingForInput := _waitingForInput s;
     _processCount := _processCount s;
     _maxAutocompleteEntries := _maxAutocompleteEntries s;
     _autocompleteHandlers := _autocompleteHandlers s;
     _loadedPkgs := _loadedPkgs s; _activePrompt := _activePrompt s;
     _activeCharPrompt := _activeCharPrompt s; browser := f (browser s) |}.

Definition setHistory (h : History) (s : PgShell) : PgShell :=
  {| _pgTty := _pgTty s; _history := h; _active := _active s;
     _waitingForInput := _waitingForInput s;
     _processCount := _processCount s;
     _maxAutocompleteEntries := _maxAutocompleteEntries s;
     _autocompleteHandlers := _autocompleteHandlers s;
     _loadedPkgs := _loadedPkgs s; _activePrompt := _activePrompt s;
     _activeCharPrompt := _activeCharPrompt s; browser := browser s |}.

Definition setActive (b : bool) (s : PgShell) : PgShell :=
  {| _pgTty := _pgTty s; _history := _history s; _active := b;
     _waitingForInput := _waitingForInput s;
     _processCount := _processCount s;
     _maxAutocompleteEntries := _maxAutocompleteEntries s;
     _autocompleteHandlers := _autocompleteHandlers s;
     _loadedPkgs := _loadedPkgs s; _activePrompt := _activePrompt s;
     _activeCharPrompt := _activeCharPrompt s; browser := browser s |}.

Definition setWaitingForInput (b : bool) (s : PgShell) : PgShell :=
  {| _pgTty := _pgTty s; _history := _history s; _active := _active s;
     _waitingForInput := b;
     _processCount := _processCount s;
     _maxAutocompleteEntries := _maxAutocompleteEntries s;
     _autocompleteHandlers := _autocompleteHandlers s;
     _loadedPkgs := _loadedPkgs s; _activePrompt := _activePrompt s;
     _activeCharPrompt := _activeCharPrompt s; browser := browser s |}.

Definition setProcessCount (n : Z) (s : PgShell) : PgShell :=
  {| _pgTty := _pgTty s; _history := _history s; _active := _active s;
     _waitingForInput := _waitingForInput s;
     _processCount := n;
     _maxAutocompleteEntries := _maxAutocompleteEntries s;
     _autocompleteHandlers := _autocompleteHandlers s;
     _loadedPkgs := _loadedPkgs s; _activePrompt := _activePrompt s;
     _activeCharPrompt := _activeCharPrompt s; browser := browser s |}.

Definition setLoadedPkgs (m : list (PkgName * bool)) (s : PgShell)
  : PgShell :=
  {| _pgTty := _pgTty s; _history := _history s; _active := _active s;
     _waitingForInput := _waitingForInput s;
     _processCount := _processCount s;
     _maxAutocompleteEntries := _maxAutocompleteEntries s;
     _autocompleteHandlers := _autocompleteHandlers s;
     _loadedPkgs := m; _activePrompt := _activePrompt s;
     _activeCharPrompt := _activeCharPrompt s; browser := browser s |}.

Definition setActivePrompt (p : option ActivePrompt) (s : PgShell)
  : PgShell :=
  {| _pgTty := _pgTty s; _history := _history s; _active := _active s;
     _waitingForInput := _waitingForInput s;
     _processCount := _processCount s;
     _maxAutocompleteEntries := _maxAutocompleteEntries s;
     _autocompleteHandlers := _autocompleteHandlers s;
     _loadedPkgs := _loadedPkgs s; _activePrompt := p;
     _activeCharPrompt := _activeCharPrompt s; browser := browser s |}.

Definition setActiveCharPrompt (p : option ActiveCharPrompt) (s : PgShell)
  : PgShell :=
  {| _pgTty := _pgTty s; _history := _history s; _active := _active s;
     _waitingForInput := _waitingForInput s;
     _processCount := _processCount s;
     _maxAutocompleteEntries := _maxAutocompleteEntries s;
     _autocompleteHandlers := _autocompleteHandlers s;
     _loadedPkgs := _loadedPkgs s; _activePrompt := _activePrompt s;
     _activeCharPrompt := p; browser := browser s |}.

Definition getInput (s : PgShell) : jsstring := input (_pgTty s).
Definition getCursor (s : PgShell) : Z := cursor (_pgTty s).

(** [this._pgTty.read(prefix)]: the surface issues the read and returns a
    pending read whose promise is new. *)
Definition ttyRead (prefix : jsstring) (s : PgShell)
  : ActivePrompt * PgShell :=
  let (p, b) := Br.fresh (browser s) in
  ({| ap_promptPrefix := prefix; ap_promise := p; ap_resolve := Some p |},
   onBrowser (fun _ => b) (onTty (Tty.read prefix) s)).

Definition ttyReadChar (prefix : jsstring) (s : PgShell)
  : ActiveCharPrompt * PgShell :=
  let (p, b) := Br.fresh (browser s) in
  ({| acp_promptPrefix := prefix; acp_promise := p; acp_resolve := Some p |},
   onBrowser (fun _ => b) (onTty (Tty.readChar prefix) s)).

(** The constructor, with its default options. *)
Definition defaultHistorySize : Z := 30.
Definition defaultMaxAutocompleteEntries : Z := 100.

Definition new (pgTty : PgTty) (historySize maxAutocompleteEntries : Z)
           (b : Browser) : PgShell :=
  {| _pgTty := pgTty;
     _history := newHistory historySize;
     _maxAutocompleteEntries := maxAutocompleteEntries;
     _autocompleteHandlers := [fun h _ _ => getEntries h];
     _active := false;
     _waitingForInput := false;
     _processCount := 0;
     _loadedPkgs := [];
     _activePrompt := None;
     _activeCharPrompt := None;
     browser := b |}.

Definition _incrementProcessCount (s : PgShell) : PgShell :=
  setProcessCount (_processCount s + 1) s.

(** Decrements the process count when it is not zero. *)
Definition _decrementProcessCount (s : PgShell) : PgShell :=
  if _processCount s =? 0 then s
  else setProcessCount (_processCount s - 1) s.

Definition disable (s : PgShell) : PgShell :=
  setActive false (_incrementProcessCount s).

(** [enable] only arms a timer; [enableCallback] below is what the timer
    runs. *)
Definition enable (s : PgShell) : PgShell := onBrowser Br.setTimeout s.

(** [prompt], up to its await. The surface of the model never throws, so
    the catch arm of the source is not entered. *)
Definition prompt (s : PgShell) : PgShell :=
  if match _activePrompt s with Some _ => true | None => false end
     && inputStartsWithPrompt (_pgTty s)
  then s
  else
    let promptText :=
      if _waitingForInput s then WAITING_INPUT_PROMPT_PREFIX
      else PROMPT_PREFIX in
    let (p, s1) := ttyRead promptText s in
    let s2 := setActive true (setActivePrompt (Some p) s1) in
    onBrowser (Br.await (ap_promise p) KPromptHistory) s2.

Definition enableCallback (s : PgShell) : PgShell :=
  let s1 := _decrementProcessCount s in
  if _processCount s1 =? 0 then
    let s2 := setActive true s1 in
    let s3 := prompt s2 in
    snd (ttyRead [] s3)
  else s1.

(** One armed timer of [enable] fires. *)
Definition fireTimer (s : PgShell) : option PgShell :=
  match timers (browser s) with
  | O => None
  | S _ => Some (enableCallback (onBrowser Br.clearTimer s))
  end.

Definition isPrompting (s : PgShell) : bool := _active s.

Definition resume (s : PgShell) : PgShell :=
  let s1 := onTty (Tty.setCursor (getCursor s)) s in
  onTty (Tty.setInput (getInput s1) false) s1.

(** What a callback of [printAndRestartPrompt] returns: undefined or a
    promise. *)
Definition printAndRestartPrompt
           (callback : PgShell -> option nat * PgShell) (s : PgShell)
  : PgShell :=
  let s1 := onTty (Tty.setCursor (JS.length (getInput s))) s in
  let s2 := onTty (Tty.print [13; 10]) s1 in
  match callback s2 with
  | (Some ret, s3) => onBrowser (Br.await ret KResume) s3
  | (None, s3) => resume s3
  end.

(** A queued continuation runs. When the answer handler ends, the promise
    that [then] returned for it is fulfilled; [resume] waits on that one. *)
Definition runContinuation (k : Continuation) (v : jsstring) (s : PgShell)
  : PgShell :=
  match k with
  | KPromptHistory =>
      setHistory (push (JS.trim (getInput s)) (_history s)) s
  | KCharConfirm candidates chained =>
      let s1 :=
        if JS.eqb v (JS.lit "y") || JS.eqb v (JS.lit "Y")
        then onTty (Tty.printWide candidates) s else s in
      onBrowser (Br.resolve chained []) s1
  | KResume => resume s
  end.

Definition runMicrotask (s : PgShell) : option PgShell :=
  match microtasks (browser s) with
  | [] => None
  | (k, v) :: rest =>
      Some (runContinuation k v (onBrowser (Br.setMicrotasks rest) s))
  end.

(** The listener [handleInput] that the wait request [w] registered. *)
Definition handleInput (w : nat) (s : PgShell) : PgShell :=
  let s1 := setWaitingForInput false s in
  let s2 := onBrowser (Br.removeEventListener w) s1 in
  onBrowser (Br.resolve w (getInput s2)) s2.

(** Modelled from the spec: [PgCommon.createAndDispatchCustomEvent] is not
    among the sources. The event is broadcast to the client, and the
    wait-for-input event runs the listeners that [waitForUserInput]
    registered on the document for it, in the order of registration. *)
Definition createAndDispatchCustomEvent (name : EventName) (d : Detail)
           (s : PgShell) : PgShell :=
  let s1 := onBrowser (Br.emit (CustomEvent name d)) s in
  match name with
  | TERMINAL_WAIT_FOR_INPUT =>
      fold_left (fun st w => handleInput w st) (listeners (browser s1)) s1
  | _ => s1
  end.

(** The call [PgWallet.checkIsPgConnected()] made from the shell. *)
Definition checkWallet (s : PgShell) : bool * PgShell :=
  let (ok, b) := checkIsPgConnected (browser s) in
  (ok, onBrowser (fun _ => b) s).

Definition isLoaded (pkg : PkgName) (s : PgShell) : bool :=
  match find (fun kv => PkgName_eqb (fst kv) pkg) (_loadedPkgs s) with
  | Some kv => snd kv
  | None => false
  end.

Definition markLoaded (pkg : PkgName) (s : PgShell) : PgShell :=
  setLoadedPkgs
    ((pkg, true)
     :: filter (fun kv => negb (PkgName_eqb (fst kv) pkg)) (_loadedPkgs s))
    s.

(** The body shared by the package-backed commands, up to the await of
    the package load. *)
Definition startPkg (pkg : PkgName) (cmd : jsstring) (s : PgShell)
  : PgShell :=
  let initial := negb (isLoaded pkg s) in
  let s1 := if initial then markLoaded pkg s else s in
  onBrowser (Br.emit (LoadPkg pkg initial cmd)) s1.

(** The job the sugar command hands to the terminal's command runner. *)
Definition sugarJob (cmd : jsstring) (s : PgShell) : PgShell :=
  let (ok, s1) := checkWallet s in
  if ok then startPkg SUGAR_CLI cmd s1 else s1.

(** *** The command dispatcher *)

(** The arm of the switch that a command name selects: the first case, in
    the order of the source, whose label equals it. *)
Inductive Case :=
| CaseBUILD | CaseCLEAR | CaseCONNECT | CaseDEPLOY | CaseHELP
| CasePRETTIER | CaseRUN_LAST_CMD | CaseRUN_TEST | CaseRUSTFMT
| CaseSOLANA | CaseSPL_TOKEN | CaseSUGAR | CaseNone.

Definition switchCase (cmdName : jsstring) : Case :=
  if JS.eqb cmdName PgCommand.BUILD then CaseBUILD
  else if JS.eqb cmdName PgCommand.CLEAR then CaseCLEAR
  else if JS.eqb cmdName PgCommand.CONNECT then CaseCONNECT
  else if JS.eqb cmdName PgCommand.DEPLOY then CaseDEPLOY
  else if JS.eqb cmdName PgCommand.HELP then CaseHELP
  else if JS.eqb cmdName PRETTIER then CasePRETTIER
  else if JS.eqb cmdName PgCommand.RUN_LAST_CMD then CaseRUN_LAST_CMD
  else if JS.eqb cmdName RUN then CaseRUN_TEST
  else if JS.eqb cmdName TEST then CaseRUN_TEST
  else if JS.eqb cmdName RUSTFMT then CaseRUSTFMT
  else if JS.eqb cmdName PgCommand.SOLANA then CaseSOLANA
  else if JS.eqb cmdName PgCommand.SPL_TOKEN then CaseSPL_TOKEN
  else if JS.eqb cmdName SUGAR then CaseSUGAR
  else CaseNone.

(** The command name: the first space-delimited token of the trimmed
    line. *)
Definition cmdNameOf (cmd : jsstring) : jsstring :=
  JS.splitSpaceFirst (JS.trim cmd).

(** Runs after pressing Enter in the terminal. The repeat-last-command arm
    calls the dispatcher again; [fuel] bounds the depth of those calls and
    [None] is the exhausted call stack. *)
Fixpoint _parseCommand (fuel : nat) (cmd : jsstring) (s : PgShell)
  : option PgShell :=
  match fuel with
  | O => None
  | S fuel' =>
      let cmdName := cmdNameOf cmd in
      match switchCase cmdName with
      | CaseBUILD =>
          Some (onBrowser (Br.emit (SetTerminalState buildStart)) s)
      | CaseCLEAR =>
          Some (prompt (onTty Tty.clear (onTty Tty.clearTty s)))
      | CaseCONNECT =>
          Some (onBrowser
                  (Br.emit (SetTerminalState walletConnectOrSetupStart)) s)
      | CaseDEPLOY =>
          let (ok, s1) := checkWallet s in
          if ok
          then Some (onBrowser (Br.emit (SetTerminalState deployStart)) s1)
          else Some s1
      | CaseHELP =>
          Some (enable (onBrowser (Br.emit (LogWasm PgCommand.help)) s))
      | CasePRETTIER =>
          Some (createAndDispatchCustomEvent EDITOR_FORMAT
                  (FormatDetail TYPESCRIPT true) s)
      | CaseRUN_LAST_CMD =>
          let entries := getEntries (_history s) in
          match entries with
          | [] =>
              Some (enable
                      (onTty (Tty.println (JS.lit "No previous command."))
                         s))
          | e :: rest => _parseCommand fuel' (last rest e) s
          end
      | CaseRUN_TEST =>
          Some (createAndDispatchCustomEvent CLIENT_RUN
                  (RunDetail (JS.startsWith cmd TEST)
                     (JS.execWordRest cmd)) s)
      | CaseRUSTFMT =>
          Some (createAndDispatchCustomEvent EDITOR_FORMAT
                  (FormatDetail RUST true) s)
      | CaseSOLANA =>
          let (ok, s1) := checkWallet s in
          if ok then Some (startPkg SOLANA_CLI cmd s1) else Some s1
      | CaseSPL_TOKEN =>
          let (ok, s1) := checkWallet s in
          if ok then Some (startPkg SPL_TOKEN_CLI cmd s1) else Some s1
      | CaseSUGAR => Some (onBrowser (Br.emit (RunCmd cmd)) s)
      | CaseNone =>
          (* Only new prompt after invalid command, other commands will
             automatically generate new prompt *)
          let s1 :=
            if JS.truthy cmdName
            then onTty (Tty.println
                          (JS.lit "Command '" ++ italic cmd
                           ++ JS.lit "' not found." ++ [10])) s
            else s in
          Some (enable s1)
      end
  end.

(** *** Completing a read *)

Definition handleReadComplete (fuel : nat) (clearCmd : bool) (s : PgShell)
  : option PgShell :=
  let input := getInput s in
  let s1 :=
    match _activePrompt s with
    | Some p =>
        match ap_resolve p with
        | Some r => setActivePrompt None (onBrowser (Br.resolve r input) s)
        | None => s
        end
    | None => s
    end in
  let s2 := if clearCmd then onTty Tty.clearLine s1
            else onTty (Tty.print [13; 10]) s1 in
  let s3 := setActive false s2 in
  if _waitingForInput s3
  then Some (createAndDispatchCustomEvent TERMINAL_WAIT_FOR_INPUT NoDetail s3)
  else _parseCommand fuel input s3.

(** *** Waiting for user input *)

(** How the promise of [waitForUserInput] stands when the call returns:
    rejected with a reason, or pending as request [w]. *)
Inductive WaitResult :=
| Rejected (reason : jsstring)
| Pending (w : nat).

Definition waitForUserInput (msg : jsstring) (s : PgShell)
  : WaitResult * PgShell :=
  if _waitingForInput s
  then (Rejected (JS.lit "Already waiting for input."), s)
  else
    let s1 := setWaitingForInput true s in
    let s2 := onTty Tty.clearLine s1 in
    let s3 :=
      onTty (Tty.println (secondary WAITING_INPUT_MSG_PREFIX ++ msg)) s2 in
    let s4 := enable s3 in
    let (w, b) := Br.fresh (browser s4) in
    (Pending w, onBrowser (fun _ => Br.addEventListener w b) s4).

(** *** Cursor handlers *)

(** Move cursor at given direction. *)
Definition _handleCursorMove (dir : Z) (s : PgShell) : PgShell :=
  if 0 <? dir then
    let num := Z.min dir (JS.length (getInput s) - getCursor s) in
    onTty (Tty.setCursorDirectly (getCursor s + num)) s
  else if dir <? 0 then
    let num := Z.max dir (- getCursor s) in
    onTty (Tty.setCursorDirectly (getCursor s + num)) s
  else s.

(** Insert character at cursor location. *)
Definition _handleCursorInsert (data : jsstring) (s : PgShell) : PgShell :=
  let newInput :=
    JS.substring (getInput s) 0 (getCursor s)
    ++ data ++ JS.substringFrom (getInput s) (getCursor s) in
  let s1 := onTty (Tty.setCursorDirectly (getCursor s + JS.length data)) s in
  onTty (Tty.setInput newInput false) s1.

(** Erase a character at cursor location. *)
Definition _handleCursorErase (backspace : bool) (s : PgShell) : PgShell :=
  if backspace then
    if getCursor s <=? 0 then s
    else
      let newInput :=
        JS.substring (getInput s) 0 (getCursor s - 1)
        ++ JS.substringFrom (getInput s) (getCursor s) in
      let s1 := onTty Tty.clearInput s in
      let s2 := onTty (Tty.setCursorDirectly (getCursor s1 - 1)) s1 in
      onTty (Tty.setInput newInput true) s2
  else
    let newInput :=
      JS.substring (getInput s) 0 (getCursor s)
      ++ JS.substringFrom (getInput s) (getCursor s + 1) in
    onTty (Tty.setInput newInput false) s.

(** *** Handling terminal data *)

(** Up arrow and CTRL+P. *)
Definition historyPrevious (s : PgShell) : PgShell :=
  let (value, h) := getPrevious (_history s) in
  let s1 := setHistory h s in
  match value with
  | Some v =>
      if JS.truthy v
      then onTty (Tty.setCursor (JS.length v))
             (onTty (Tty.setInput v false) s1)
      else s1
  | None => s1
  end.

(** Down arrow and CTRL+N. *)
Definition historyNext (s : PgShell) : PgShell :=
  let (value, h) := getNext (_history s) in
  let s1 := setHistory h s in
  let v := match value with
           | Some v => if JS.truthy v then v else []
           | None => []
           end in
  onTty (Tty.setCursor (JS.length v)) (onTty (Tty.setInput v false) s1).

(** The candidates that TAB works with, when there are handlers: collected
    from them for the input up to the cursor, then sorted. *)
Definition collectedCandidates (s : PgShell) : option (list jsstring) :=
  match _autocompleteHandlers s with
  | _ :: _ =>
      Some (JS.sort
              (collectAutocompleteCandidates
                 (map (fun h => h (_history s)) (_autocompleteHandlers s))
                 (JS.substring (getInput s) 0 (getCursor s))))
  | [] => None
  end.

Definition handleTab (s : PgShell) : PgShell :=
  match collectedCandidates s with
  | Some candidates =>
      let inputFragment := JS.substring (getInput s) 0 (getCursor s) in
      let hasTrailingSpace := hasTrailingWhitespace inputFragment in
      match candidates with
      | [] =>
          (* No candidates? Just add a space if there is none already *)
          if negb hasTrailingSpace then _handleCursorInsert [32] s else s
      | [c] =>
          onTty (Tty.setCursor (JS.length c))
            (onTty (Tty.setInput c false) s)
      | _ =>
          if Z.of_nat (List.length candidates) <=? _maxAutocompleteEntries s
          then
            printAndRestartPrompt
              (fun st => (None, onTty (Tty.printWide candidates) st)) s
          else
            printAndRestartPrompt
              (fun st =>
                 let (cp, st1) :=
                   ttyReadChar
                     (JS.lit "Display all "
                      ++ JS.ofNat (List.length candidates)
                      ++ JS.lit " possibilities? (y or n)") st in
                 let (q, b) := Br.fresh (browser st1) in
                 (Some q,
                  onBrowser
                    (fun _ =>
                       Br.await (acp_promise cp) (KCharConfirm candidates q)
                         b) st1)) s
      end
  | None => _handleCursorInsert (JS.lit "    ") s
  end.

(** The arm for ANSI escape sequences, on [data.substring(1)]. *)
Definition handleEscape (seq : jsstring) (s : PgShell) : PgShell :=
  if JS.eqb seq (JS.lit "[A") then historyPrevious s
  else if JS.eqb seq (JS.lit "[B") then historyNext s
  else if JS.eqb seq (JS.lit "[D") then _handleCursorMove (-1) s
  else if JS.eqb seq (JS.lit "[C") then _handleCursorMove 1 s
  else if JS.eqb seq (JS.lit "[3~") then _handleCursorErase false s
  else if JS.eqb seq (JS.lit "[F")
  then onTty (Tty.setCursor (JS.length (getInput s))) s
  else if JS.eqb seq (JS.lit "[H") then onTty (Tty.setCursor 0) s
  else if JS.eqb seq (JS.lit "b") then
    (* ALT + LEFT *)
    let ofs := closestLeftBoundary (getInput s) (getCursor s) in
    if ofs =? 0 then s else onTty (Tty.setCursor ofs) s
  else if JS.eqb seq (JS.lit "f") then
    (* ALT + RIGHT *)
    let ofs := closestRightBoundary (getInput s) (getCursor s) in
    if ofs =? 0 then s else onTty (Tty.setCursor ofs) s
  else if JS.eqb seq [127] then
    (* CTRL + BACKSPACE *)
    let ofs := closestLeftBoundary (getInput s) (getCursor s) in
    if ofs =? 0 then s
    else
      onTty (Tty.setCursor ofs)
        (onTty
           (Tty.setInput
              (JS.substring (getInput s) 0 ofs
               ++ JS.substringFrom (getInput s) (getCursor s)) false) s)
  else s.

(** The arm for special characters, on [data] itself. *)
Definition handleSpecial (fuel : nat) (data : jsstring) (s : PgShell)
  : option PgShell :=
  if JS.eqb data [13] then
    (* ENTER *)
    if isIncompleteInput (getInput s)
    then Some (_handleCursorInsert [10] s)
    else handleReadComplete fuel false s
  else if JS.eqb data [127] || JS.eqb data [8] || JS.eqb data [4]
  then Some (_handleCursorErase true s)
  else if JS.eqb data [9] then Some (handleTab s)
  else if JS.eqb data [1] then Some (onTty (Tty.setCursor 0) s)
  else if JS.eqb data [2] then Some (_handleCursorMove (-1) s)
  else if JS.eqb data [5]
  then Some (onTty (Tty.setCursor (JS.length (getInput s))) s)
  else if JS.eqb data [6] then Some (_handleCursorMove 1 s)
  else if JS.eqb data [7] then
    (* CTRL+G *)
    Some (onTty (Tty.setInput [] false)
            (setHistory (snd (getPrevious (_history s))) s))
  else if JS.eqb data [11] then
    (* CTRL+K *)
    let s1 :=
      onTty (Tty.setInput (JS.substring (getInput s) 0 (getCursor s)) false)
        s in
    Some (onTty (Tty.setCursor (JS.length (getInput s1))) s1)
  else if JS.eqb data [14] then Some (historyNext s)
  else if JS.eqb data [16] then Some (historyPrevious s)
  else if JS.eqb data [21] then
    (* CTRL+U *)
    Some (onTty (Tty.setCursor 0)
            (onTty
               (Tty.setInput (JS.substringFrom (getInput s) (getCursor s))
                  false) s))
  else Some s.

(** Handle a single piece of information from the terminal. *)
Definition _handleData (fuel : nat) (data : jsstring) (s : PgShell)
  : option PgShell :=
  (* Only Allow CTRL+C Through *)
  if negb (_active s) && negb (JS.eqb data [3]) then Some s
  else
    let ord := JS.charCodeAt0 data in
    if JS.num_eqb ord 27 then Some (handleEscape (JS.substringFrom data 1) s)
    else if JS.num_ltb ord 32 || JS.num_eqb ord 127
    then handleSpecial fuel data s
    else Some (_handleCursorInsert data s).

(** [array.forEach(c => this._handleData(c))]: an exception leaves the
    loop. *)
Fixpoint forEach (f : jsstring -> PgShell -> option PgShell)
         (l : list jsstring) (s : PgShell) : option PgShell :=
  match l with
  | [] => Some s
  | c :: r =>
      match f c s with
      | Some s' => forEach f r s'
      | None => None
      end
  end.

(** The first data after a read captures the prompt prefix from the
    terminal buffer. [None] is the early return of the source when the
    buffer has no line at the cursor row. *)
Definition capturePromptPrefix (s : PgShell) : option PgShell :=
  if firstInit (_pgTty s) then
    match _activePrompt s with
    | Some p =>
        match bufferLine (_pgTty s) with
        | None => None
        | Some promptRead =>
            let p' := {| ap_promptPrefix := promptRead;
                         ap_promise := ap_promise p;
                         ap_resolve := ap_resolve p |} in
            Some (onTty (Tty.setFirstInit false)
                    (onTty (Tty.setPromptPrefix promptRead)
                       (setActivePrompt (Some p') s)))
        end
    | None => Some s
    end
  else Some s.

(** Whether a chunk looks like pasted input. *)
Definition looksPasted (data : jsstring) : bool :=
  (3 <? JS.length data) && negb (JS.num_eqb (JS.charCodeAt0 data) 27).

(** The end of [handleTermData]: expand pasted input, or handle the chunk
    as it is. *)
Definition dispatchData (fuel : nat) (data : jsstring) (s : PgShell)
  : option PgShell :=
  if looksPasted data then
    let normData := JS.replaceNewlineRuns false data in
    forEach (_handleData fuel) (JS.arrayFrom normData) s
  else _handleData fuel data s.

(** The pending char read that has a resolver, if any. *)
Definition charResolver (s : PgShell) : option nat :=
  match _activeCharPrompt s with
  | Some cp => acp_resolve cp
  | None => None
  end.

(** Handle terminal -> tty input. *)
Definition handleTermData (fuel : nat) (data : jsstring) (s : PgShell)
  : option PgShell :=
  (* Only Allow CTRL+C through *)
  if negb (_active s) && negb (JS.eqb data [3]) then Some s
  else
    match capturePromptPrefix s with
    | None => Some s
    | Some s1 =>
        match charResolver s1 with
        | Some r =>
            (* an active character prompt is satisfied in priority *)
            Some (onTty (Tty.print [13; 10])
                    (setActiveCharPrompt None
                       (onBrowser (Br.resolve r data) s1)))
        | None => dispatchData fuel data s1
        end
    end.


(** *** Notions used in the statements *)

(** The escape sequences of ALT+LEFT and CTRL+BACKSPACE. *)
Definition ALT_LEFT : jsstring := 27 :: JS.lit "b".
Definition CTRL_BACKSPACE : jsstring := [27; 127].

Definition ENTER : jsstring := [13].

Definition TAB : jsstring := [9].

Inductive EditOp :=
| Move (dir : Z)
| Insert (data : jsstring)
| Erase (backspace : bool).

Definition applyEdit (op : EditOp) (s : PgShell) : PgShell :=
  match op with
  | Move dir => _handleCursorMove dir s
  | Insert data => _handleCursorInsert data s
  | Erase backspace => _handleCursorErase backspace s
  end.

(** The states after each operation of a sequence, in order. *)
Fixpoint editTrace (ops : list EditOp) (s : PgShell) : list PgShell :=
  match ops with
  | [] => []
  | op :: rest => applyEdit op s :: editTrace rest (applyEdit op s)
  end.

Definition cursorInBounds (s : PgShell) : Prop :=
  0 <= getCursor s <= JS.length (getInput s).

(** A request is outstanding for input [i] when its promise is not settled
    yet, or was settled with [i]. *)
Definition openFor (w : nat) (i : jsstring) (b : Browser) : Prop :=
  Br.isSettled w b = false \/ In (w, i) (settled b).

Definition runListeners (l : list nat) (s : PgShell) : PgShell :=
  fold_left (fun st w => handleInput w st) l s.

(** The maximal runs of a string, each tagged with whether it is a run of
    carriage returns and newlines. *)
Fixpoint runs (s : jsstring) : list (bool * jsstring) :=
  match s with
  | [] => []
  | c :: r =>
      match runs r with
      | (b, run) :: rest =>
          if Bool.eqb b (JS.isNewline c) then (b, c :: run) :: rest
          else (JS.isNewline c, [c]) :: (b, run) :: rest
      | [] => [(JS.isNewline c, [c])]
      end
  end.

Definition normalizeRun (r : bool * jsstring) : jsstring :=
  if fst r then [13] else snd r.

(** The normalisation in the words of the specification: every maximal
    run of CR/LF becomes one carriage return, the rest is kept. *)
Definition normalizeNewlines (s : jsstring) : jsstring :=
  flat_map normalizeRun (runs s).

(** Every run is non-empty and of one kind, and neighbouring runs are of
    different kinds: the runs are maximal. *)
Definition uniformRun (r : bool * jsstring) : Prop :=
  snd r <> [] /\ Forall (fun c => JS.isNewline c = fst r) (snd r).

Fixpoint alternating (l : list (bool * jsstring)) : Prop :=
  match l with
  | r1 :: tl =>
      match tl with
      | r2 :: _ => fst r1 <> fst r2 /\ alternating tl
      | [] => True
      end
  | [] => True
  end.

(** One code point: a single unit, or a surrogate pair. *)
Definition isCodePoint (c : jsstring) : Prop :=
  match c with
  | [_] => True
  | [h; l] => JS.isHighSurrogate h && JS.isLowSurrogate l = true
  | _ => False
  end.

(** The arms of the dispatcher that test the wallet themselves. *)
Definition needsWallet (c : Case) : bool :=
  match c with
  | CaseDEPLOY | CaseSOLANA | CaseSPL_TOKEN => true
  | _ => false
  end.

Unset Implicit Arguments.

(** *** Notions used in further statements *)

(** The input line with its cursor. *)
Definition lineOf (s : PgShell) : jsstring * Z := (getInput s, getCursor s).

(** A unit that the handler takes as visible text when it leads a chunk. *)
Definition printable (c : Z) : bool := (32 <=? c) && negb (c =? 127).

(** A unit that leads a chunk of the special-character arm. *)
Definition controlUnit (c : Z) : bool :=
  negb (c =? 27) && ((c <? 32) || (c =? 127)).

(** The word-boundary searches answer inside the current line. *)
Definition boundariesInRange (s : PgShell) : Prop :=
  0 <= closestLeftBoundary (getInput s) (getCursor s)
    <= JS.length (getInput s)
  /\ 0 <= closestRightBoundary (getInput s) (getCursor s)
       <= JS.length (getInput s).

(** The chunks of CTRL+G, CTRL+K and CTRL+U. *)
Definition CTRL_G : jsstring := [7].
Definition CTRL_K : jsstring := [11].
Definition CTRL_U : jsstring := [21].

(** [n] calls in a row. *)
Fixpoint repeatedly (n : nat) (f : PgShell -> PgShell) (s : PgShell)
  : PgShell :=
  match n with
  | O => s
  | S n' => repeatedly n' f (f s)
  end.

Set Implicit Arguments.

Unset Implicit Arguments.

(** The question of the over-limit confirmation for [n] candidates. *)
Definition displayAllQuestion (n : nat) : jsstring :=
  JS.lit "Display all " ++ JS.ofNat n ++ JS.lit " possibilities? (y or n)".

(** Ascending order of the default sort. *)
Definition ascending (l : list jsstring) : Prop :=
  Sorted (fun a b => JS.leb a b = true) l.

Set Implicit Arguments.

Unset Implicit Arguments.

(** A command word: at least one unit, none of them white space. *)
Definition isWord (name : jsstring) : Prop :=
  name <> [] /\ Forall (fun c => JS.isWhiteSpace c = false) name.

(** What may follow the command word on the line: nothing, or a space and
    anything. *)
Definition startsWithSpace (rest : jsstring) : Prop :=
  match rest with
  | [] => True
  | c :: _ => c = 32
  end.

(** The arms of the dispatcher that call [enable] themselves, given the
    history. *)
Definition callsEnable (c : Case) (s : PgShell) : bool :=
  match c with
  | CaseHELP | CaseNone => true
  | CaseRUN_LAST_CMD =>
      match getEntries (_history s) with [] => true | _ => false end
  | _ => false
  end.

(** The state in which an arm starts its own work: after the wallet test
    for the arms that make one. *)
Definition afterWalletTest (c : Case) (s : PgShell) : PgShell :=
  if needsWallet c then snd (checkWallet s) else s.

Set Implicit Arguments.

Unset Implicit Arguments.

(** [j] armed timers of [enable] fire, one after the other. *)
Fixpoint fireTimers (j : nat) (s : PgShell) : option PgShell :=
  match j with
  | O => Some s
  | S j' =>
      match fireTimer s with
      | Some s' => fireTimers j' s'
      | None => None
      end
  end.

Set Implicit Arguments.

Unset Implicit Arguments.

(** No line feed is left and no two carriage returns are neighbours. *)
Fixpoint singleReturns (s : jsstring) : Prop :=
  match s with
  | [] => True
  | c :: r =>
      c <> 10
      /\ match r with
         | d :: _ => ~ (c = 13 /\ d = 13)
         | [] => True
         end
      /\ singleReturns r
  end.

(** Feeding one chunk after the other to [handleTermData]. *)
Fixpoint feed (fuel : nat) (chunks : list jsstring) (s : PgShell)
  : option PgShell :=
  match chunks with
  | [] => Some s
  | data :: rest =>
      match handleTermData fuel data s with
      | Some s' => feed fuel rest s'
      | None => None
      end
  end.

(** A shell that takes text: active, no char-level read pending, the
    prompt prefix already captured, and the cursor inside the line. *)
Definition takesText (s : PgShell) : Prop :=
  _active s = true /\ _activeCharPrompt s = None
  /\ firstInit (_pgTty s) = false /\ cursorInBounds s.

Set Implicit Arguments.

Unset Implicit Arguments.

(** What can happen to a shell: its public methods are called, a chunk
    arrives from the terminal, an armed timer fires, a queued continuation
    runs. *)
Inductive Action :=
| TermData (data : jsstring)
| ReadComplete (clearCmd : bool)
| WaitForUserInput (msg : jsstring)
| CallPrompt
| CallEnable
| CallDisable
| TimerFires
| MicrotaskRuns.

Definition act (fuel : nat) (a : Action) (s : PgShell) : option PgShell :=
  match a with
  | TermData data => handleTermData fuel data s
  | ReadComplete clearCmd => handleReadComplete fuel clearCmd s
  | WaitForUserInput msg => Some (snd (waitForUserInput msg s))
  | CallPrompt => Some (prompt s)
  | CallEnable => Some (enable s)
  | CallDisable => Some (disable s)
  | TimerFires => fireTimer s
  | MicrotaskRuns => runMicrotask s
  end.

Fixpoint run (fuel : nat) (acts : list Action) (s : PgShell)
  : option PgShell :=
  match acts with
  | [] => Some s
  | a :: rest =>
      match act fuel a s with
      | Some s' => run fuel rest s'
      | None => None
      end
  end.

(** What the constructor establishes and every action keeps: no char-level
    read is pending, the process count is not negative, and the
    autocomplete handlers are the single one of the constructor. *)
Definition asConstructed (s : PgShell) : Prop :=
  _activeCharPrompt s = None
  /\ 0 <= _processCount s
  /\ List.length (_autocompleteHandlers s) = 1%nat.

Set Implicit Arguments.

Unset Implicit Arguments.

(** One line of the help text. *)
Definition helpLine (cmd : PgCommand.Command) : jsstring :=
  JS.lit "    " ++ PgCommand.name cmd
  ++ PgCommand.fillWhitespace (JS.length (PgCommand.name cmd))
  ++ PgCommand.description cmd ++ [10].

Set Implicit Arguments.

End Shell.

Arguments PgShell {hist}.

(** ** Sample collaborators

    Concrete stand-ins for the parts that are outside the sources, used to
    run the shell on explicit inputs. *)

Module Sample.

#[export] Instance names : ExtraCommandNames := {|
  PRETTIER := JS.lit "prettier";
  RUN := JS.lit "run";
  TEST := JS.lit "test";
  RUSTFMT := JS.lit "rustfmt";
  SUGAR := JS.lit "sugar" |}.

#[export] Instance text : TerminalText := {|
  PROMPT_PREFIX := JS.lit "$ ";
  WAITING_INPUT_PROMPT_PREFIX := JS.lit "> ";
  WAITING_INPUT_MSG_PREFIX := JS.lit "Waiting for input: ";
  secondary := fun s => s;
  italic := fun s => s |}.

(** Modelled from the spec: the history ring is not among the sources.
    [push] appends a non-empty line, evicts the oldest entry once the
    capacity is exceeded and resets the traversal cursor; [getPrevious]
    steps toward older entries, clamped at the oldest; [getNext] steps
    toward newer ones and has nothing to return at the newest boundary. *)
Record Ring := {
  size : Z;
  entries : list jsstring;
  position : nat }.

Definition ringPush (line : jsstring) (r : Ring) : Ring :=
  match line with
  | [] => {| size := size r; entries := entries r;
             position := List.length (entries r) |}
  | _ =>
      let es := entries r ++ [line] in
      let es' := if size r <? Z.of_nat (List.length es) then tl es else es in
      {| size := size r; entries := es'; position := List.length es' |}
  end.

Definition ringPrevious (r : Ring) : option jsstring * Ring :=
  let idx := pred (position r) in
  (nth_error (entries r) idx,
   {| size := size r; entries := entries r; position := idx |}).

Definition ringNext (r : Ring) : option jsstring * Ring :=
  let idx := Nat.min (List.length (entries r)) (S (position r)) in
  (nth_error (entries r) idx,
   {| size := size r; entries := entries r; position := idx |}).

#[export] Instance hist : ShellHistory := {|
  History := Ring;
  newHistory := fun n => {| size := n; entries := []; position := 0 |};
  getEntries := entries;
  push := ringPush;
  getPrevious := ringPrevious;
  getNext := ringNext |}.

(** Modelled from the spec: the utilities module is not among the
    sources. A word is a maximal run of non-white-space; the left boundary
    search returns the start of the closest word that begins before the
    offset, and 0 when there is none; the right boundary search returns
    the end of the closest word that ends after the offset, and the length
    of the input when there is none. *)
Fixpoint wordStarts (prevSpace : bool) (i : Z) (s : jsstring) : list Z :=
  match s with
  | [] => []
  | c :: r =>
      if JS.isWhiteSpace c then wordStarts true (i + 1) r
      else if prevSpace then i :: wordStarts false (i + 1) r
      else wordStarts false (i + 1) r
  end.

Fixpoint wordEnds (prevWord : bool) (i : Z) (s : jsstring) : list Z :=
  match s with
  | [] => if prevWord then [i] else []
  | c :: r =>
      if JS.isWhiteSpace c
      then (if prevWord then i :: wordEnds false (i + 1) r
            else wordEnds false (i + 1) r)
      else wordEnds true (i + 1) r
  end.

Definition leftBoundary (input : jsstring) (offset : Z) : Z :=
  last (filter (fun x => x <? offset) (wordStarts true 0 input)) 0.

Definition rightBoundary (input : jsstring) (offset : Z) : Z :=
  hd (JS.length input)
     (filter (fun x => offset <? x) (wordEnds false 0 input)).

Definition lastToken (fragment : jsstring) : jsstring :=
  rev (JS.splitSpaceFirst (rev fragment)).

(** Modelled from the spec: the results of the providers are concatenated;
    the candidates kept are those that extend the token under the
    cursor. *)
Definition collect (handlers : list AutoCompleteHandler)
           (fragment : jsstring) : list jsstring :=
  filter (fun c => JS.startsWith c (lastToken fragment))
    (flat_map (fun h => h 0 [fragment]) handlers).

Definition trailingWhitespace (fragment : jsstring) : bool :=
  match rev fragment with
  | c :: _ => (c =? 32) || (c =? 9)
  | [] => false
  end.

(** Modelled from the spec: the continuation predicate, here unbalanced
    round brackets. *)
Definition unbalanced (s : jsstring) : bool :=
  Nat.ltb (List.length (filter (fun c => c =? 41) s))
          (List.length (filter (fun c => c =? 40) s)).

#[export] Instance utils : ShellUtils := {|
  closestLeftBoundary := leftBoundary;
  closestRightBoundary := rightBoundary;
  collectAutocompleteCandidates := collect;
  hasTrailingWhitespace := trailingWhitespace;
  isIncompleteInput := unbalanced |}.

(** The wallet check is the one modelled from the spec. *)
#[export] Instance wallet : Wallet := walletFromSpec.

Definition tty0 : PgTty := {|
  input := []; cursor := 0; promptPrefix := []; firstInit := false;
  inputStartsWithPrompt := false; bufferLine := Some []; screen := [] |}.

Definition browser0 : Browser := {|
  nextId := 0; timers := 0; listeners := []; awaiting := [];
  microtasks := []; settled := []; events := [];
  walletConnected := false |}.

(** A shell as the constructor leaves it, with the default options. *)
Definition shell0 : PgShell :=
  new tty0 defaultHistorySize defaultMaxAutocompleteEntries browser0.

(** The shell once the timer of a first [enable] has fired: prompting. *)
Definition prompting : PgShell := enableCallback shell0.

(** The prompting shell with [line] typed in, cursor at [c]. *)
Definition typed (line : jsstring) (c : Z) : PgShell :=
  onTty (Tty.setCursor c) (onTty (Tty.setInput line false) prompting).


(** Inputs of the scenarios. *)

(** The state a call returned; the fresh shell stands for an exhausted
    call stack. *)
Definition returned (o : option PgShell) : PgShell :=
  match o with Some s => s | None => shell0 end.

(** A command asked for the user's name; the timer of [enable] fired and
    the user typed a line that is not submitted yet. *)
Definition askedName : PgShell :=
  snd (waitForUserInput (JS.lit "Name?") prompting).

Definition typedName : PgShell :=
  returned (handleTermData 1 (JS.lit "bob")
              (returned (fireTimer askedName))).

(** The number of timers that [enable] has armed and that have not fired. *)
Definition armed (s : PgShell) : nat := timers (browser s).

Definition twoLines : jsstring := JS.lit "ab" ++ [13; 10] ++ JS.lit "cd".

(** A prompting shell whose first data after the read finds no line in
    the terminal buffer. *)
Definition noBufferLine : PgShell :=
  onTty (fun t => {| input := input t; cursor := cursor t;
                     promptPrefix := promptPrefix t; firstInit := true;
                     inputStartsWithPrompt := inputStartsWithPrompt t;
                     bufferLine := None; screen := screen t |})
    prompting.

(** The user submitted "help" earlier and now typed "hel". *)
Definition typedHel : PgShell :=
  setHistory (push (JS.lit "help") (_history prompting))
    (typed (JS.lit "hel") 3).

Definition someEdits : list EditOp :=
  [Move (-5); Insert (JS.lit "xy"); Erase true; Erase false; Move 10;
   Erase true].

(** Inputs of the further scenarios. *)

(** The user submitted "help" and "hello" earlier and now typed "he". *)
Definition typedHe : PgShell :=
  setHistory
    (push (JS.lit "hello") (push (JS.lit "help") (_history prompting)))
    (typed (JS.lit "he") 2).

(** The same with a shell that lists at most one candidate unasked. *)
Definition crowded : PgShell :=
  setHistory
    (push (JS.lit "hello") (push (JS.lit "help") (_history prompting)))
    (onTty (Tty.setCursor 2)
       (onTty (Tty.setInput (JS.lit "he") false)
          (enableCallback (new tty0 defaultHistorySize 1 browser0)))).

(** The last command recorded is a repeat-last command. *)
Definition repeatedTwice : PgShell :=
  setHistory (push (JS.lit "!!") (_history prompting)) prompting.

(** A pasted line with its line break, character by character. *)
Definition pastedLs : list jsstring := [[108]; [115]; [13]].

(** A session: the shell is enabled, its timer fires, the user types "ls",
    presses TAB and ENTER, and the continuation of the prompt runs. *)
Definition session : list Action :=
  [CallEnable; TimerFires; TermData (JS.lit "ls"); TermData [9];
   TermData [13]; MicrotaskRuns].

(** A fresh shell whose surface reports that the input starts with the
    prompt. *)
Definition promptShown : PgShell :=
  onTty (fun t => {| input := input t; cursor := cursor t;
                     promptPrefix := promptPrefix t;
                     firstInit := firstInit t;
                     inputStartsWithPrompt := true;
                     bufferLine := bufferLine t; screen := screen t |})
    shell0.

(** A shell that lists at most one candidate unasked. *)
Definition smallShell : PgShell := new tty0 defaultHistorySize 1 browser0.

(** The shell is enabled and its timer fires; the user submits "help" and
    then "hello", each followed by the continuation of the prompt and the
    timer of [enable]; then the user types "he" and presses TAB. *)
Definition untilQuestion : list Action :=
  [CallEnable; TimerFires;
   TermData (JS.lit "help"); TermData [13]; MicrotaskRuns; TimerFires;
   TermData (JS.lit "hello"); TermData [13]; MicrotaskRuns; TimerFires;
   TermData (JS.lit "he"); TermData [9]].

(** The shell after that run, and after the chunk "y" that follows. *)
Definition questioned : PgShell := returned (run 1 untilQuestion smallShell).

Definition answered : PgShell :=
  returned (handleTermData 1 (JS.lit "y") questioned).

End Sample.

(** ** Properties *)

Unset Implicit Arguments.

(** *** Facts about strings *)

Lemma eqb_refl (a : jsstring) : JS.eqb a a = true.
Proof.
  induction a as [|x a IH]; simpl; [reflexivity|].
  now rewrite Z.eqb_refl, IH.
Qed.

Lemma eqb_eq (a b : jsstring) : JS.eqb a b = true <-> a = b.
Proof.
  split; [|intros ->; apply eqb_refl].
  revert b; induction a as [|x a IH]; intros [|y b]; simpl;
    try discriminate; try reflexivity.
  intros H; apply andb_true_iff in H as [Hxy Hab].
  apply Z.eqb_eq in Hxy; subst; f_equal; now apply IH.
Qed.

Lemma eqb_neq (a b : jsstring) : a <> b -> JS.eqb a b = false.
Proof.
  intros H; destruct (JS.eqb a b) eqn:E; [|reflexivity].
  now apply eqb_eq in E.
Qed.

Lemma length_app (a b : jsstring) :
  JS.length (a ++ b) = JS.length a + JS.length b.
Proof. unfold JS.length; rewrite List.length_app; lia. Qed.

Lemma length_nonneg (a : jsstring) : 0 <= JS.length a.
Proof. unfold JS.length; lia. Qed.

Lemma clamp_in_bounds (s : jsstring) (i : Z) :
  0 <= i <= JS.length s -> JS.clamp s i = Z.to_nat i.
Proof. intros H; unfold JS.clamp; f_equal; lia. Qed.

Lemma length_substring_prefix (s : jsstring) (i : Z) :
  0 <= i <= JS.length s -> JS.length (JS.substring s 0 i) = i.
Proof.
  intros H; unfold JS.substring.
  rewrite (clamp_in_bounds s i H).
  assert (H0 : JS.clamp s 0 = 0%nat) by (unfold JS.clamp, JS.length; lia).
  rewrite H0; simpl.
  unfold JS.length in *; rewrite Nat.sub_0_r, List.length_firstn; lia.
Qed.

Lemma length_substringFrom (s : jsstring) (i : Z) :
  0 <= i <= JS.length s ->
  JS.length (JS.substringFrom s i) = JS.length s - i.
Proof.
  intros H; unfold JS.substringFrom.
  rewrite (clamp_in_bounds s i H).
  unfold JS.length in *; rewrite List.length_skipn; lia.
Qed.

Section Properties.

Context {names : ExtraCommandNames} {text : TerminalText}
        {utils : ShellUtils} {hist : ShellHistory} {wallet : Wallet}.

Implicit Types (s : PgShell) (data msg cmd : jsstring) (fuel : nat).

(** *** The guard on inactive shells *)

Lemma handleData_inactive fuel data s :
  _active s = false -> data <> [3] -> _handleData fuel data s = Some s.
Proof.
  intros Ha Hd; unfold _handleData.
  now rewrite Ha, (eqb_neq _ _ Hd).
Qed.

Lemma handleData_ctrl_c fuel s : _handleData fuel [3] s = Some s.
Proof.
  unfold _handleData; simpl.
  now rewrite andb_false_r.
Qed.

Lemma capturePromptPrefix_frame s s1 :
  capturePromptPrefix s = Some s1 ->
  getInput s1 = getInput s /\ getCursor s1 = getCursor s
  /\ _history s1 = _history s /\ _activeCharPrompt s1 = _activeCharPrompt s
  /\ _active s1 = _active s /\ browser s1 = browser s.
Proof.
  unfold capturePromptPrefix.
  destruct (firstInit (_pgTty s)); [|intros [= <-]; tauto].
  destruct (_activePrompt s); [|intros [= <-]; tauto].
  destruct (bufferLine (_pgTty s)); [|discriminate].
  intros [= <-]; simpl; tauto.
Qed.

(** C8. While the shell is inactive, a chunk other than the CTRL+C byte is
    discarded by [handleTermData] (and by the single-character handler)
    with the whole state unchanged. The CTRL+C byte passes the guard, but
    the handler has no case for it: the single-character handler returns
    the state as it was, and [handleTermData] leaves the input line, the
    cursor and the history untouched. *)
Theorem inactive_shell_discards_input fuel data s :
  _active s = false ->
  (data <> [3] ->
   handleTermData fuel data s = Some s /\ _handleData fuel data s = Some s)
  /\ _handleData fuel [3] s = Some s
  /\ exists s',
      handleTermData fuel [3] s = Some s'
      /\ getInput s' = getInput s /\ getCursor s' = getCursor s
      /\ _history s' = _history s.
Proof.
  intros Ha; repeat split.
  - unfold handleTermData; now rewrite Ha, (eqb_neq _ _ H).
  - now apply handleData_inactive.
  - apply handleData_ctrl_c.
  - unfold handleTermData; simpl; rewrite andb_false_r.
    destruct (capturePromptPrefix s) as [s1|] eqn:Hc;
      [|now exists s].
    destruct (capturePromptPrefix_frame _ _ Hc) as (Hi & Hcu & Hh & _).
    destruct (charResolver s1) as [r|].
    + eexists; split; [reflexivity|]; simpl; auto.
    + exists s1; split; [|auto].
      unfold dispatchData; simpl. apply handleData_ctrl_c.
Qed.

(** *** Word boundaries *)

(** C10. When the closest-left-boundary search returns offset 0, the
    ALT+LEFT handler leaves the cursor where it is and the CTRL+BACKSPACE
    handler deletes nothing: both return the state unchanged, since the
    guard on the offset treats 0 as no boundary. *)
Theorem left_boundary_zero_is_ignored fuel s :
  closestLeftBoundary (getInput s) (getCursor s) = 0 ->
  _handleData fuel ALT_LEFT s = Some s
  /\ _handleData fuel CTRL_BACKSPACE s = Some s.
Proof.
  intros H0; split; unfold _handleData; destruct (_active s); simpl;
    try reflexivity; unfold handleEscape; simpl; now rewrite H0.
Qed.

(** *** ENTER *)

(** C4. When ENTER is handled: if the incomplete-input predicate holds of
    the current line, a newline is inserted at the cursor and nothing is
    submitted (the pending read, the promises and the active flag stay as
    they were); otherwise the result is that of [handleReadComplete]. *)
Theorem enter_inserts_newline_or_submits fuel s :
  _active s = true ->
  (isIncompleteInput (getInput s) = true ->
   _handleData fuel ENTER s = Some (_handleCursorInsert [10] s)
   /\ getInput (_handleCursorInsert [10] s)
      = JS.substring (getInput s) 0 (getCursor s)
        ++ [10] ++ JS.substringFrom (getInput s) (getCursor s)
   /\ _activePrompt (_handleCursorInsert [10] s) = _activePrompt s
   /\ browser (_handleCursorInsert [10] s) = browser s
   /\ _active (_handleCursorInsert [10] s) = true)
  /\ (isIncompleteInput (getInput s) = false ->
      _handleData fuel ENTER s = handleReadComplete fuel false s).
Proof.
  intros Ha; split; intros Hi; unfold _handleData, handleSpecial;
    rewrite Ha; simpl; rewrite Hi; [|reflexivity].
  repeat split; auto.
Qed.

(** *** TAB *)

Lemma handleData_tab fuel s :
  _active s = true -> _handleData fuel TAB s = Some (handleTab s).
Proof. intros Ha; unfold _handleData; now rewrite Ha. Qed.

(** C5. When TAB is handled and the sorted list of collected candidates
    has exactly one element, the input line becomes that candidate and
    the cursor its length, whatever the line and the cursor were. *)
Theorem tab_single_candidate_replaces_line fuel s (c : jsstring) :
  _active s = true ->
  collectedCandidates s = Some [c] ->
  exists s',
    _handleData fuel TAB s = Some s'
    /\ getInput s' = c /\ getCursor s' = JS.length c.
Proof.
  intros Ha Hc; rewrite (handleData_tab _ _ Ha).
  eexists; split; [reflexivity|].
  unfold handleTab; rewrite Hc; simpl; auto.
Qed.

(** C6. When TAB is handled and the handlers yield no candidate: if the
    input up to the cursor already ends in white space the state is left
    as it is; otherwise one space is inserted at the cursor, which moves
    one place to the right. *)
Theorem tab_no_candidate fuel s :
  _active s = true ->
  collectedCandidates s = Some [] ->
  let fragment := JS.substring (getInput s) 0 (getCursor s) in
  (hasTrailingWhitespace fragment = true ->
   _handleData fuel TAB s = Some s)
  /\ (hasTrailingWhitespace fragment = false ->
      exists s',
        _handleData fuel TAB s = Some s'
        /\ getInput s'
           = JS.substring (getInput s) 0 (getCursor s)
             ++ [32] ++ JS.substringFrom (getInput s) (getCursor s)
        /\ getCursor s' = getCursor s + 1).
Proof.
  intros Ha Hc fragment; rewrite (handleData_tab _ _ Ha).
  unfold handleTab; rewrite Hc; fold fragment.
  split; intros Hw; rewrite Hw; simpl; [reflexivity|].
  eexists; split; [reflexivity|]; auto.
Qed.

(** *** The cursor stays inside the line *)

Lemma move_cursor dir s :
  cursorInBounds s ->
  getCursor (_handleCursorMove dir s)
  = Z.max 0 (Z.min (JS.length (getInput s)) (getCursor s + dir))
  /\ getInput (_handleCursorMove dir s) = getInput s.
Proof.
  unfold cursorInBounds, _handleCursorMove; intros H.
  destruct (0 <? dir) eqn:Hp; [apply Z.ltb_lt in Hp|apply Z.ltb_ge in Hp].
  - split; [|reflexivity].
    unfold getCursor, getInput in *; cbn [onTty _pgTty Tty.setCursorDirectly
                                           Tty.setCursor cursor]; lia.
  - destruct (dir <? 0) eqn:Hn; [apply Z.ltb_lt in Hn|apply Z.ltb_ge in Hn].
    + split; [|reflexivity].
      unfold getCursor, getInput in *; cbn [onTty _pgTty Tty.setCursorDirectly
                                             Tty.setCursor cursor]; lia.
    + split; [|reflexivity]. lia.
Qed.

Lemma insert_cursor data s :
  cursorInBounds s ->
  getCursor (_handleCursorInsert data s) = getCursor s + JS.length data
  /\ JS.length (getInput (_handleCursorInsert data s))
     = JS.length (getInput s) + JS.length data.
Proof.
  intros H; unfold _handleCursorInsert; simpl; split; [reflexivity|].
  unfold getInput; simpl.
  rewrite !length_app, length_substring_prefix, length_substringFrom by exact H.
  lia.
Qed.

Lemma erase_cursor backspace s :
  cursorInBounds s -> cursorInBounds (_handleCursorErase backspace s).
Proof.
  intros H; unfold _handleCursorErase, cursorInBounds in *.
  destruct backspace.
  - destruct (getCursor s <=? 0) eqn:Hc; [exact H|apply Z.leb_gt in Hc].
    unfold getCursor, getInput in *; simpl.
    rewrite length_app, length_substring_prefix, length_substringFrom by lia.
    lia.
  - unfold getCursor, getInput in *; simpl.
    rewrite length_app, length_substring_prefix by lia.
    pose proof (length_nonneg
                  (JS.substringFrom (input (_pgTty s)) (cursor (_pgTty s) + 1))).
    lia.
Qed.

Lemma applyEdit_in_bounds op s :
  cursorInBounds s -> cursorInBounds (applyEdit op s).
Proof.
  intros H; destruct op as [dir|data|backspace]; simpl.
  - destruct (move_cursor dir s H) as [Hc Hi].
    unfold cursorInBounds in *; rewrite Hc, Hi; lia.
  - destruct (insert_cursor data s H) as [Hc Hl].
    unfold cursorInBounds in *; rewrite Hc, Hl.
    pose proof (length_nonneg data); lia.
  - now apply erase_cursor.
Qed.

(** C9. Along any sequence of cursor moves, insertions and erasures that
    starts with the cursor within the line, the cursor is within the line
    after each operation. A move is clamped to the bounds of the line, an
    insertion advances the cursor by the inserted length inside the line
    grown by as much, and a backspace at offset 0 changes nothing. *)
Theorem cursor_stays_within_line (ops : list EditOp) s :
  cursorInBounds s ->
  Forall cursorInBounds (editTrace ops s)
  /\ (forall dir,
         getCursor (_handleCursorMove dir s)
         = Z.max 0 (Z.min (JS.length (getInput s)) (getCursor s + dir)))
  /\ (forall data,
         getCursor (_handleCursorInsert data s)
         = getCursor s + JS.length data
         /\ JS.length (getInput (_handleCursorInsert data s))
            = JS.length (getInput s) + JS.length data)
  /\ (getCursor s = 0 -> _handleCursorErase true s = s).
Proof.
  intros H; split; [|split; [|split]].
  - revert s H; induction ops as [|op ops IH]; intros s H; simpl;
      constructor; [now apply applyEdit_in_bounds|].
    apply IH; now apply applyEdit_in_bounds.
  - intros dir; now apply move_cursor.
  - intros data; now apply insert_cursor.
  - intros H0; unfold _handleCursorErase; now rewrite H0.
Qed.

(** *** Waiting for user input *)

Lemma resolve_keeps (p : nat) (v : jsstring) (b : Browser) x :
  In x (settled b) -> In x (settled (Br.resolve p v b)).
Proof.
  intros H; unfold Br.resolve; destruct (Br.isSettled p b); [exact H|].
  simpl; apply in_or_app; now left.
Qed.

Lemma resolve_settles (p : nat) (v : jsstring) (b : Browser) :
  Br.isSettled p b = false -> In (p, v) (settled (Br.resolve p v b)).
Proof.
  intros H; unfold Br.resolve; rewrite H; simpl.
  apply in_or_app; right; now left.
Qed.

Lemma resolve_other (p q : nat) (v : jsstring) (b : Browser) :
  p <> q -> Br.isSettled q b = false ->
  Br.isSettled q (Br.resolve p v b) = false.
Proof.
  intros Hpq H; unfold Br.resolve; destruct (Br.isSettled p b); [exact H|].
  unfold Br.isSettled in *; simpl.
  rewrite existsb_app, H; simpl.
  rewrite orb_false_r; now apply Nat.eqb_neq.
Qed.

Lemma resolve_listeners (p : nat) (v : jsstring) (b : Browser) :
  listeners (Br.resolve p v b) = listeners b.
Proof. unfold Br.resolve; now destruct (Br.isSettled p b). Qed.

Lemma openFor_resolve (p w : nat) (i : jsstring) (b : Browser) :
  openFor w i b -> openFor w i (Br.resolve p i b).
Proof.
  intros [H|H]; [|right; now apply resolve_keeps].
  destruct (Nat.eq_dec p w) as [->|Hne].
  - right; now apply resolve_settles.
  - left; now apply resolve_other.
Qed.

Lemma handleInput_facts (a : nat) s :
  getInput (handleInput a s) = getInput s
  /\ _waitingForInput (handleInput a s) = false
  /\ listeners (browser (handleInput a s))
     = filter (fun x => negb (Nat.eqb x a)) (listeners (browser s))
  /\ settled (browser (handleInput a s))
     = settled (Br.resolve a (getInput s) (browser s)).
Proof.
  unfold handleInput; simpl; repeat split.
  - now rewrite resolve_listeners.
  - unfold Br.resolve, Br.isSettled; simpl.
    now destruct (existsb _ (settled (browser s))).
Qed.

Lemma handleInput_openFor (a w : nat) (i : jsstring) s :
  getInput s = i -> openFor w i (browser s) ->
  openFor w i (browser (handleInput a s)).
Proof.
  intros Hi Ho.
  pose proof (openFor_resolve a w i (browser s) Ho) as H.
  destruct (handleInput_facts a s) as (_ & _ & _ & Hs).
  unfold openFor, Br.isSettled in *; rewrite Hs, Hi; exact H.
Qed.

Lemma runListeners_frame (l : list nat) : forall s,
  getInput (runListeners l s) = getInput s
  /\ (forall x, In x (settled (browser s)) ->
                In x (settled (browser (runListeners l s))))
  /\ (forall x, In x (listeners (browser (runListeners l s))) ->
                In x (listeners (browser s)))
  /\ (_waitingForInput s = false ->
      _waitingForInput (runListeners l s) = false).
Proof.
  induction l as [|a l IH]; intros s; simpl; [tauto|].
  destruct (IH (handleInput a s)) as (Hi & Hs & Hl & Hw).
  destruct (handleInput_facts a s) as (Hi' & Hw' & Hl' & Hs').
  repeat split.
  - now rewrite Hi.
  - intros x Hx; apply Hs; rewrite Hs'; now apply resolve_keeps.
  - intros x Hx; apply Hl in Hx; rewrite Hl' in Hx.
    now apply filter_In in Hx.
  - intros _; now apply Hw.
Qed.

Lemma runListeners_resolves (w : nat) (i : jsstring) (l : list nat) :
  forall s,
    In w l -> getInput s = i -> openFor w i (browser s) ->
    In (w, i) (settled (browser (runListeners l s)))
    /\ _waitingForInput (runListeners l s) = false
    /\ ~ In w (listeners (browser (runListeners l s))).
Proof.
  induction l as [|a l IH]; intros s Hin Hi Ho; [contradiction|].
  simpl.
  destruct (handleInput_facts a s) as (Hi' & Hw' & Hl' & Hs').
  destruct (Nat.eq_dec a w) as [->|Hne].
  - destruct (runListeners_frame l (handleInput w s)) as (_ & Hs & Hl & Hw).
    repeat split.
    + apply Hs; rewrite Hs', Hi.
      destruct Ho as [Ho|Ho];
        [now apply resolve_settles|now apply resolve_keeps].
    + now apply Hw.
    + intros Hx; apply Hl in Hx; rewrite Hl' in Hx.
      apply filter_In in Hx as [_ Hx]; now rewrite Nat.eqb_refl in Hx.
  - destruct Hin as [Heq|Hin]; [contradiction|].
    apply IH; [exact Hin|now rewrite Hi'|].
    now apply handleInput_openFor.
Qed.

Lemma first_wait_is_pending msg s :
  _waitingForInput s = false ->
  exists s1,
    waitForUserInput msg s = (Pending (nextId (browser s)), s1)
    /\ _waitingForInput s1 = true
    /\ In (nextId (browser s)) (listeners (browser s1))
    /\ settled (browser s1) = settled (browser s)
    /\ timers (browser s1) = S (timers (browser s)).
Proof.
  intros H; unfold waitForUserInput; rewrite H; simpl.
  eexists; split; [reflexivity|]; simpl; repeat split.
  apply in_or_app; right; now left.
Qed.

(** C1. A call to [waitForUserInput] made while the shell is already
    waiting for input is rejected at once with the message "Already
    waiting for input." and returns the state as it was. The request [w]
    that was outstanding is therefore untouched: when a line is then
    submitted, its promise is fulfilled with that line, the waiting flag
    is cleared and its listener is removed. *)
Theorem overlapping_wait_is_rejected msg s (w : nat) fuel (clearCmd : bool) :
  _waitingForInput s = true ->
  In w (listeners (browser s)) ->
  Br.isSettled w (browser s) = false ->
  waitForUserInput msg s
  = (Rejected (JS.lit "Already waiting for input."), s)
  /\ exists s',
      handleReadComplete fuel clearCmd (snd (waitForUserInput msg s))
      = Some s'
      /\ In (w, getInput s) (settled (browser s'))
      /\ _waitingForInput s' = false
      /\ ~ In w (listeners (browser s')).
Proof.
  intros Hw Hin Hset.
  assert (Hrej : waitForUserInput msg s
                 = (Rejected (JS.lit "Already waiting for input."), s))
    by (unfold waitForUserInput; now rewrite Hw).
  split; [exact Hrej|]; rewrite Hrej; simpl.
  unfold handleReadComplete.
  set (s1 := match _activePrompt s with
             | Some p =>
                 match ap_resolve p with
                 | Some r =>
                     setActivePrompt None
                       (onBrowser (Br.resolve r (getInput s)) s)
                 | None => s
                 end
             | None => s
             end).
  assert (H1 : getInput s1 = getInput s
               /\ _waitingForInput s1 = true
               /\ listeners (browser s1) = listeners (browser s)
               /\ openFor w (getInput s) (browser s1)).
  { unfold s1; destruct (_activePrompt s) as [p|];
      [destruct (ap_resolve p) as [r|]|]; simpl;
      repeat split; auto; try (now left).
    - apply resolve_listeners.
    - apply openFor_resolve; now left. }
  destruct H1 as (Hi1 & Hw1 & Hl1 & Ho1); clearbody s1.
  set (s3 := setActive false
               (if clearCmd then onTty Tty.clearLine s1
                else onTty (Tty.print [13; 10]) s1)).
  assert (H3 : getInput s3 = getInput s
               /\ _waitingForInput s3 = true
               /\ browser s3 = browser s1).
  { unfold s3; destruct clearCmd; simpl; auto. }
  destruct H3 as (Hi3 & Hw3 & Hb3); clearbody s3.
  rewrite Hw3. eexists; split; [reflexivity|].
  unfold createAndDispatchCustomEvent.
  apply (runListeners_resolves w (getInput s)); simpl.
  - now rewrite Hb3, Hl1.
  - exact Hi3.
  - rewrite Hb3; destruct Ho1 as [Ho1|Ho1]; [left|right]; exact Ho1.
Qed.

(** *** Pasted input *)

Lemma runs_concat (s : jsstring) : List.concat (map snd (runs s)) = s.
Proof.
  induction s as [|c r IH]; simpl; [reflexivity|].
  destruct (runs r) as [|[b run] rest]; simpl in *; [now rewrite <- IH|].
  destruct (Bool.eqb b (JS.isNewline c)); simpl; now rewrite <- IH.
Qed.

Lemma runs_uniform (s : jsstring) : Forall uniformRun (runs s).
Proof.
  induction s as [|c r IH]; simpl; [constructor|].
  destruct (runs r) as [|[b run] rest].
  - repeat constructor; discriminate.
  - inversion IH as [|? ? [Hne Hall] Hrest]; subst.
    destruct (Bool.eqb b (JS.isNewline c)) eqn:E.
    + apply Bool.eqb_prop in E.
      constructor; [|exact Hrest].
      split; [discriminate|]; simpl in *. constructor; auto.
    + constructor; [|exact IH].
      split; [discriminate|]; simpl. repeat constructor.
Qed.

Lemma runs_alternating (s : jsstring) : alternating (runs s).
Proof.
  induction s as [|c r IH]; simpl; [exact I|].
  destruct (runs r) as [|[b run] rest]; [exact I|].
  destruct (Bool.eqb b (JS.isNewline c)) eqn:E.
  - exact IH.
  - simpl; split; [|exact IH].
    intros Heq; rewrite Heq, Bool.eqb_reflx in E; discriminate.
Qed.

Lemma arrayFrom_code_points_bounded (n : nat) : forall s : jsstring,
  (List.length s <= n)%nat -> Forall isCodePoint (JS.arrayFrom s).
Proof.
  induction n as [|n IH]; intros [|c [|d r]] Hn; simpl in *;
    try (constructor; simpl; auto; fail); try lia.
  destruct (JS.isHighSurrogate c && JS.isLowSurrogate d) eqn:E.
  - constructor; [exact E|]. apply IH; lia.
  - constructor; [exact I|]. apply (IH (d :: r)); simpl; lia.
Qed.

Lemma arrayFrom_code_points (s : jsstring) :
  Forall isCodePoint (JS.arrayFrom s).
Proof. now apply (arrayFrom_code_points_bounded (List.length s)). Qed.

Lemma replaceNewlineRuns_runs (s : jsstring) :
  JS.replaceNewlineRuns false s = normalizeNewlines s
  /\ JS.replaceNewlineRuns true s
     = match runs s with
       | (true, _) :: rest => flat_map normalizeRun rest
       | _ => normalizeNewlines s
       end.
Proof.
  unfold normalizeNewlines.
  induction s as [|c r [IHf IHt]]; simpl; [split; reflexivity|].
  rewrite IHf, IHt.
  destruct (JS.isNewline c) eqn:Hc;
    destruct (runs r) as [|[[|] run] rest]; simpl; split; reflexivity.
Qed.

Lemma replaceNewlineRuns_spec (s : jsstring) :
  JS.replaceNewlineRuns false s = normalizeNewlines s.
Proof. apply replaceNewlineRuns_runs. Qed.

Lemma arrayFrom_concat_bounded (n : nat) : forall s : jsstring,
  (List.length s <= n)%nat -> List.concat (JS.arrayFrom s) = s.
Proof.
  induction n as [|n IH]; intros [|c [|d r]] Hn; simpl in *;
    try reflexivity; try lia.
  destruct (JS.isHighSurrogate c && JS.isLowSurrogate d); simpl.
  - f_equal; f_equal; apply IH; lia.
  - f_equal. apply (IH (d :: r)); simpl; lia.
Qed.

Lemma arrayFrom_concat (s : jsstring) : List.concat (JS.arrayFrom s) = s.
Proof. now apply (arrayFrom_concat_bounded (List.length s)). Qed.

Lemma capturePromptPrefix_charResolver s s1 :
  capturePromptPrefix s = Some s1 -> charResolver s1 = charResolver s.
Proof.
  intros H; destruct (capturePromptPrefix_frame _ _ H) as (_ & _ & _ & Hc & _).
  unfold charResolver; now rewrite Hc.
Qed.

(** C3 (amended). For a chunk delivered to [handleTermData] while the
    shell is active, no char-level read is pending and the capture of the
    prompt prefix finds its buffer line: the chunk is expanded as pasted
    input exactly when it is longer than 3 units and does not start with
    the escape byte. Then every maximal run of CR/LF is replaced by one
    carriage return and the characters of the result are fed one by one,
    in order, to the single-character handler; otherwise the chunk goes
    to that handler whole. *)
Theorem paste_detection fuel data s s1 :
  _active s = true ->
  charResolver s = None ->
  capturePromptPrefix s = Some s1 ->
  handleTermData fuel data s
  = (if (3 <? JS.length data)
        && negb (JS.num_eqb (JS.charCodeAt0 data) 27)
     then forEach (_handleData fuel)
            (JS.arrayFrom (normalizeNewlines data)) s1
     else _handleData fuel data s1)
  /\ List.concat (JS.arrayFrom (normalizeNewlines data))
     = normalizeNewlines data
  /\ Forall isCodePoint (JS.arrayFrom (normalizeNewlines data)).
Proof.
  intros Ha Hr Hc;
    split; [|split; [apply arrayFrom_concat|apply arrayFrom_code_points]].
  unfold handleTermData; rewrite Ha, Hc; simpl.
  rewrite (capturePromptPrefix_charResolver _ _ Hc), Hr.
  unfold dispatchData, looksPasted.
  now rewrite replaceNewlineRuns_spec.
Qed.

(** *** Char-level reads *)

(** The test of [_activeCharPrompt] in [handleTermData]. For a chunk that
    passes the guard (the shell is active, or the chunk is the CTRL+C
    byte) and for which the capture of the prompt prefix finds its buffer
    line: were a char-level read with a resolver stored in
    [_activeCharPrompt], the resolver would be called with the chunk and
    the field cleared, the input line, the cursor and the history staying
    as they were; with the field empty the chunk goes to line editing. *)
Lemma stored_char_read_takes_priority fuel data s s1 :
  _active s = true \/ data = [3] ->
  capturePromptPrefix s = Some s1 ->
  handleTermData fuel data s
  = match charResolver s with
    | Some r =>
        Some (onTty (Tty.print [13; 10])
                (setActiveCharPrompt None
                   (onBrowser (Br.resolve r data) s1)))
    | None => dispatchData fuel data s1
    end
  /\ forall r,
      charResolver s = Some r ->
      exists s',
        handleTermData fuel data s = Some s'
        /\ _activeCharPrompt s' = None
        /\ getInput s' = getInput s /\ getCursor s' = getCursor s
        /\ _history s' = _history s
        /\ (Br.isSettled r (browser s) = false ->
            In (r, data) (settled (browser s'))).
Proof.
  intros Hg Hc.
  assert (Hguard : negb (_active s) && negb (JS.eqb data [3]) = false).
  { destruct Hg as [Ha| ->]; [now rewrite Ha|].
    simpl; apply andb_false_r. }
  assert (Heq : handleTermData fuel data s
                = match charResolver s with
                  | Some r =>
                      Some (onTty (Tty.print [13; 10])
                              (setActiveCharPrompt None
                                 (onBrowser (Br.resolve r data) s1)))
                  | None => dispatchData fuel data s1
                  end).
  { unfold handleTermData; rewrite Hguard, Hc.
    now rewrite (capturePromptPrefix_charResolver _ _ Hc). }
  split; [exact Heq|].
  intros r Hr; rewrite Heq, Hr.
  destruct (capturePromptPrefix_frame _ _ Hc) as (Hi & Hcu & Hh & _ & _ & Hb).
  eexists; split; [reflexivity|]; simpl.
  repeat split; auto.
  intros Hs; rewrite Hb; now apply resolve_settles.
Qed.

(** *** Commands that need the wallet *)

(** Whatever the wallet check is: for a command that selects the deploy,
    solana or spl-token arm while the check reports the precondition
    unmet, the dispatcher returns the state that the check itself left. *)
Lemma wallet_precondition_unmet_skips fuel cmd s :
  needsWallet (switchCase (cmdNameOf cmd)) = true ->
  fst (checkWallet s) = false ->
  _parseCommand (S fuel) cmd s = Some (snd (checkWallet s)).
Proof.
  intros Hn Hw; simpl.
  destruct (switchCase (cmdNameOf cmd)); try discriminate;
    destruct (checkWallet s) as [ok s1]; simpl in *; now rewrite Hw.
Qed.

(** *** Editing the line *)

Lemma clamp_zero (s : jsstring) : JS.clamp s 0 = 0%nat.
Proof. unfold JS.clamp, JS.length; lia. Qed.

Lemma substring_prefix (s : jsstring) (c : Z) :
  JS.substring s 0 c = firstn (JS.clamp s c) s.
Proof.
  unfold JS.substring; rewrite clamp_zero; simpl.
  now rewrite Nat.sub_0_r.
Qed.

Lemma substring_split (s : jsstring) (c : Z) :
  JS.substring s 0 c ++ JS.substringFrom s c = s.
Proof.
  rewrite substring_prefix; unfold JS.substringFrom; apply firstn_skipn.
Qed.

Lemma clamp_app (pre post : jsstring) :
  JS.clamp (pre ++ post) (JS.length pre) = List.length pre.
Proof.
  unfold JS.clamp, JS.length; rewrite List.length_app; lia.
Qed.

Lemma substring_app (pre post : jsstring) :
  JS.substring (pre ++ post) 0 (JS.length pre) = pre.
Proof.
  rewrite substring_prefix, clamp_app.
  rewrite firstn_app, Nat.sub_diag, firstn_all; simpl.
  apply app_nil_r.
Qed.

Lemma substringFrom_app (pre post : jsstring) :
  JS.substringFrom (pre ++ post) (JS.length pre) = post.
Proof.
  unfold JS.substringFrom; rewrite clamp_app.
  rewrite skipn_app, Nat.sub_diag, skipn_all; reflexivity.
Qed.

Lemma insert_at (data pre post : jsstring) s :
  getInput s = pre ++ post -> getCursor s = JS.length pre ->
  getInput (_handleCursorInsert data s) = pre ++ data ++ post
  /\ getCursor (_handleCursorInsert data s) = JS.length (pre ++ data).
Proof.
  intros Hi Hc; unfold _handleCursorInsert; cbn [getInput getCursor onTty
    _pgTty Tty.setInput Tty.setCursorDirectly Tty.setCursor input cursor].
  fold (getInput s); fold (getCursor s); rewrite Hi, Hc.
  now rewrite substring_app, substringFrom_app, length_app.
Qed.

Lemma backspace_at (pre post : jsstring) (x : Z) s :
  getInput s = pre ++ x :: post -> getCursor s = JS.length (pre ++ [x]) ->
  getInput (_handleCursorErase true s) = pre ++ post
  /\ getCursor (_handleCursorErase true s) = JS.length pre.
Proof.
  intros Hi Hc; unfold _handleCursorErase.
  assert (Hpos : (getCursor s <=? 0) = false).
  { apply Z.leb_gt; rewrite Hc, length_app.
    pose proof (length_nonneg pre); unfold JS.length; simpl; lia. }
  rewrite Hpos.
  cbn [getInput getCursor onTty _pgTty Tty.setInput Tty.setCursorDirectly
       Tty.setCursor Tty.clearInput Tty.render input cursor].
  fold (getInput s); fold (getCursor s).
  assert (Hc1 : getCursor s - 1 = JS.length pre)
    by (rewrite Hc, length_app; unfold JS.length; simpl; lia).
  rewrite Hc1; split; [|reflexivity].
  rewrite Hi, Hc, substring_app.
  replace (pre ++ x :: post) with ((pre ++ [x]) ++ post)
    by (now rewrite <- app_assoc).
  now rewrite substringFrom_app.
Qed.

Lemma backspaces_at (data : jsstring) : forall (pre post : jsstring) s,
  getInput s = pre ++ data ++ post ->
  getCursor s = JS.length (pre ++ data) ->
  lineOf (repeatedly (List.length data) (_handleCursorErase true) s)
  = (pre ++ post, JS.length pre).
Proof.
  induction data as [|x data IH] using rev_ind; intros pre post s Hi Hc.
  - simpl in *; unfold lineOf; now rewrite Hi, Hc, app_nil_r.
  - rewrite List.length_app, Nat.add_comm; simpl.
    rewrite <- app_assoc in Hi; simpl in Hi.
    rewrite app_assoc in Hi, Hc.
    destruct (backspace_at (pre ++ data) post x s Hi Hc) as [Hi' Hc'].
    rewrite <- app_assoc in Hi'.
    now apply IH.
Qed.

(** X1. Typing a text and then pressing backspace once per unit of it
    gives back the line and the cursor as they were. *)
Theorem insert_then_backspaces_restores_line (data : jsstring) s :
  cursorInBounds s ->
  lineOf (repeatedly (List.length data) (_handleCursorErase true)
            (_handleCursorInsert data s))
  = lineOf s.
Proof.
  intros Hb; unfold cursorInBounds in Hb.
  set (pre := JS.substring (getInput s) 0 (getCursor s)).
  set (post := JS.substringFrom (getInput s) (getCursor s)).
  assert (Hsplit : getInput s = pre ++ post)
    by (symmetry; apply substring_split).
  assert (Hlen : getCursor s = JS.length pre)
    by (symmetry; now apply length_substring_prefix).
  destruct (insert_at data pre post s Hsplit Hlen) as [Hi Hc].
  rewrite (backspaces_at data pre post _ Hi Hc).
  unfold lineOf; now rewrite <- Hsplit, <- Hlen.
Qed.

Lemma shell_eta s :
  onTty (Tty.setInput (getInput s) false)
    (onTty (Tty.setCursorDirectly (getCursor s)) s) = s.
Proof. destruct s as [[] ? ? ? ? ? ? ? ? ? ?]; reflexivity. Qed.

Lemma handleData_nil fuel s : _handleData fuel [] s = Some s.
Proof.
  unfold _handleData; destruct (_active s); simpl; [|reflexivity].
  unfold _handleCursorInsert; simpl.
  rewrite substring_split, Z.add_0_r; now rewrite shell_eta.
Qed.

(** X2. An empty chunk changes nothing: the single-character handler
    takes it for visible text and inserts the empty string at the cursor,
    wherever the cursor is. *)
Theorem empty_chunk_is_ignored fuel s :
  _handleData fuel [] s = Some s /\ _handleCursorInsert [] s = s.
Proof.
  assert (Hins : _handleCursorInsert [] s = s).
  { unfold _handleCursorInsert; simpl.
    rewrite substring_split, Z.add_0_r; apply shell_eta. }
  split; [|exact Hins].
  unfold _handleData; destruct (_active s);
    cbn -[_handleCursorInsert]; [rewrite Hins|]; reflexivity.
Qed.

Lemma kill_line_in_bounds (line : jsstring) (c : Z) :
  0 <= c <= JS.length line ->
  JS.substring line 0 c = firstn (Z.to_nat c) line
  /\ JS.substringFrom line c = skipn (Z.to_nat c) line
  /\ JS.length (JS.substring line 0 c) = c.
Proof.
  intros Hc.
  assert (Hcl : JS.clamp line c = Z.to_nat c)
    by (unfold JS.clamp; f_equal; lia).
  rewrite substring_prefix; unfold JS.substringFrom; rewrite Hcl.
  split; [reflexivity|]; split; [reflexivity|].
  unfold JS.length in *; rewrite length_firstn; lia.
Qed.

(** X3. CTRL+K leaves as input line [input.substring(0, cursor)], the part
    of the line before the cursor, and puts the cursor at its end; CTRL+U
    leaves [input.substring(cursor)], the part from the cursor on, and puts
    the cursor at 0. With the cursor inside the line these are its first
    [cursor] units and the units after them. The two kept parts together
    are the line, wherever the cursor is. *)
Theorem kill_line_splits_the_line fuel s :
  _active s = true ->
  exists sK sU,
    _handleData fuel CTRL_K s = Some sK
    /\ _handleData fuel CTRL_U s = Some sU
    /\ getInput sK = JS.substring (getInput s) 0 (getCursor s)
    /\ getInput sU = JS.substringFrom (getInput s) (getCursor s)
    /\ (cursorInBounds s ->
        getInput sK = firstn (Z.to_nat (getCursor s)) (getInput s)
        /\ getInput sU = skipn (Z.to_nat (getCursor s)) (getInput s)
        /\ JS.length (getInput sK) = getCursor s)
    /\ getCursor sK = JS.length (getInput sK)
    /\ getCursor sU = 0
    /\ getInput sK ++ getInput sU = getInput s.
Proof.
  intros Ha; unfold _handleData, handleSpecial; rewrite Ha; simpl.
  do 2 eexists.
  split; [reflexivity|].
  split; [reflexivity|].
  split; [reflexivity|].
  split; [reflexivity|].
  split; [intros Hb; apply kill_line_in_bounds; exact Hb|].
  split; [reflexivity|].
  split; [reflexivity|].
  simpl; apply substring_split.
Qed.

(** *** Every key keeps the cursor inside the line *)

Lemma inBounds_line s s' :
  lineOf s' = lineOf s -> cursorInBounds s -> cursorInBounds s'.
Proof.
  unfold lineOf, cursorInBounds; intros [= Hi Hc]; now rewrite Hi, Hc.
Qed.

Lemma inBounds_empty s : lineOf s = ([], 0) -> cursorInBounds s.
Proof.
  unfold lineOf, cursorInBounds; intros [= Hi Hc]; rewrite Hi, Hc.
  unfold JS.length; simpl; lia.
Qed.

Lemma inBounds_end (v : jsstring) s :
  cursorInBounds
    (onTty (Tty.setCursor (JS.length v)) (onTty (Tty.setInput v false) s)).
Proof.
  unfold cursorInBounds, getCursor, getInput; simpl.
  pose proof (length_nonneg v); lia.
Qed.

Lemma prompt_line s :
  lineOf (prompt s) = lineOf s \/ lineOf (prompt s) = ([], 0).
Proof.
  unfold prompt.
  destruct (match _activePrompt s with Some _ => true | None => false end
            && inputStartsWithPrompt (_pgTty s)); [now left|now right].
Qed.

Lemma checkWallet_line s : lineOf (snd (checkWallet s)) = lineOf s.
Proof.
  unfold checkWallet; now destruct (checkIsPgConnected (browser s)).
Qed.

Lemma runListeners_line (l : list nat) : forall s,
  lineOf (runListeners l s) = lineOf s.
Proof.
  induction l as [|a l IH]; intros s; simpl; [reflexivity|].
  now rewrite IH.
Qed.

Lemma dispatch_line (name : EventName) (d : Detail) s :
  lineOf (createAndDispatchCustomEvent name d s) = lineOf s.
Proof.
  unfold createAndDispatchCustomEvent; destruct name; try reflexivity.
  apply (runListeners_line _ (onBrowser _ s)).
Qed.

Lemma startPkg_line (pkg : PkgName) cmd s :
  lineOf (startPkg pkg cmd s) = lineOf s.
Proof. unfold startPkg; now destruct (negb (isLoaded pkg s)). Qed.

Lemma parseCommand_line fuel : forall cmd s s',
  _parseCommand fuel cmd s = Some s' ->
  lineOf s' = lineOf s \/ lineOf s' = ([], 0).
Proof.
  induction fuel as [|fuel IH]; intros cmd s s'; simpl; [discriminate|].
  destruct (switchCase (cmdNameOf cmd));
    try (intros [= <-]; now left);
    try (intros [= <-]; left; apply dispatch_line).
  - intros [= <-].
    destruct (prompt_line (onTty Tty.clear (onTty Tty.clearTty s)));
      [left|right]; assumption.
  - pose proof (checkWallet_line s) as Hw.
    destruct (checkWallet s) as [[|] s1]; intros [= <-]; now left.
  - destruct (getEntries (_history s)) as [|e rest];
      [intros [= <-]; now left|apply IH].
  - pose proof (checkWallet_line s) as Hw.
    destruct (checkWallet s) as [[|] s1]; intros [= <-]; left;
      simpl in Hw; rewrite <- Hw; [apply startPkg_line|reflexivity].
  - pose proof (checkWallet_line s) as Hw.
    destruct (checkWallet s) as [[|] s1]; intros [= <-]; left;
      simpl in Hw; rewrite <- Hw; [apply startPkg_line|reflexivity].
  - destruct (JS.truthy (cmdNameOf cmd)); intros [= <-]; now left.
Qed.

Lemma readComplete_line fuel (clearCmd : bool) s s' :
  handleReadComplete fuel clearCmd s = Some s' ->
  lineOf s' = lineOf s \/ lineOf s' = ([], 0).
Proof.
  unfold handleReadComplete.
  set (s3 := setActive false _).
  assert (H3 : lineOf s3 = lineOf s).
  { unfold s3; destruct (_activePrompt s) as [p|];
      [destruct (ap_resolve p)|]; destruct clearCmd; reflexivity. }
  clearbody s3.
  destruct (_waitingForInput s3).
  - intros [= <-]; left; rewrite <- H3.
    apply (dispatch_line TERMINAL_WAIT_FOR_INPUT NoDetail s3).
  - intros H; apply parseCommand_line in H; now rewrite H3 in H.
Qed.

Lemma printAndRestartPrompt_line
      (callback : PgShell -> option nat * PgShell) s :
  (forall st, lineOf (snd (callback st)) = lineOf st) ->
  lineOf (printAndRestartPrompt callback s)
  = (getInput s, JS.length (getInput s)).
Proof.
  intros Hcb; unfold printAndRestartPrompt.
  set (s2 := onTty (Tty.print [13; 10]) _).
  assert (H2 : lineOf s2 = (getInput s, JS.length (getInput s)))
    by reflexivity.
  clearbody s2; specialize (Hcb s2).
  destruct (callback s2) as [[ret|] s3]; simpl in Hcb;
    rewrite <- H2, <- Hcb; destruct s3 as [[] ? ? ? ? ? ? ? ? ? ?];
    reflexivity.
Qed.

Lemma inBounds_tab s : cursorInBounds s -> cursorInBounds (handleTab s).
Proof.
  intros Hb; unfold handleTab.
  destruct (collectedCandidates s) as [[|c [|c' l]]|].
  - destruct (negb _); [|exact Hb].
    now apply (applyEdit_in_bounds (Insert [32])).
  - apply inBounds_end.
  - assert (Hend : forall st,
               lineOf st = (getInput s, JS.length (getInput s)) ->
               cursorInBounds st).
    { unfold lineOf, cursorInBounds; intros st [= Hi Hc].
      rewrite Hi, Hc; pose proof (length_nonneg (getInput s)); lia. }
    destruct (_ <=? _); apply Hend, printAndRestartPrompt_line;
      intros st; reflexivity.
  - now apply (applyEdit_in_bounds (Insert (JS.lit "    "))).
Qed.

Lemma inBounds_history_previous s :
  cursorInBounds s -> cursorInBounds (historyPrevious s).
Proof.
  intros Hb; unfold historyPrevious.
  destruct (getPrevious (_history s)) as [[v|] h]; [|exact Hb].
  destruct (JS.truthy v); [apply inBounds_end|exact Hb].
Qed.

Lemma inBounds_history_next s : cursorInBounds (historyNext s).
Proof.
  unfold historyNext.
  destruct (getNext (_history s)) as [v h]; apply inBounds_end.
Qed.

Lemma inBounds_escape (seq : jsstring) s :
  cursorInBounds s -> boundariesInRange s ->
  cursorInBounds (handleEscape seq s).
Proof.
  intros Hb [Hl Hr]; unfold handleEscape.
  repeat match goal with
         | |- context [if JS.eqb ?a ?b then _ else _] =>
             destruct (JS.eqb a b)
         end;
    try exact Hb;
    try (now apply inBounds_history_previous);
    try apply inBounds_history_next;
    try (now apply (applyEdit_in_bounds (Move (-1))));
    try (now apply (applyEdit_in_bounds (Move 1)));
    try (now apply (applyEdit_in_bounds (Erase false))).
  - unfold cursorInBounds, getCursor, getInput in *; simpl; lia.
  - unfold cursorInBounds, getCursor, getInput in *; simpl; lia.
  - destruct (_ =? 0); [exact Hb|].
    unfold cursorInBounds, getCursor, getInput in *; simpl; lia.
  - destruct (_ =? 0); [exact Hb|].
    unfold cursorInBounds, getCursor, getInput in *; simpl; lia.
  - destruct (_ =? 0); [exact Hb|].
    unfold cursorInBounds in *.
    cbn [getInput getCursor onTty _pgTty Tty.setInput Tty.setCursor
         input cursor].
    fold (getInput s); fold (getCursor s).
    rewrite length_app, length_substring_prefix by exact Hl.
    pose proof (length_nonneg
                  (JS.substringFrom (getInput s) (getCursor s))).
    lia.
Qed.

(** X4. Whatever key the single-character handler is given, other than
    CTRL+G, a cursor that was inside the line is inside the line
    afterwards, provided the word-boundary searches answer inside the
    line. (CTRL+G empties the line and leaves the cursor to the terminal
    surface.) *)
Theorem every_key_keeps_cursor_in_bounds fuel data s s' :
  cursorInBounds s ->
  boundariesInRange s ->
  data <> CTRL_G ->
  _handleData fuel data s = Some s' ->
  cursorInBounds s'.
Proof.
  intros Hb Hr Hg; unfold _handleData.
  destruct (negb (_active s) && negb (JS.eqb data [3]));
    [now intros [= <-]|].
  destruct (JS.num_eqb (JS.charCodeAt0 data) 27);
    [intros [= <-]; now apply inBounds_escape|].
  destruct (JS.num_ltb (JS.charCodeAt0 data) 32
            || JS.num_eqb (JS.charCodeAt0 data) 127);
    [|intros [= <-]; now apply (applyEdit_in_bounds (Insert data))].
  unfold handleSpecial.
  destruct (JS.eqb data [13]).
  { destruct (isIncompleteInput (getInput s)).
    - intros [= <-]; now apply (applyEdit_in_bounds (Insert [10])).
    - intros H; apply readComplete_line in H as [H|H];
        [now apply (inBounds_line s)|now apply inBounds_empty]. }
  destruct (JS.eqb data [127] || JS.eqb data [8] || JS.eqb data [4]);
    [intros [= <-]; now apply (applyEdit_in_bounds (Erase true))|].
  destruct (JS.eqb data [9]); [intros [= <-]; now apply inBounds_tab|].
  destruct (JS.eqb data [1]).
  { intros [= <-]; unfold cursorInBounds, getCursor, getInput in *;
      simpl; lia. }
  destruct (JS.eqb data [2]);
    [intros [= <-]; now apply (applyEdit_in_bounds (Move (-1)))|].
  destruct (JS.eqb data [5]).
  { intros [= <-]; unfold cursorInBounds, getCursor, getInput in *;
      simpl; lia. }
  destruct (JS.eqb data [6]);
    [intros [= <-]; now apply (applyEdit_in_bounds (Move 1))|].
  destruct (JS.eqb data [7]) eqn:E7;
    [apply eqb_eq in E7; contradiction|].
  destruct (JS.eqb data [11]).
  { intros [= <-]; unfold cursorInBounds, getCursor, getInput; simpl.
    pose proof (length_nonneg
                  (JS.substring (input (_pgTty s)) 0 (cursor (_pgTty s)))).
    lia. }
  destruct (JS.eqb data [14]); [intros [= <-]; apply inBounds_history_next|].
  destruct (JS.eqb data [16]);
    [intros [= <-]; now apply inBounds_history_previous|].
  destruct (JS.eqb data [21]).
  { intros [= <-]; unfold cursorInBounds, getCursor, getInput; simpl.
    pose proof (length_nonneg
                  (JS.substringFrom (input (_pgTty s)) (cursor (_pgTty s)))).
    lia. }
  now intros [= <-].
Qed.

(** *** Listing the candidates *)

Lemma leb_total (a : jsstring) : forall b,
  JS.leb a b = false -> JS.leb b a = true.
Proof.
  induction a as [|x a IH]; intros [|y b]; simpl; try discriminate;
    try reflexivity.
  intros H; apply orb_false_iff in H as [Hlt H].
  apply Z.ltb_ge in Hlt.
  destruct (y <? x) eqn:E; [reflexivity|]; apply Z.ltb_ge in E; simpl.
  assert (x = y) by lia; subst y.
  rewrite Z.eqb_refl in *; simpl in *; now apply IH.
Qed.

Lemma insertSorted_perm (x : jsstring) (l : list jsstring) :
  Permutation (x :: l) (JS.insertSorted x l).
Proof.
  induction l as [|y l IH]; simpl; [reflexivity|].
  destruct (JS.leb x y); [reflexivity|].
  rewrite perm_swap; now constructor.
Qed.

Lemma insertSorted_ascending (x : jsstring) (l : list jsstring) :
  ascending l -> ascending (JS.insertSorted x l).
Proof.
  unfold ascending; induction l as [|y l IH]; intros Hs; simpl.
  - repeat constructor.
  - destruct (JS.leb x y) eqn:E.
    + constructor; [exact Hs|now constructor].
    + inversion Hs as [|? ? Hs' Hhd]; subst.
      constructor; [now apply IH|].
      destruct l as [|z l]; simpl.
      * constructor; now apply leb_total.
      * destruct (JS.leb x z); constructor;
          [now apply leb_total|now inversion Hhd].
Qed.

Lemma sort_perm (l : list jsstring) : Permutation l (JS.sort l).
Proof.
  induction l as [|x l IH]; simpl; [reflexivity|].
  rewrite <- insertSorted_perm; now constructor.
Qed.

Lemma sort_ascending (l : list jsstring) : ascending (JS.sort l).
Proof.
  induction l as [|x l IH]; simpl; [constructor|].
  now apply insertSorted_ascending.
Qed.

(** X5. The candidates that TAB works with are the strings that the
    handlers yield for the input up to the cursor, each as often as it was
    yielded, in ascending order of code units. *)
Theorem tab_candidates_are_sorted s (l : list jsstring) :
  collectedCandidates s = Some l ->
  Permutation
    (collectAutocompleteCandidates
       (map (fun h => h (_history s)) (_autocompleteHandlers s))
       (JS.substring (getInput s) 0 (getCursor s))) l
  /\ ascending l.
Proof.
  unfold collectedCandidates.
  destruct (_autocompleteHandlers s); [discriminate|].
  intros [= <-]; split; [apply sort_perm|apply sort_ascending].
Qed.

(** X6. When TAB finds between two candidates and the configured maximum,
    it prints a line break and the candidates below the line; the input
    line is kept, the cursor ends at the end of the line, and nothing
    else of the shell changes. *)
Theorem tab_lists_candidates fuel s (l : list jsstring) :
  _active s = true ->
  collectedCandidates s = Some l ->
  (2 <= List.length l)%nat ->
  Z.of_nat (List.length l) <= _maxAutocompleteEntries s ->
  exists s',
    _handleData fuel TAB s = Some s'
    /\ screen (_pgTty s') = screen (_pgTty s) ++ [Print [13; 10]; PrintWide l]
    /\ getInput s' = getInput s
    /\ getCursor s' = JS.length (getInput s)
    /\ _history s' = _history s /\ browser s' = browser s
    /\ _active s' = true /\ _activePrompt s' = _activePrompt s.
Proof.
  intros Ha Hc Hlen Hmax; rewrite (handleData_tab _ _ Ha).
  eexists; split; [reflexivity|].
  unfold handleTab; rewrite Hc.
  destruct l as [|c [|c' l]]; simpl in Hlen; try lia.
  apply Z.leb_le in Hmax; rewrite Hmax.
  unfold printAndRestartPrompt; simpl.
  rewrite <- app_assoc; repeat split; auto.
Qed.

Lemma short_text_is_inserted fuel (c : Z) s :
  _active s = true -> _activeCharPrompt s = None ->
  firstInit (_pgTty s) = false -> printable c = true ->
  handleTermData fuel [c] s = Some (_handleCursorInsert [c] s).
Proof.
  intros Ha Hn Hf Hp; unfold handleTermData, capturePromptPrefix, charResolver.
  rewrite Ha, Hf, Hn; cbn [negb andb].
  unfold dispatchData, looksPasted, _handleData.
  change (3 <? JS.length [c]) with false; rewrite Ha; cbn [negb andb].
  unfold printable in Hp; apply andb_true_iff in Hp as [H32 H127].
  apply Z.leb_le in H32; apply negb_true_iff in H127.
  unfold JS.charCodeAt0, JS.num_eqb, JS.num_ltb; cbn [hd_error].
  replace (c =? 27) with false by (symmetry; apply Z.eqb_neq; lia).
  replace (c <? 32) with false by (symmetry; apply Z.ltb_ge; lia).
  now rewrite H127.
Qed.

Lemma insert_at_end (data : jsstring) s :
  getCursor s = JS.length (getInput s) ->
  getInput (_handleCursorInsert data s) = getInput s ++ data.
Proof.
  intros Hc.
  destruct (insert_at data (getInput s) [] s) as [Hi _];
    [now rewrite app_nil_r|exact Hc|].
  now rewrite Hi, app_nil_r.
Qed.

(** X7. When TAB finds more candidates than the configured maximum, it
    prints the question and lists nothing, and it does not register the
    char-level read: with no char read pending before, none is pending
    after, so an answer "y" typed next is inserted at the end of the line
    like any text and the candidates are never printed. *)
Theorem tab_over_limit_question_is_never_answered fuel s
        (l : list jsstring) :
  _active s = true ->
  _activeCharPrompt s = None ->
  firstInit (_pgTty s) = false ->
  collectedCandidates s = Some l ->
  (2 <= List.length l)%nat ->
  _maxAutocompleteEntries s < Z.of_nat (List.length l) ->
  exists s1 s2,
    _handleData fuel TAB s = Some s1
    /\ _activeCharPrompt s1 = None
    /\ screen (_pgTty s1)
       = screen (_pgTty s)
         ++ [Print [13; 10]; ReadChar (displayAllQuestion (List.length l))]
    /\ handleTermData fuel (JS.lit "y") s1 = Some s2
    /\ getInput s2 = getInput s ++ JS.lit "y"
    /\ screen (_pgTty s2) = screen (_pgTty s1)
    /\ settled (browser s2) = settled (browser s).
Proof.
  intros Ha Hn Hf Hc Hlen Hmax; rewrite (handleData_tab _ _ Ha).
  unfold handleTab; rewrite Hc.
  destruct l as [|c [|c' l]]; simpl in Hlen; try lia.
  apply Z.leb_gt in Hmax; rewrite Hmax.
  set (cands := c :: c' :: l) in *.
  set (s1 := printAndRestartPrompt _ s).
  assert (H1 : _active s1 = true /\ _activeCharPrompt s1 = None
               /\ firstInit (_pgTty s1) = false
               /\ getInput s1 = getInput s
               /\ getCursor s1 = JS.length (getInput s)
               /\ screen (_pgTty s1)
                  = screen (_pgTty s)
                    ++ [Print [13; 10];
                        ReadChar (displayAllQuestion (List.length cands))]
               /\ settled (browser s1) = settled (browser s)).
  { unfold s1, printAndRestartPrompt; simpl.
    rewrite <- app_assoc; repeat split; auto. }
  destruct H1 as (Ha1 & Hn1 & Hf1 & Hi1 & Hc1 & Hs1 & Hb1); clearbody s1.
  exists s1, (_handleCursorInsert (JS.lit "y") s1).
  split; [reflexivity|].
  split; [exact Hn1|].
  split; [exact Hs1|].
  split; [now apply short_text_is_inserted|].
  split; [rewrite insert_at_end, Hi1; [reflexivity|now rewrite Hc1, Hi1]|].
  split; [reflexivity|exact Hb1].
Qed.

(** *** The command dispatcher *)

Lemma trimStart_leading (ws : jsstring) : forall (x : Z) (r : jsstring),
  Forall (fun c => JS.isWhiteSpace c = true) ws ->
  JS.isWhiteSpace x = false ->
  JS.trimStart (ws ++ x :: r) = x :: r.
Proof.
  induction ws as [|w ws IH]; intros x r Hws Hx; simpl.
  - now rewrite Hx.
  - inversion Hws as [|? ? Hw Hrest]; subst; rewrite Hw; now apply IH.
Qed.

Lemma trimEnd_snoc (l : jsstring) (c : Z) :
  JS.trimEnd (l ++ [c])
  = if JS.isWhiteSpace c then JS.trimEnd l else l ++ [c].
Proof.
  unfold JS.trimEnd; rewrite rev_app_distr; simpl.
  destruct (JS.isWhiteSpace c); [reflexivity|].
  simpl; now rewrite rev_involutive.
Qed.

Lemma trimEnd_keeps_word (n0 : jsstring) (z : Z) (args : jsstring) :
  JS.isWhiteSpace z = false ->
  exists r t, JS.trimEnd ((n0 ++ [z]) ++ args) = (n0 ++ [z]) ++ r
              /\ args = r ++ t.
Proof.
  intros Hz; induction args as [|c args IH] using rev_ind.
  - exists [], []; rewrite app_nil_r, trimEnd_snoc, Hz; now rewrite app_nil_r.
  - rewrite app_assoc, trimEnd_snoc.
    destruct (JS.isWhiteSpace c).
    + destruct IH as (r & t & Hr & Ht).
      exists r, (t ++ [c]); split; [exact Hr|].
      now rewrite app_assoc, <- Ht.
    + exists (args ++ [c]), []; split; [now rewrite app_assoc|].
      now rewrite app_nil_r.
Qed.

Lemma splitSpaceFirst_word (name : jsstring) : forall r : jsstring,
  Forall (fun c => JS.isWhiteSpace c = false) name ->
  startsWithSpace r ->
  JS.splitSpaceFirst (name ++ r) = name.
Proof.
  induction name as [|x name IH]; intros r Hn Hr; simpl.
  - destruct r as [|c r]; [reflexivity|].
    simpl in Hr; subst c; reflexivity.
  - inversion Hn as [|? ? Hx Hrest]; subst.
    destruct (x =? 32) eqn:E;
      [apply Z.eqb_eq in E; subst x; discriminate|].
    f_equal; now apply IH.
Qed.

Lemma splitSpaceFirst_no_space (l : jsstring) :
  ~ In 32 (JS.splitSpaceFirst l).
Proof.
  induction l as [|c l IH]; simpl; [tauto|].
  destruct (c =? 32) eqn:E; simpl; [tauto|].
  apply Z.eqb_neq in E; intros [H|H]; [congruence|tauto].
Qed.

(** X8. The command name is the first word of the line: leading white
    space is skipped and, for a word followed by nothing or by a space and
    anything, the name is that word, so the arm that a line selects is the
    arm of its first word alone ("solana-keygen" does not count as
    "solana"). A command name never contains a space. *)
Theorem command_name_is_first_word (ws name rest : jsstring) :
  Forall (fun c => JS.isWhiteSpace c = true) ws ->
  isWord name ->
  startsWithSpace rest ->
  cmdNameOf (ws ++ name ++ rest) = name
  /\ switchCase (cmdNameOf (ws ++ name ++ rest)) = switchCase name
  /\ forall cmd, ~ In 32 (cmdNameOf cmd).
Proof.
  intros Hws [Hne Hn] Hr.
  assert (Hname : cmdNameOf (ws ++ name ++ rest) = name).
  { unfold cmdNameOf, JS.trim.
    destruct name as [|x name]; [contradiction|].
    inversion Hn as [|? ? Hx Hrest]; subst.
    change ((x :: name) ++ rest) with (x :: (name ++ rest)).
    rewrite (trimStart_leading ws x (name ++ rest) Hws Hx).
    destruct (exists_last Hne) as (n0 & z & Hlast).
    assert (Hz : JS.isWhiteSpace z = false).
    { rewrite Forall_forall in Hn; apply Hn; rewrite Hlast.
      apply in_or_app; right; now left. }
    change (x :: name ++ rest) with ((x :: name) ++ rest).
    rewrite Hlast.
    destruct (trimEnd_keeps_word n0 z rest Hz) as (r & t & Hr' & Ht).
    rewrite Hr', <- Hlast.
    apply splitSpaceFirst_word; [exact Hn|].
    destruct r as [|c r]; [exact I|].
    rewrite Ht in Hr; exact Hr. }
  split; [exact Hname|]; split; [now rewrite Hname|].
  intros cmd; apply splitSpaceFirst_no_space.
Qed.

(** X9. Repeating the last command never returns when the last history
    entry is itself a repeat-last command: whatever the depth allowed,
    the dispatcher is still calling itself when the call stack is
    exhausted. *)
Theorem repeat_last_of_repeat_last_never_returns fuel cmd s
        (e : jsstring) (rest : list jsstring) :
  switchCase (cmdNameOf cmd) = CaseRUN_LAST_CMD ->
  getEntries (_history s) = e :: rest ->
  switchCase (cmdNameOf (last rest e)) = CaseRUN_LAST_CMD ->
  _parseCommand fuel cmd s = None.
Proof.
  intros Hc He Hl; revert cmd Hc.
  induction fuel as [|fuel IH]; intros cmd Hc; simpl; [reflexivity|].
  rewrite Hc, He; now apply IH.
Qed.

Lemma dispatch_timers (name : EventName) (d : Detail) s :
  name <> TERMINAL_WAIT_FOR_INPUT ->
  timers (browser (createAndDispatchCustomEvent name d s))
  = timers (browser s).
Proof.
  intros Hn; unfold createAndDispatchCustomEvent;
    destruct name; try reflexivity; contradiction.
Qed.

Lemma prompt_timers s : timers (browser (prompt s)) = timers (browser s).
Proof.
  unfold prompt.
  destruct (match _activePrompt s with Some _ => true | None => false end
            && inputStartsWithPrompt (_pgTty s)); reflexivity.
Qed.

Lemma startPkg_timers (pkg : PkgName) cmd s :
  timers (browser (startPkg pkg cmd s)) = timers (browser s).
Proof. unfold startPkg; now destruct (negb (isLoaded pkg s)). Qed.

(** X10. Which commands release the prompt themselves. For every command
    line that is not a repeat of a recorded entry, the dispatcher returns,
    and it has armed the timer of [enable] exactly once when the line is
    "help", an unknown or empty command, or a repeat-last with an empty
    history, and not at all for every other command (counted from after
    the wallet test for the commands that make one). *)
Theorem commands_that_call_enable fuel cmd s :
  (switchCase (cmdNameOf cmd) = CaseRUN_LAST_CMD ->
   getEntries (_history s) = []) ->
  exists s',
    _parseCommand (S fuel) cmd s = Some s'
    /\ timers (browser s')
       = ((if callsEnable (switchCase (cmdNameOf cmd)) s then 1 else 0)
          + timers (browser (afterWalletTest (switchCase (cmdNameOf cmd)) s)))
           %nat.
Proof.
  intros Hh; simpl; unfold afterWalletTest, callsEnable.
  destruct (switchCase (cmdNameOf cmd)) eqn:Hc; simpl;
    try (eexists; split; [reflexivity|]; reflexivity);
    try (eexists; split; [reflexivity|]; now apply dispatch_timers).
  - eexists; split; [reflexivity|].
    apply (prompt_timers (onTty Tty.clear (onTty Tty.clearTty s))).
  - destruct (checkWallet s) as [[|] s1]; eexists; split; reflexivity.
  - rewrite (Hh eq_refl); eexists; split; reflexivity.
  - destruct (checkWallet s) as [[|] s1]; eexists; (split; [reflexivity|]);
      [apply startPkg_timers|reflexivity].
  - destruct (checkWallet s) as [[|] s1]; eexists; (split; [reflexivity|]);
      [apply startPkg_timers|reflexivity].
  - destruct (JS.truthy (cmdNameOf cmd)); eexists; split; reflexivity.
Qed.

(** *** Nested disable and enable *)

Lemma prompt_pending s : _activePrompt (prompt s) <> None.
Proof.
  unfold prompt.
  destruct (_activePrompt s) as [p|] eqn:Hp; simpl.
  - destruct (inputStartsWithPrompt (_pgTty s)); simpl;
      [now rewrite Hp|discriminate].
  - discriminate.
Qed.

Lemma prompt_active s : _active s = true -> _active (prompt s) = true.
Proof.
  intros Ha; unfold prompt.
  destruct (match _activePrompt s with Some _ => true | None => false end
            && inputStartsWithPrompt (_pgTty s)); [exact Ha|reflexivity].
Qed.

Lemma prompt_count s : _processCount (prompt s) = _processCount s.
Proof.
  unfold prompt.
  destruct (match _activePrompt s with Some _ => true | None => false end
            && inputStartsWithPrompt (_pgTty s)); reflexivity.
Qed.

Lemma repeatedly_disable (n : nat) : forall s,
  _processCount (repeatedly n disable s) = _processCount s + Z.of_nat n
  /\ timers (browser (repeatedly n disable s)) = timers (browser s)
  /\ ((1 <= n)%nat -> _active (repeatedly n disable s) = false).
Proof.
  induction n as [|n IH]; intros s; simpl repeatedly.
  - repeat split; [lia|lia].
  - destruct (IH (disable s)) as (Hc & Ht & Ha).
    rewrite Hc, Ht; repeat split; [simpl; lia|].
    intros _; destruct n as [|n]; [reflexivity|apply Ha; lia].
Qed.

Lemma repeatedly_enable (n : nat) : forall s,
  _processCount (repeatedly n enable s) = _processCount s
  /\ timers (browser (repeatedly n enable s)) = (n + timers (browser s))%nat
  /\ _active (repeatedly n enable s) = _active s
  /\ _activePrompt (repeatedly n enable s) = _activePrompt s.
Proof.
  induction n as [|n IH]; intros s; simpl repeatedly; [tauto|].
  destruct (IH (enable s)) as (Hc & Ht & Ha & Hp).
  rewrite Hc, Ht, Ha, Hp; simpl; repeat split; lia.
Qed.

Lemma fireTimer_nested s (t : nat) :
  timers (browser s) = S t -> 2 <= _processCount s ->
  exists s',
    fireTimer s = Some s'
    /\ _processCount s' = _processCount s - 1
    /\ timers (browser s') = t
    /\ _active s' = _active s /\ _activePrompt s' = _activePrompt s.
Proof.
  intros Ht Hc; unfold fireTimer; rewrite Ht.
  eexists; split; [reflexivity|].
  unfold enableCallback, _decrementProcessCount.
  cbn [_processCount onBrowser].
  replace (_processCount s =? 0) with false by (symmetry; apply Z.eqb_neq; lia).
  cbn [_processCount setProcessCount].
  replace (_processCount s - 1 =? 0) with false
    by (symmetry; apply Z.eqb_neq; lia).
  simpl; rewrite Ht; repeat split.
Qed.

Lemma fireTimer_outermost s (t : nat) :
  timers (browser s) = S t -> 0 <= _processCount s <= 1 ->
  exists s',
    fireTimer s = Some s'
    /\ _processCount s' = 0
    /\ timers (browser s') = t
    /\ _active s' = true /\ _activePrompt s' <> None.
Proof.
  intros Ht Hc; unfold fireTimer; rewrite Ht.
  eexists; split; [reflexivity|].
  unfold enableCallback.
  set (s0 := onBrowser Br.clearTimer s).
  assert (H0 : _processCount (_decrementProcessCount s0) = 0
               /\ timers (browser (_decrementProcessCount s0)) = t).
  { unfold _decrementProcessCount, s0; cbn [_processCount onBrowser].
    destruct (_processCount s =? 0) eqn:E; simpl; rewrite Ht; simpl.
    - apply Z.eqb_eq in E; auto.
    - apply Z.eqb_neq in E; split; [lia|reflexivity]. }
  destruct H0 as [H0 Ht0]; rewrite H0; simpl (0 =? 0).
  set (s2 := setActive true (_decrementProcessCount s0)).
  assert (H2 : _processCount s2 = 0 /\ timers (browser s2) = t
               /\ _active s2 = true)
    by (repeat split; assumption).
  destruct H2 as (Hc2 & Ht2 & Ha2); clearbody s2.
  pose proof (prompt_pending s2) as Hp.
  pose proof (prompt_count s2) as Hpc.
  pose proof (prompt_timers s2) as Hpt.
  pose proof (prompt_active s2 Ha2) as Hpa.
  unfold ttyRead; simpl.
  repeat split; try congruence.
Qed.

Lemma fireTimers_nested (j : nat) : forall (k : nat) s,
  (j <= k)%nat -> (j <= timers (browser s))%nat ->
  _processCount s = Z.of_nat k ->
  exists s',
    fireTimers j s = Some s'
    /\ _processCount s' = Z.of_nat (k - j)
    /\ ((j < k)%nat ->
        _active s' = _active s /\ _activePrompt s' = _activePrompt s)
    /\ (j = k -> (1 <= k)%nat ->
        _active s' = true /\ _activePrompt s' <> None).
Proof.
  induction j as [|j IH]; intros k s Hjk Hjt Hc.
  - exists s; simpl; rewrite Nat.sub_0_r; repeat split; auto; lia.
  - destruct (timers (browser s)) as [|t] eqn:Ht; [lia|].
    destruct (Nat.eq_dec k 1) as [->|Hk].
    + assert (j = 0%nat) by lia; subst j.
      destruct (fireTimer_outermost s t Ht) as (s' & Hf & Hc' & _ & Ha & Hp);
        [lia|].
      exists s'; simpl; rewrite Hf; repeat split; auto; lia.
    + destruct (fireTimer_nested s t Ht) as (s1 & Hf & Hc1 & Ht1 & Ha1 & Hp1);
        [lia|].
      destruct (IH (k - 1)%nat s1) as (s' & Hfs & Hc' & Hlt & Heq);
        [lia|lia|lia|].
      exists s'; simpl; rewrite Hf; split; [exact Hfs|].
      split; [rewrite Hc'; f_equal; lia|].
      split.
      * intros Hlt'; rewrite <- Ha1, <- Hp1; apply Hlt; lia.
      * intros Heq' _; apply Heq; lia.
Qed.

(** X11. Nested disable and enable. After the shell, with no process
    counted, has been disabled [n] times and enabled [n] times, each of the
    first [n - 1] timers that fire only lowers the process count: the shell
    stays inactive and no read is issued. The last one brings the count
    to zero, makes the shell active and leaves a line read pending. *)
Theorem reenabled_by_the_outermost_enable (n j : nat) s :
  _processCount s = 0 ->
  (1 <= n)%nat -> (j <= n)%nat ->
  exists s',
    fireTimers j (repeatedly n enable (repeatedly n disable s)) = Some s'
    /\ _processCount s' = Z.of_nat (n - j)
    /\ ((j < n)%nat ->
        _active s' = false /\ _activePrompt s' = _activePrompt s)
    /\ (j = n -> _active s' = true /\ _activePrompt s' <> None).
Proof.
  intros H0 Hn Hj.
  destruct (repeatedly_disable n s) as (Hc & _ & Ha).
  assert (Hp : _activePrompt (repeatedly n disable s) = _activePrompt s).
  { clear; revert s; induction n as [|n IH]; intros s; simpl; [reflexivity|].
    now rewrite IH. }
  destruct (repeatedly_enable n (repeatedly n disable s))
    as (Hc' & Ht' & Ha' & Hp').
  destruct (fireTimers_nested j n
              (repeatedly n enable (repeatedly n disable s)))
    as (s' & Hf & Hcs & Hlt & Heq); [lia|lia|rewrite Hc', Hc, H0; lia|].
  exists s'; split; [exact Hf|]; split; [exact Hcs|]; split.
  - intros Hjn; destruct (Hlt Hjn) as [Ha1 Hp1].
    rewrite Ha1, Hp1, Ha', Hp', Hp; split; [now apply Ha|reflexivity].
  - intros Hjn; now apply Heq.
Qed.

(** *** Lines submitted while waiting *)

Lemma resolve_frame (p : nat) (v : jsstring) (b : Browser) :
  events (Br.resolve p v b) = events b
  /\ timers (Br.resolve p v b) = timers b
  /\ nextId (Br.resolve p v b) = nextId b.
Proof. unfold Br.resolve; now destruct (Br.isSettled p b). Qed.

Lemma runListeners_quiet (l : list nat) : forall s,
  let s' := runListeners l s in
  events (browser s') = events (browser s)
  /\ timers (browser s') = timers (browser s)
  /\ _active s' = _active s /\ _history s' = _history s
  /\ _loadedPkgs s' = _loadedPkgs s /\ _activePrompt s' = _activePrompt s
  /\ _pgTty s' = _pgTty s.
Proof.
  induction l as [|a l IH]; intros s; simpl; [tauto|].
  destruct (IH (handleInput a s)) as (He & Ht & Ha & Hh & Hl & Hp & Hy).
  rewrite He, Ht, Ha, Hh, Hl, Hp, Hy; unfold handleInput; simpl.
  destruct (resolve_frame a (input (_pgTty s))
              (Br.removeEventListener a (browser s))) as (He' & Ht' & _).
  unfold getInput; simpl; rewrite He', Ht'; tauto.
Qed.

Lemma readComplete_while_waiting (clearCmd : bool) s :
  _waitingForInput s = true ->
  exists s3,
    (forall fuel,
        handleReadComplete fuel clearCmd s
        = Some (runListeners (listeners (browser s))
                  (onBrowser
                     (Br.emit (CustomEvent TERMINAL_WAIT_FOR_INPUT NoDetail))
                     s3)))
    /\ getInput s3 = getInput s /\ getCursor s3 = getCursor s
    /\ _active s3 = false /\ _history s3 = _history s
    /\ _loadedPkgs s3 = _loadedPkgs s
    /\ events (browser s3) = events (browser s)
    /\ timers (browser s3) = timers (browser s)
    /\ (forall w, openFor w (getInput s) (browser s) ->
                  openFor w (getInput s) (browser s3)).
Proof.
  intros Hw; unfold handleReadComplete.
  set (s1 := match _activePrompt s with Some _ => _ | None => _ end).
  assert (H1 : getInput s1 = getInput s /\ getCursor s1 = getCursor s
               /\ _waitingForInput s1 = true
               /\ _history s1 = _history s /\ _loadedPkgs s1 = _loadedPkgs s
               /\ listeners (browser s1) = listeners (browser s)
               /\ events (browser s1) = events (browser s)
               /\ timers (browser s1) = timers (browser s)
               /\ (forall w, openFor w (getInput s) (browser s) ->
                             openFor w (getInput s) (browser s1))).
  { unfold s1; destruct (_activePrompt s) as [p|];
      [destruct (ap_resolve p) as [r|]|]; simpl;
      try (repeat split; auto; fail).
    destruct (resolve_frame r (getInput s) (browser s)) as (He & Ht & _).
    rewrite resolve_listeners, He, Ht; repeat split; auto.
    intros w; apply openFor_resolve. }
  destruct H1 as (Hi & Hcu & Hw1 & Hh & Hl & Hls & He & Ht & Ho).
  clearbody s1.
  exists (setActive false
            (if clearCmd then onTty Tty.clearLine s1
             else onTty (Tty.print [13; 10]) s1)).
  assert (Hw3 : _waitingForInput
                  (setActive false
                     (if clearCmd then onTty Tty.clearLine s1
                      else onTty (Tty.print [13; 10]) s1)) = true)
    by (destruct clearCmd; exact Hw1).
  rewrite Hw3; unfold createAndDispatchCustomEvent, runListeners.
  destruct clearCmd; simpl; rewrite Hls; repeat split; auto.
Qed.

(** X12. A line submitted while the shell waits for input is not run as a
    command: completing the read needs no call of the dispatcher, hands
    out the wait-for-input event and nothing else, arms no timer of
    [enable], and leaves the shell inactive with its history and its
    loaded packages as they were. *)
Theorem line_submitted_while_waiting_is_not_dispatched
        (clearCmd : bool) s :
  _waitingForInput s = true ->
  exists s',
    (forall fuel, handleReadComplete fuel clearCmd s = Some s')
    /\ events (browser s')
       = events (browser s) ++ [CustomEvent TERMINAL_WAIT_FOR_INPUT NoDetail]
    /\ timers (browser s') = timers (browser s)
    /\ _active s' = false
    /\ _history s' = _history s /\ _loadedPkgs s' = _loadedPkgs s
    /\ getInput s' = getInput s.
Proof.
  intros Hw.
  destruct (readComplete_while_waiting clearCmd s Hw)
    as (s3 & Hrc & Hi & _ & Ha & Hh & Hl & He & Ht & _).
  eexists; split; [exact Hrc|].
  destruct (runListeners_quiet (listeners (browser s))
              (onBrowser
                 (Br.emit (CustomEvent TERMINAL_WAIT_FOR_INPUT NoDetail)) s3))
    as (He' & Ht' & Ha' & Hh' & Hl' & _ & Hy').
  rewrite He', Ht', Ha', Hh', Hl'; unfold getInput; rewrite Hy'; simpl.
  rewrite He, Ht; repeat split; auto.
Qed.

(** X13. The wait for input is one-shot. A request made while the shell
    is not waiting is accepted and registered; once a line is submitted
    its promise is fulfilled with that line, the waiting flag is cleared,
    and a further request is accepted again. *)
Theorem wait_is_one_shot msg (msg' : jsstring) fuel (clearCmd : bool) s :
  _waitingForInput s = false ->
  Br.isSettled (nextId (browser s)) (browser s) = false ->
  exists s1 s2,
    waitForUserInput msg s = (Pending (nextId (browser s)), s1)
    /\ _waitingForInput s1 = true
    /\ handleReadComplete fuel clearCmd s1 = Some s2
    /\ In (nextId (browser s), getInput s) (settled (browser s2))
    /\ _waitingForInput s2 = false
    /\ fst (waitForUserInput msg' s2) = Pending (nextId (browser s2)).
Proof.
  intros Hw Hs.
  destruct (first_wait_is_pending msg s Hw)
    as (s1 & Hwait & Hw1 & Hin & Hset & _).
  assert (Hi1 : getInput s1 = getInput s).
  { unfold waitForUserInput in Hwait; rewrite Hw in Hwait.
    simpl in Hwait; injection Hwait as <-; reflexivity. }
  assert (Ho : openFor (nextId (browser s)) (getInput s1) (browser s1)).
  { left; unfold Br.isSettled in *; now rewrite Hset. }
  destruct (readComplete_while_waiting clearCmd s1 Hw1)
    as (s3 & Hrc & Hi & _ & _ & _ & _ & _ & _ & Hopen).
  exists s1; eexists; split; [exact Hwait|]; split; [exact Hw1|].
  split; [apply Hrc|].
  destruct (runListeners_resolves (nextId (browser s)) (getInput s1)
              (listeners (browser s1))
              (onBrowser
                 (Br.emit (CustomEvent TERMINAL_WAIT_FOR_INPUT NoDetail)) s3))
    as (Hres & Hflag & _); [exact Hin|exact Hi| |].
  - destruct (Hopen _ Ho) as [H|H]; [left|right]; exact H.
  - rewrite <- Hi1; split; [exact Hres|]; split; [exact Hflag|].
    unfold waitForUserInput; rewrite Hflag; simpl.
    f_equal.
Qed.

(** *** Pasted blocks *)

Lemma handleData_inactive_any fuel data s :
  _active s = false -> _handleData fuel data s = Some s.
Proof.
  intros Ha; unfold _handleData; rewrite Ha; cbn [negb andb].
  destruct (JS.eqb data [3]) eqn:E; [|reflexivity].
  apply eqb_eq in E; subst data; reflexivity.
Qed.

Lemma forEach_inactive fuel (l : list jsstring) s :
  _active s = false -> forEach (_handleData fuel) l s = Some s.
Proof.
  intros Ha; induction l as [|c l IH]; simpl; [reflexivity|].
  now rewrite handleData_inactive_any.
Qed.

Lemma forEach_app (f : jsstring -> PgShell -> option PgShell)
      (l1 l2 : list jsstring) : forall s,
  forEach f (l1 ++ l2) s
  = match forEach f l1 s with
    | Some s1 => forEach f l2 s1
    | None => None
    end.
Proof.
  induction l1 as [|c l1 IH]; intros s; simpl; [reflexivity|].
  destruct (f c s); [apply IH|reflexivity].
Qed.

(** X14. In a pasted block, once a character has left the shell inactive
    (a line was submitted and the command did not prompt again at once),
    every character after it is dropped. *)
Theorem rest_of_paste_is_dropped_once_inactive fuel
        (l1 l2 : list jsstring) s s1 :
  forEach (_handleData fuel) l1 s = Some s1 ->
  _active s1 = false ->
  forEach (_handleData fuel) (l1 ++ l2) s = Some s1.
Proof.
  intros H1 Ha; rewrite forEach_app, H1; now apply forEach_inactive.
Qed.

Lemma replaceNewlineRuns_single (s : jsstring) :
  singleReturns (JS.replaceNewlineRuns false s)
  /\ (singleReturns (JS.replaceNewlineRuns true s)
      /\ hd_error (JS.replaceNewlineRuns true s) <> Some 13).
Proof.
  induction s as [|c r (IHf & IHt & IHh)]; simpl.
  - repeat split; discriminate.
  - destruct (JS.isNewline c) eqn:Hc.
    + repeat split; auto; try discriminate.
      destruct (JS.replaceNewlineRuns true r) as [|d r'] eqn:E; [exact I|].
      intros [_ ->]; now apply IHh.
    + assert (Hc13 : c <> 13 /\ c <> 10).
      { unfold JS.isNewline in Hc; apply orb_false_iff in Hc as [H1 H2].
        apply Z.eqb_neq in H1, H2; auto. }
      destruct Hc13 as [H13 H10].
      assert (Hs : singleReturns (c :: JS.replaceNewlineRuns false r)).
      { simpl; repeat split; auto.
        destruct (JS.replaceNewlineRuns false r); [exact I|].
        intros [-> _]; contradiction. }
      repeat split; try exact Hs; try apply Hs.
      simpl; intros [= ->]; contradiction.
Qed.

Lemma replaceNewlineRuns_id (s : jsstring) :
  Forall (fun c => JS.isNewline c = false) s ->
  forall b, JS.replaceNewlineRuns b s = s.
Proof.
  induction 1 as [|c r Hc Hr IH]; intros b; simpl; [reflexivity|].
  rewrite Hc; f_equal; apply IH.
Qed.

Lemma replaceNewlineRuns_fixed (s : jsstring) :
  singleReturns s -> JS.replaceNewlineRuns false s = s.
Proof.
  induction s as [|c r IH]; simpl; [reflexivity|].
  intros (H10 & Hadj & Hr).
  destruct (JS.isNewline c) eqn:Hc.
  - assert (c = 13).
    { unfold JS.isNewline in Hc; apply orb_true_iff in Hc as [H|H];
        apply Z.eqb_eq in H; [exact H|contradiction]. }
    subst c; f_equal.
    destruct r as [|d r]; [reflexivity|].
    specialize (IH Hr); simpl in IH |- *.
    destruct (JS.isNewline d) eqn:Hd; [|exact IH].
    exfalso; destruct Hr as (Hd10 & _ & _).
    unfold JS.isNewline in Hd; apply orb_true_iff in Hd as [H|H];
      apply Z.eqb_eq in H; [apply Hadj; auto|contradiction].
  - f_equal; now apply IH.
Qed.

(** X15. What the paste normalisation produces: no line feed is left and
    no two carriage returns are neighbours, so a pasted block never
    submits an empty line between two of its lines; a block without line
    breaks is fed as it is; normalising twice changes nothing more. *)
Theorem paste_normalisation (data : jsstring) :
  singleReturns (JS.replaceNewlineRuns false data)
  /\ (Forall (fun c => JS.isNewline c = false) data ->
      JS.replaceNewlineRuns false data = data)
  /\ JS.replaceNewlineRuns false (JS.replaceNewlineRuns false data)
     = JS.replaceNewlineRuns false data.
Proof.
  split; [apply replaceNewlineRuns_single|split].
  - intros H; now apply replaceNewlineRuns_id.
  - apply replaceNewlineRuns_fixed, replaceNewlineRuns_single.
Qed.

(** *** Plain text *)

Lemma insert_nil s : _handleCursorInsert [] s = s.
Proof.
  unfold _handleCursorInsert; simpl.
  rewrite substring_split, Z.add_0_r; apply shell_eta.
Qed.

Lemma insert_insert (a b : jsstring) s :
  cursorInBounds s ->
  _handleCursorInsert b (_handleCursorInsert a s)
  = _handleCursorInsert (a ++ b) s.
Proof.
  intros Hb; unfold cursorInBounds in Hb.
  set (pre := JS.substring (getInput s) 0 (getCursor s)).
  set (post := JS.substringFrom (getInput s) (getCursor s)).
  assert (Hsplit : getInput s = pre ++ post)
    by (symmetry; apply substring_split).
  assert (Hlen : getCursor s = JS.length pre)
    by (symmetry; now apply length_substring_prefix).
  destruct (insert_at a pre post s Hsplit Hlen) as [Hia Hca].
  assert (Hia' : getInput (_handleCursorInsert a s) = (pre ++ a) ++ post)
    by (now rewrite Hia, app_assoc).
  destruct (insert_at b (pre ++ a) post _ Hia' Hca) as [Hib Hcb].
  destruct (insert_at (a ++ b) pre post s Hsplit Hlen) as [Hiab Hcab].
  assert (Hi : getInput (_handleCursorInsert b (_handleCursorInsert a s))
               = getInput (_handleCursorInsert (a ++ b) s))
    by (rewrite Hib, Hiab, <- !app_assoc; reflexivity).
  assert (Hc : getCursor (_handleCursorInsert b (_handleCursorInsert a s))
               = getCursor (_handleCursorInsert (a ++ b) s))
    by (rewrite Hcb, Hcab, <- app_assoc; reflexivity).
  transitivity
    (onTty (Tty.setInput (getInput (_handleCursorInsert (a ++ b) s)) false)
       (onTty
          (Tty.setCursorDirectly (getCursor (_handleCursorInsert (a ++ b) s)))
          s));
    [rewrite <- Hi, <- Hc|]; reflexivity.
Qed.

Lemma handleData_printable fuel (c : Z) (r : jsstring) s :
  _active s = true -> printable c = true ->
  _handleData fuel (c :: r) s = Some (_handleCursorInsert (c :: r) s).
Proof.
  intros Ha Hp; unfold _handleData; rewrite Ha; cbn [negb andb].
  unfold printable in Hp; apply andb_true_iff in Hp as [H32 H127].
  apply Z.leb_le in H32; apply negb_true_iff in H127.
  unfold JS.charCodeAt0, JS.num_eqb, JS.num_ltb; cbn [hd_error].
  replace (c =? 27) with false by (symmetry; apply Z.eqb_neq; lia).
  replace (c <? 32) with false by (symmetry; apply Z.ltb_ge; lia).
  now rewrite H127.
Qed.

Lemma takesText_insert (data : jsstring) s :
  takesText s -> takesText (_handleCursorInsert data s).
Proof.
  intros (Ha & Hn & Hf & Hb); repeat split; auto.
  - apply (applyEdit_in_bounds (Insert data) s Hb).
  - apply (applyEdit_in_bounds (Insert data) s Hb).
Qed.

Lemma forEach_printable fuel (n : nat) : forall (data : jsstring) s,
  (List.length data <= n)%nat ->
  Forall (fun c => printable c = true) data ->
  takesText s ->
  forEach (_handleData fuel) (JS.arrayFrom data) s
  = Some (_handleCursorInsert data s).
Proof.
  induction n as [|n IH]; intros [|c [|d r]] s Hn Hp Ht; simpl in Hn;
    try lia; try (simpl; now rewrite insert_nil).
  - inversion Hp as [|? ? Hc _]; subst; simpl.
    now rewrite (handleData_printable fuel c [] s (proj1 Ht) Hc).
  - inversion Hp as [|? ? Hc Hp']; subst.
    inversion Hp' as [|? ? Hd Hp'']; subst.
    cbn [JS.arrayFrom].
    destruct (JS.isHighSurrogate c && JS.isLowSurrogate d).
    + cbn [forEach].
      rewrite (handleData_printable fuel c [d] s (proj1 Ht) Hc).
      rewrite IH; [|simpl; lia|exact Hp''|now apply takesText_insert].
      f_equal; apply (insert_insert [c; d] r s), Ht.
    + cbn [forEach].
      rewrite (handleData_printable fuel c [] s (proj1 Ht) Hc).
      rewrite (IH (d :: r));
        [|simpl; lia|exact Hp'|now apply takesText_insert].
      f_equal; apply (insert_insert [c] (d :: r) s), Ht.
Qed.

Lemma printable_no_newline (data : jsstring) :
  Forall (fun c => printable c = true) data ->
  Forall (fun c => JS.isNewline c = false) data.
Proof.
  apply Forall_impl; intros c Hp.
  unfold printable in Hp; apply andb_true_iff in Hp as [H32 _].
  apply Z.leb_le in H32; unfold JS.isNewline.
  apply orb_false_iff; split; apply Z.eqb_neq; lia.
Qed.

Lemma text_chunk_is_inserted fuel (data : jsstring) s :
  Forall (fun c => printable c = true) data ->
  takesText s ->
  handleTermData fuel data s = Some (_handleCursorInsert data s).
Proof.
  intros Hp Ht; pose proof Ht as (Ha & Hn & Hf & Hb).
  unfold handleTermData, capturePromptPrefix, charResolver.
  rewrite Ha, Hf, Hn; cbn [negb andb].
  unfold dispatchData.
  destruct (looksPasted data).
  - rewrite (replaceNewlineRuns_id data (printable_no_newline data Hp)).
    now apply (forEach_printable fuel (List.length data)).
  - destruct data as [|c r]; [now rewrite handleData_nil, insert_nil|].
    inversion Hp; subst; now apply handleData_printable.
Qed.

(** X16. Chunk boundaries do not matter for plain text. A chunk made of
    visible units only is inserted at the cursor as one piece, whether it
    is short or long enough to be expanded as a paste; and delivering a
    text in several chunks gives the same state as delivering it in
    one. *)
Theorem text_is_inserted_whatever_the_chunks fuel
        (chunks : list jsstring) s :
  Forall (Forall (fun c => printable c = true)) chunks ->
  takesText s ->
  feed fuel chunks s = Some (_handleCursorInsert (List.concat chunks) s)
  /\ feed fuel chunks s = handleTermData fuel (List.concat chunks) s.
Proof.
  intros Hp Ht.
  assert (H : feed fuel chunks s
              = Some (_handleCursorInsert (List.concat chunks) s)).
  { revert s Ht; induction Hp as [|data chunks Hd Hrest IH]; intros s Ht.
    - simpl; now rewrite insert_nil.
    - simpl; rewrite (text_chunk_is_inserted fuel data s Hd Ht).
      rewrite IH by now apply takesText_insert.
      f_equal; apply insert_insert, Ht. }
  split; [exact H|]; rewrite H; symmetry.
  apply text_chunk_is_inserted; [|exact Ht].
  clear - Hp; induction Hp as [|data chunks Hd Hrest IH]; simpl;
    [constructor|]; apply Forall_app; now split.
Qed.

(** X17. A control unit followed by anything else in the same chunk is
    ignored: every case of the special-character arm is a single unit, so
    a chunk such as carriage return plus line feed matches none and the
    state is returned unchanged. *)
Theorem control_chunk_of_several_units_is_ignored fuel
        (c d : Z) (r : jsstring) s :
  controlUnit c = true ->
  _handleData fuel (c :: d :: r) s = Some s.
Proof.
  intros Hc; unfold _handleData.
  destruct (negb (_active s) && negb (JS.eqb (c :: d :: r) [3]));
    [reflexivity|].
  unfold controlUnit in Hc; apply andb_true_iff in Hc as [H27 Hlow].
  apply negb_true_iff in H27.
  unfold JS.charCodeAt0, JS.num_eqb, JS.num_ltb; cbn [hd_error].
  rewrite H27, Hlow; unfold handleSpecial; cbn [JS.eqb].
  now rewrite !andb_false_r.
Qed.

(** *** What every action keeps *)

Ltac kept :=
  unfold asConstructed in *; simpl; intuition (auto; try lia).

Lemma kept_prompt s : asConstructed s -> asConstructed (prompt s).
Proof.
  unfold prompt.
  destruct (match _activePrompt s with Some _ => true | None => false end
            && inputStartsWithPrompt (_pgTty s)); kept.
Qed.

Lemma kept_enableCallback s :
  asConstructed s -> asConstructed (enableCallback s).
Proof.
  intros H; unfold enableCallback.
  assert (Hd : asConstructed (_decrementProcessCount s)).
  { unfold _decrementProcessCount.
    destruct (_processCount s =? 0) eqn:E; [exact H|].
    apply Z.eqb_neq in E; kept. }
  destruct (_processCount (_decrementProcessCount s) =? 0); [|exact Hd].
  assert (Hp : asConstructed
                 (prompt (setActive true (_decrementProcessCount s))))
    by (apply kept_prompt; revert Hd; kept).
  revert Hp; unfold ttyRead; kept.
Qed.

Lemma kept_resume s : asConstructed s -> asConstructed (resume s).
Proof. unfold resume; kept. Qed.

Lemma kept_runContinuation (k : Continuation) (v : jsstring) s :
  asConstructed s -> asConstructed (runContinuation k v s).
Proof.
  destruct k as [|candidates chained|]; simpl; [kept| |apply kept_resume].
  destruct (JS.eqb v (JS.lit "y") || JS.eqb v (JS.lit "Y")); kept.
Qed.

Lemma kept_runListeners (l : list nat) : forall s,
  asConstructed s -> asConstructed (runListeners l s).
Proof.
  induction l as [|a l IH]; intros s H; simpl; [exact H|].
  apply IH; revert H; unfold handleInput; kept.
Qed.

Lemma kept_dispatch (name : EventName) (d : Detail) s :
  asConstructed s -> asConstructed (createAndDispatchCustomEvent name d s).
Proof.
  intros H; unfold createAndDispatchCustomEvent.
  destruct name; try (revert H; kept; fail).
  apply (kept_runListeners _ (onBrowser _ s)); revert H; kept.
Qed.

Lemma kept_checkWallet s :
  asConstructed s -> asConstructed (snd (checkWallet s)).
Proof.
  unfold checkWallet; destruct (checkIsPgConnected (browser s)); kept.
Qed.

Lemma kept_startPkg (pkg : PkgName) cmd s :
  asConstructed s -> asConstructed (startPkg pkg cmd s).
Proof. unfold startPkg; destruct (negb (isLoaded pkg s)); kept. Qed.

Lemma kept_parseCommand fuel : forall cmd s s',
  asConstructed s -> _parseCommand fuel cmd s = Some s' -> asConstructed s'.
Proof.
  induction fuel as [|fuel IH]; intros cmd s s' H; simpl; [discriminate|].
  destruct (switchCase (cmdNameOf cmd));
    try (intros [= <-]; revert H; kept; fail);
    try (intros [= <-]; now apply kept_dispatch).
  - intros [= <-]; apply kept_prompt; revert H; kept.
  - pose proof (kept_checkWallet s H) as Hw.
    destruct (checkWallet s) as [[|] s1]; intros [= <-]; revert Hw; kept.
  - destruct (getEntries (_history s)) as [|e rest];
      [intros [= <-]; revert H; kept|now apply IH].
  - pose proof (kept_checkWallet s H) as Hw.
    destruct (checkWallet s) as [[|] s1]; intros [= <-];
      [now apply kept_startPkg|exact Hw].
  - pose proof (kept_checkWallet s H) as Hw.
    destruct (checkWallet s) as [[|] s1]; intros [= <-];
      [now apply kept_startPkg|exact Hw].
  - destruct (JS.truthy (cmdNameOf cmd)); intros [= <-]; revert H; kept.
Qed.

Lemma kept_readComplete fuel (clearCmd : bool) s s' :
  asConstructed s -> handleReadComplete fuel clearCmd s = Some s' ->
  asConstructed s'.
Proof.
  intros H; unfold handleReadComplete.
  set (s3 := setActive false _).
  assert (H3 : asConstructed s3).
  { unfold s3; destruct (_activePrompt s) as [p|];
      [destruct (ap_resolve p)|]; destruct clearCmd; revert H; kept. }
  clearbody s3; destruct (_waitingForInput s3).
  - intros [= <-].
    apply (kept_dispatch TERMINAL_WAIT_FOR_INPUT NoDetail s3 H3).
  - now apply kept_parseCommand.
Qed.

Lemma kept_edit (op : EditOp) s :
  asConstructed s -> asConstructed (applyEdit op s).
Proof.
  destruct op as [dir|data|[|]]; simpl.
  - unfold _handleCursorMove; destruct (0 <? dir); [kept|].
    destruct (dir <? 0); kept.
  - unfold _handleCursorInsert; kept.
  - unfold _handleCursorErase; destruct (getCursor s <=? 0); kept.
  - unfold _handleCursorErase; kept.
Qed.

Lemma kept_historyPrevious s :
  asConstructed s -> asConstructed (historyPrevious s).
Proof.
  unfold historyPrevious; destruct (getPrevious (_history s)) as [[v|] h];
    [destruct (JS.truthy v)|]; kept.
Qed.

Lemma kept_historyNext s : asConstructed s -> asConstructed (historyNext s).
Proof. unfold historyNext; destruct (getNext (_history s)); kept. Qed.

Lemma kept_tab s : asConstructed s -> asConstructed (handleTab s).
Proof.
  intros H; unfold handleTab.
  destruct (collectedCandidates s) as [[|c [|c' l]]|].
  - destruct (negb _); [apply (kept_edit (Insert [32]) s H)|exact H].
  - revert H; kept.
  - destruct (_ <=? _); unfold printAndRestartPrompt, resume, ttyReadChar;
      revert H; kept.
  - apply (kept_edit (Insert (JS.lit "    ")) s H).
Qed.

Lemma kept_escape (seq : jsstring) s :
  asConstructed s -> asConstructed (handleEscape seq s).
Proof.
  intros H; unfold handleEscape.
  repeat match goal with
         | |- context [if JS.eqb ?a ?b then _ else _] =>
             destruct (JS.eqb a b)
         end;
    try exact H;
    try (now apply kept_historyPrevious);
    try (now apply kept_historyNext);
    try (apply (kept_edit (Move (-1)) s H));
    try (apply (kept_edit (Move 1) s H));
    try (apply (kept_edit (Erase false) s H));
    try (destruct (_ =? 0)); revert H; kept.
Qed.

Lemma kept_handleData fuel data s s' :
  asConstructed s -> _handleData fuel data s = Some s' -> asConstructed s'.
Proof.
  intros H; unfold _handleData.
  destruct (negb (_active s) && negb (JS.eqb data [3]));
    [now intros [= <-]|].
  destruct (JS.num_eqb (JS.charCodeAt0 data) 27);
    [intros [= <-]; now apply kept_escape|].
  destruct (JS.num_ltb (JS.charCodeAt0 data) 32
            || JS.num_eqb (JS.charCodeAt0 data) 127);
    [|intros [= <-]; apply (kept_edit (Insert data) s H)].
  unfold handleSpecial.
  destruct (JS.eqb data [13]).
  { destruct (isIncompleteInput (getInput s));
      [intros [= <-]; apply (kept_edit (Insert [10]) s H)
      |now apply kept_readComplete]. }
  destruct (JS.eqb data [127] || JS.eqb data [8] || JS.eqb data [4]);
    [intros [= <-]; apply (kept_edit (Erase true) s H)|].
  destruct (JS.eqb data [9]); [intros [= <-]; now apply kept_tab|].
  destruct (JS.eqb data [1]); [intros [= <-]; revert H; kept|].
  destruct (JS.eqb data [2]);
    [intros [= <-]; apply (kept_edit (Move (-1)) s H)|].
  destruct (JS.eqb data [5]); [intros [= <-]; revert H; kept|].
  destruct (JS.eqb data [6]);
    [intros [= <-]; apply (kept_edit (Move 1) s H)|].
  destruct (JS.eqb data [7]); [intros [= <-]; revert H; kept|].
  destruct (JS.eqb data [11]); [intros [= <-]; revert H; kept|].
  destruct (JS.eqb data [14]); [intros [= <-]; now apply kept_historyNext|].
  destruct (JS.eqb data [16]);
    [intros [= <-]; now apply kept_historyPrevious|].
  destruct (JS.eqb data [21]); [intros [= <-]; revert H; kept|].
  now intros [= <-].
Qed.

Lemma kept_forEach fuel (l : list jsstring) : forall s s',
  asConstructed s -> forEach (_handleData fuel) l s = Some s' ->
  asConstructed s'.
Proof.
  induction l as [|c l IH]; intros s s' H; simpl; [now intros [= <-]|].
  destruct (_handleData fuel c s) as [s1|] eqn:E; [|discriminate].
  apply IH; now apply (kept_handleData fuel c s).
Qed.

Lemma kept_handleTermData fuel data s s' :
  asConstructed s -> handleTermData fuel data s = Some s' ->
  asConstructed s'.
Proof.
  intros H; unfold handleTermData.
  destruct (negb (_active s) && negb (JS.eqb data [3]));
    [now intros [= <-]|].
  destruct (capturePromptPrefix s) as [s1|] eqn:Hc; [|now intros [= <-]].
  assert (H1 : asConstructed s1).
  { revert Hc; unfold capturePromptPrefix.
    destruct (firstInit (_pgTty s)); [|now intros [= <-]].
    destruct (_activePrompt s); [|now intros [= <-]].
    destruct (bufferLine (_pgTty s)); [|discriminate].
    intros [= <-]; revert H; kept. }
  destruct (charResolver s1); [intros [= <-]; revert H1; kept|].
  unfold dispatchData; destruct (looksPasted data);
    [now apply kept_forEach|now apply kept_handleData].
Qed.

Lemma kept_act fuel (a : Action) s s' :
  asConstructed s -> act fuel a s = Some s' -> asConstructed s'.
Proof.
  intros H; destruct a as [data|clearCmd|msg| | | | |]; simpl.
  - now apply kept_handleTermData.
  - now apply kept_readComplete.
  - intros [= <-]; unfold waitForUserInput.
    destruct (_waitingForInput s); [exact H|revert H; kept].
  - intros [= <-]; now apply kept_prompt.
  - intros [= <-]; revert H; kept.
  - intros [= <-]; revert H; kept.
  - unfold fireTimer; destruct (timers (browser s)); [discriminate|].
    intros [= <-]; apply kept_enableCallback; revert H; kept.
  - unfold runMicrotask; destruct (microtasks (browser s)) as [|[k v] rest];
      [discriminate|].
    intros [= <-]; apply kept_runContinuation; revert H; kept.
Qed.

Lemma kept_run fuel (acts : list Action) : forall s s',
  asConstructed s -> run fuel acts s = Some s' -> asConstructed s'.
Proof.
  induction acts as [|a acts IH]; intros s s' H; simpl;
    [now intros [= <-]|].
  destruct (act fuel a s) as [s1|] eqn:E; [|discriminate].
  apply IH; now apply (kept_act fuel a s).
Qed.

(** X18. A shell never has a char-level read pending. Whatever sequence of
    calls, chunks, timers and continuations follows the constructor, the
    char read stays unset, so the priority branch of [handleTermData] is
    never taken and every chunk that passes the guards is line-edited. *)
Theorem char_read_is_never_pending fuel (acts : list Action)
        (pgTty : PgTty) (historySize maxEntries : Z) (b : Browser) s' :
  run fuel acts (new pgTty historySize maxEntries b) = Some s' ->
  _activeCharPrompt s' = None /\ charResolver s' = None.
Proof.
  intros Hrun.
  assert (H : asConstructed s').
  { apply (kept_run fuel acts (new pgTty historySize maxEntries b) s');
      [|exact Hrun].
    unfold asConstructed; simpl; repeat split; lia. }
  destruct H as (Hn & _); unfold charResolver; now rewrite Hn.
Qed.

(** X19. The process count of a shell is never negative, however calls
    of [disable] and [enable] and the firing of timers are interleaved
    with the rest: a timer that fires with no process counted leaves the
    count at zero. *)
Theorem process_count_is_never_negative fuel (acts : list Action)
        (pgTty : PgTty) (historySize maxEntries : Z) (b : Browser) s' :
  run fuel acts (new pgTty historySize maxEntries b) = Some s' ->
  0 <= _processCount s'.
Proof.
  intros Hrun.
  assert (H : asConstructed s').
  { apply (kept_run fuel acts (new pgTty historySize maxEntries b) s');
      [|exact Hrun].
    unfold asConstructed; simpl; repeat split; lia. }
  apply H.
Qed.

(** X20. The autocomplete handlers of a shell are always the one of the
    constructor, so TAB always collects candidates: its branch for a shell
    without handlers, which inserts four spaces, is never taken. *)
Theorem tab_always_collects_candidates fuel (acts : list Action)
        (pgTty : PgTty) (historySize maxEntries : Z) (b : Browser) s' :
  run fuel acts (new pgTty historySize maxEntries b) = Some s' ->
  exists candidates, collectedCandidates s' = Some candidates.
Proof.
  intros Hrun.
  assert (H : asConstructed s').
  { apply (kept_run fuel acts (new pgTty historySize maxEntries b) s');
      [|exact Hrun].
    unfold asConstructed; simpl; repeat split; lia. }
  destruct H as (_ & _ & Hlen); unfold collectedCandidates.
  destruct (_autocompleteHandlers s'); [discriminate|].
  eexists; reflexivity.
Qed.

(** *** The help text *)

Lemma fold_left_lines (A : Type) (line : A -> jsstring) (l : list A) :
  forall acc : jsstring,
    fold_left (fun acc x => acc ++ line x) l acc
    = acc ++ List.concat (map line l).
Proof.
  induction l as [|x l IH]; intros acc; simpl; [now rewrite app_nil_r|].
  now rewrite IH, app_assoc.
Qed.

(** X21. The help text is its heading followed by one line per listed
    command, and on every line the description starts in the same column:
    a name shorter than 25 units is filled up to 25, after the indentation
    of 4, and every listed name is that short. *)
Theorem help_lines_are_aligned :
  PgCommand.help
  = JS.lit "COMMANDS:" ++ [10] ++ List.concat (map helpLine PgCommand.COMMANDS)
  /\ (forall name : jsstring,
         JS.length name < 25 ->
         JS.length (JS.lit "    " ++ name
                    ++ PgCommand.fillWhitespace (JS.length name)) = 29)
  /\ Forall (fun k => JS.length (PgCommand.name k) < 25)
       PgCommand.COMMANDS.
Proof.
  split; [|split].
  - unfold PgCommand.help.
    change (fold_left _ PgCommand.COMMANDS [])
      with (fold_left (fun acc x => acc ++ helpLine x) PgCommand.COMMANDS []).
    now rewrite fold_left_lines.
  - intros name Hlen; rewrite !length_app.
    unfold PgCommand.fillWhitespace.
    assert (Hfill : JS.length (repeat 32 (Z.to_nat (25 - JS.length name)))
                    = 25 - JS.length name).
    { unfold JS.length at 1; rewrite repeat_length.
      pose proof (length_nonneg name); lia. }
    rewrite Hfill; change (JS.length (JS.lit "    ")) with 4; lia.
  - repeat constructor.
Qed.

(** *** Prompting twice *)

(** X22. A second call of [prompt], made while the read of the first is
    pending and the surface reports that the input still starts with the
    prompt, changes nothing. *)
Theorem prompt_again_is_a_no_op s :
  inputStartsWithPrompt (_pgTty (prompt s)) = true ->
  prompt (prompt s) = prompt s.
Proof.
  intros Hs; pose proof (prompt_pending s) as Hp.
  unfold prompt at 1; rewrite Hs.
  destruct (_activePrompt (prompt s)); [reflexivity|contradiction].
Qed.

(** *** Packages *)

Lemma isLoaded_markLoaded (pkg pkg' : PkgName) s :
  isLoaded pkg' (markLoaded pkg s)
  = if PkgName_eqb pkg pkg' then true else isLoaded pkg' s.
Proof.
  unfold isLoaded, markLoaded; simpl.
  destruct (PkgName_eqb pkg pkg') eqn:E; [reflexivity|].
  induction (_loadedPkgs s) as [|[k v] l IH]; simpl; [reflexivity|].
  destruct (PkgName_eqb k pkg) eqn:Ek; simpl.
  - assert (PkgName_eqb k pkg' = false)
      by (destruct k, pkg, pkg'; simpl in *; congruence).
    now rewrite H.
  - destruct (PkgName_eqb k pkg'); [reflexivity|exact IH].
Qed.

(** X23. A package is initialised once. The first command of a package
    marks it loaded and asks for the load to be logged exactly when it was
    not loaded before; a second command of the same package asks for no
    logging; and the marks of the other packages are not touched. *)
Theorem package_is_initialised_once (pkg : PkgName) (cmd1 cmd2 : jsstring) s :
  events (browser (startPkg pkg cmd2 (startPkg pkg cmd1 s)))
  = events (browser s)
    ++ [LoadPkg pkg (negb (isLoaded pkg s)) cmd1; LoadPkg pkg false cmd2]
  /\ isLoaded pkg (startPkg pkg cmd1 s) = true
  /\ forall pkg', pkg' <> pkg ->
                  isLoaded pkg' (startPkg pkg cmd1 s) = isLoaded pkg' s.
Proof.
  assert (Hsame : isLoaded pkg (startPkg pkg cmd1 s) = true).
  { unfold startPkg; destruct (isLoaded pkg s) eqn:E; simpl.
    - exact E.
    - change (isLoaded pkg (markLoaded pkg s) = true).
      rewrite isLoaded_markLoaded; now destruct pkg. }
  split; [|split; [exact Hsame|]].
  - unfold startPkg at 1; rewrite Hsame; simpl.
    unfold startPkg; destruct (negb (isLoaded pkg s)); simpl;
      now rewrite <- app_assoc.
  - intros pkg' Hne; unfold startPkg; destruct (isLoaded pkg s) eqn:E; simpl.
    + reflexivity.
    + change (isLoaded pkg' (markLoaded pkg s) = isLoaded pkg' s).
      rewrite isLoaded_markLoaded.
      destruct (PkgName_eqb pkg pkg') eqn:Eq; [|reflexivity].
      destruct pkg, pkg'; simpl in Eq; congruence.
Qed.

(** *** Commands that need the wallet, with the check of the spec *)

(** C2. With the wallet check modelled from the spec, for every command
    that selects the deploy, solana or spl-token arm while the wallet is
    not connected: the dispatcher returns the state that one call to
    [enable] leaves, so exactly one more timer is armed; the action is
    skipped silently, as no event is handed out, no package is marked and
    nothing is printed; and the prompt is released, as that timer, firing
    with at most one process counted, leaves the shell active with a line
    read pending. *)
Theorem unmet_wallet_precondition_releases_prompt fuel cmd s :
  needsWallet (switchCase (cmdNameOf cmd)) = true ->
  walletConnected (browser s) = false ->
  _parseCommand (wallet := walletFromSpec) (S fuel) cmd s = Some (enable s)
  /\ timers (browser (enable s)) = S (timers (browser s))
  /\ events (browser (enable s)) = events (browser s)
  /\ _loadedPkgs (enable s) = _loadedPkgs s
  /\ screen (_pgTty (enable s)) = screen (_pgTty s)
  /\ (0 <= _processCount s <= 1 ->
      exists s',
        fireTimer (enable s) = Some s'
        /\ timers (browser s') = timers (browser s)
        /\ _active s' = true /\ _activePrompt s' <> None).
Proof.
  intros Hn Hw.
  split.
  - simpl.
    destruct (switchCase (cmdNameOf cmd)); try discriminate;
      unfold checkWallet; simpl; rewrite Hw; reflexivity.
  - split; [reflexivity|].
    split; [reflexivity|].
    split; [reflexivity|].
    split; [reflexivity|].
    intros Hc.
    destruct (fireTimer_outermost (enable s) (timers (browser s)))
      as (s' & Hf & _ & Ht & Ha & Hp); [reflexivity|exact Hc|].
    exists s'; repeat split; assumption.
Qed.

End Properties.



(** ** Scenarios

    The properties above on explicit inputs, run with the sample
    collaborators. *)

Module Scenarios.

Import Sample.

(** **** Waiting for input *)

(** While the request for the name is outstanding a second request is
    rejected, and submitting "bob" fulfils the first one. *)
Lemma overlapping_wait_scenario :
  (_waitingForInput typedName = true
   /\ In 2%nat (listeners (browser typedName))
   /\ Br.isSettled 2 (browser typedName) = false)
  /\ waitForUserInput (JS.lit "Again?") typedName
     = (Rejected (JS.lit "Already waiting for input."), typedName)
  /\ exists s',
      handleReadComplete 1 false
        (snd (waitForUserInput (JS.lit "Again?") typedName)) = Some s'
      /\ In (2%nat, getInput typedName) (settled (browser s'))
      /\ _waitingForInput s' = false
      /\ ~ In 2%nat (listeners (browser s')).
Proof.
  assert (H : _waitingForInput typedName = true
              /\ In 2%nat (listeners (browser typedName))
              /\ Br.isSettled 2 (browser typedName) = false)
    by (vm_compute; auto).
  split; [exact H|].
  destruct H as (Hw & Hin & Hs).
  exact (overlapping_wait_is_rejected (JS.lit "Again?") typedName 2 1 false
           Hw Hin Hs).
Defined.

(** **** Commands that need the wallet *)

(** "deploy" without a connected wallet. *)
Lemma unmet_wallet_scenario :
  (needsWallet (switchCase (cmdNameOf (JS.lit "deploy"))) = true
   /\ walletConnected (browser prompting) = false)
  /\ _parseCommand 1 (JS.lit "deploy") prompting = Some (enable prompting)
  /\ armed (enable prompting) = S (armed prompting)
  /\ events (browser (enable prompting)) = events (browser prompting)
  /\ _loadedPkgs (enable prompting) = _loadedPkgs prompting
  /\ screen (_pgTty (enable prompting)) = screen (_pgTty prompting)
  /\ exists s',
      fireTimer (enable prompting) = Some s'
      /\ armed s' = armed prompting
      /\ _active s' = true /\ _activePrompt s' <> None.
Proof.
  split; [split; reflexivity|].
  destruct (unmet_wallet_precondition_releases_prompt 0 (JS.lit "deploy")
              prompting eq_refl eq_refl)
    as (Hp & Ht & He & Hl & Hs & Hf).
  split; [exact Hp|].
  split; [exact Ht|].
  split; [exact He|].
  split; [exact Hl|].
  split; [exact Hs|].
  apply Hf; simpl; lia.
Defined.

(** **** Pasted input *)

(** A pasted chunk of two lines separated by CR LF. *)
Lemma paste_scenario :
  (_active prompting = true
   /\ charResolver prompting = None
   /\ capturePromptPrefix prompting = Some prompting)
  /\ handleTermData 1 twoLines prompting
     = (if (3 <? JS.length twoLines)
           && negb (JS.num_eqb (JS.charCodeAt0 twoLines) 27)
        then forEach (_handleData 1)
               (JS.arrayFrom (normalizeNewlines twoLines)) prompting
        else _handleData 1 twoLines prompting)
  /\ List.concat (JS.arrayFrom (normalizeNewlines twoLines))
     = normalizeNewlines twoLines
  /\ Forall isCodePoint (JS.arrayFrom (normalizeNewlines twoLines)).
Proof.
  split; [repeat split; reflexivity|].
  apply (paste_detection 1 twoLines prompting prompting); reflexivity.
Defined.

(** C3, as stated, fails: the shell is active, no char-level read is
    pending and the chunk "abcd" looks pasted, yet [handleTermData]
    returns the state unchanged with an empty input line, while feeding
    the four characters to the single-character handler gives the input
    line "abcd". *)
Lemma paste_dropped_without_buffer_line :
  _active noBufferLine = true
  /\ charResolver noBufferLine = None
  /\ looksPasted (JS.lit "abcd") = true
  /\ handleTermData 1 (JS.lit "abcd") noBufferLine = Some noBufferLine
  /\ getInput noBufferLine = []
  /\ getInput
       (returned
          (forEach (_handleData 1)
             (JS.arrayFrom (JS.replaceNewlineRuns false (JS.lit "abcd")))
             noBufferLine))
     = JS.lit "abcd".
Proof. vm_compute; repeat split; reflexivity. Qed.

(** **** ENTER *)

(** ENTER after an open bracket continues the line. *)
Lemma enter_scenario :
  (_active (typed (JS.lit "(") 1) = true
   /\ isIncompleteInput (getInput (typed (JS.lit "(") 1)) = true)
  /\ _handleData 1 ENTER (typed (JS.lit "(") 1)
     = Some (_handleCursorInsert [10] (typed (JS.lit "(") 1))
  /\ getInput (_handleCursorInsert [10] (typed (JS.lit "(") 1))
     = JS.lit "(" ++ [10].
Proof.
  split; [split; reflexivity|].
  destruct (enter_inserts_newline_or_submits 1 (typed (JS.lit "(") 1)
              eq_refl) as [H _].
  destruct (H eq_refl) as (H1 & H2 & _).
  split; [exact H1|exact H2].
Defined.

(** **** TAB *)

(** TAB on "hel" with "help" in the history. *)
Lemma tab_single_candidate_scenario :
  (_active typedHel = true
   /\ collectedCandidates typedHel = Some [JS.lit "help"])
  /\ exists s',
      _handleData 1 TAB typedHel = Some s'
      /\ getInput s' = JS.lit "help" /\ getCursor s' = 4.
Proof.
  split; [split; reflexivity|].
  apply (tab_single_candidate_replaces_line 1 typedHel (JS.lit "help"));
    reflexivity.
Defined.

(** TAB with an empty history, after "ls " and after "ls". *)
Lemma tab_no_candidate_scenario :
  (_active (typed (JS.lit "ls ") 3) = true
   /\ collectedCandidates (typed (JS.lit "ls ") 3) = Some []
   /\ hasTrailingWhitespace (JS.lit "ls ") = true)
  /\ _handleData 1 TAB (typed (JS.lit "ls ") 3)
     = Some (typed (JS.lit "ls ") 3)
  /\ exists s',
      _handleData 1 TAB (typed (JS.lit "ls") 2) = Some s'
      /\ getInput s' = JS.lit "ls " /\ getCursor s' = 3.
Proof.
  split; [repeat split; reflexivity|].
  split.
  - apply (tab_no_candidate 1 (typed (JS.lit "ls ") 3)); reflexivity.
  - apply (tab_no_candidate 1 (typed (JS.lit "ls") 2)); reflexivity.
Defined.

(** **** Char-level reads *)

(** C7. The code does not offer a chunk to the outstanding char-level
    read. A shell that lists at most one candidate unasked is enabled, the
    user submits "help" and "hello", types "he" and presses TAB: the
    terminal shows the char-level read "Display all 2 possibilities?
    (y or n)", whose promise 6 is not settled and has the handler of the
    answer waiting on it, but [_activeCharPrompt] is empty. The chunk "y"
    that arrives next is inserted into the input line, which becomes
    "hey" with the cursor at 3; the promise of the char read stays
    unsettled, nothing is printed, and the handler of the answer, which
    given "y" prints the two candidates, never runs. *)
Theorem char_read_is_not_offered_the_chunk :
  run 1 untilQuestion smallShell = Some questioned
  /\ last (screen (_pgTty questioned)) Clear
     = ReadChar (displayAllQuestion 2)
  /\ In (6%nat, KCharConfirm [JS.lit "hello"; JS.lit "help"] 7)
       (awaiting (browser questioned))
  /\ Br.isSettled 6 (browser questioned) = false
  /\ _activeCharPrompt questioned = None
  /\ (getInput questioned = JS.lit "he" /\ getCursor questioned = 2)
  /\ handleTermData 1 (JS.lit "y") questioned = Some answered
  /\ answered = _handleCursorInsert (JS.lit "y") questioned
  /\ (getInput answered = JS.lit "hey" /\ getCursor answered = 3)
  /\ Br.isSettled 6 (browser answered) = false
  /\ awaiting (browser answered) = awaiting (browser questioned)
  /\ microtasks (browser answered) = []
  /\ screen (_pgTty answered) = screen (_pgTty questioned)
  /\ last (screen
             (_pgTty
                (runContinuation
                   (KCharConfirm [JS.lit "hello"; JS.lit "help"] 7)
                   (JS.lit "y") questioned))) Clear
     = PrintWide [JS.lit "hello"; JS.lit "help"].
Proof.
  repeat match goal with |- _ /\ _ => split end;
    vm_compute; try reflexivity.
  right; left; reflexivity.
Qed.

(** **** Inactive shell *)

(** A fresh shell is inactive and drops what is typed. *)
Lemma inactive_shell_scenario :
  _active shell0 = false
  /\ handleTermData 1 (JS.lit "ls") shell0 = Some shell0
  /\ _handleData 1 [3] shell0 = Some shell0.
Proof.
  split; [reflexivity|].
  destruct (inactive_shell_discards_input 1 (JS.lit "ls") shell0 eq_refl)
    as (H & Hc & _).
  split; [|exact Hc].
  apply H; discriminate.
Defined.

(** **** Cursor bounds *)

(** A few edits on "abc", starting with the cursor at its end. *)
Lemma cursor_scenario :
  cursorInBounds (typed (JS.lit "abc") 3)
  /\ Forall cursorInBounds (editTrace someEdits (typed (JS.lit "abc") 3)).
Proof.
  assert (H : cursorInBounds (typed (JS.lit "abc") 3))
    by (unfold cursorInBounds; vm_compute; split; discriminate).
  split; [exact H|].
  apply (cursor_stays_within_line someEdits (typed (JS.lit "abc") 3) H).
Defined.

(** **** Word boundaries *)

(** With the cursor at the end of the single word "foo" the boundary
    found is 0, and neither key changes anything. *)
Lemma left_boundary_scenario :
  closestLeftBoundary (JS.lit "foo") 3 = 0
  /\ _handleData 1 ALT_LEFT (typed (JS.lit "foo") 3)
     = Some (typed (JS.lit "foo") 3)
  /\ _handleData 1 CTRL_BACKSPACE (typed (JS.lit "foo") 3)
     = Some (typed (JS.lit "foo") 3).
Proof.
  split; [reflexivity|].
  apply (left_boundary_zero_is_ignored 1 (typed (JS.lit "foo") 3));
    reflexivity.
Defined.

(** ALT+LEFT with the cursor at the end of "foo bar" moves it to the
    start of "bar". *)
Example alt_left_foo_bar :
  option_map getCursor
    (_handleData 1 ALT_LEFT (typed (JS.lit "foo bar") 7)) = Some 4.
Proof. reflexivity. Qed.

(** **** Further scenarios *)

(** Typing "xy" into "ac" after the "a", then two backspaces. *)
Lemma insert_backspace_scenario :
  cursorInBounds (typed (JS.lit "ac") 1)
  /\ lineOf (repeatedly 2 (_handleCursorErase true)
               (_handleCursorInsert (JS.lit "xy") (typed (JS.lit "ac") 1)))
     = (JS.lit "ac", 1).
Proof.
  assert (H : cursorInBounds (typed (JS.lit "ac") 1))
    by (unfold cursorInBounds; vm_compute; split; discriminate).
  split; [exact H|].
  apply (insert_then_backspaces_restores_line (JS.lit "xy")
           (typed (JS.lit "ac") 1) H).
Defined.

(** CTRL+K and CTRL+U on "hello world" with the cursor after "hello". *)
Lemma kill_line_scenario :
  _active (typed (JS.lit "hello world") 5) = true
  /\ exists sK sU,
      _handleData 1 CTRL_K (typed (JS.lit "hello world") 5) = Some sK
      /\ _handleData 1 CTRL_U (typed (JS.lit "hello world") 5) = Some sU
      /\ getInput sK = JS.lit "hello"
      /\ getInput sU = JS.lit " world"
      /\ getCursor sK = 5
      /\ getCursor sU = 0.
Proof.
  split; [reflexivity|].
  destruct (kill_line_splits_the_line 1 (typed (JS.lit "hello world") 5)
              eq_refl)
    as (sK & sU & HK & HU & HiK & HiU & _ & HcK & HcU & _).
  exists sK, sU.
  split; [exact HK|].
  split; [exact HU|].
  split; [exact HiK|].
  split; [exact HiU|].
  split; [rewrite HcK, HiK; reflexivity|exact HcU].
Defined.

(** ALT+LEFT at the end of "foo bar". *)
Lemma every_key_scenario :
  (cursorInBounds (typed (JS.lit "foo bar") 7)
   /\ boundariesInRange (typed (JS.lit "foo bar") 7)
   /\ ALT_LEFT <> CTRL_G
   /\ _handleData 1 ALT_LEFT (typed (JS.lit "foo bar") 7)
      = Some (returned (_handleData 1 ALT_LEFT (typed (JS.lit "foo bar") 7))))
  /\ cursorInBounds
       (returned (_handleData 1 ALT_LEFT (typed (JS.lit "foo bar") 7))).
Proof.
  assert (Hb : cursorInBounds (typed (JS.lit "foo bar") 7))
    by (unfold cursorInBounds; vm_compute; split; discriminate).
  assert (Hr : boundariesInRange (typed (JS.lit "foo bar") 7))
    by (unfold boundariesInRange; vm_compute; repeat split; discriminate).
  assert (Hg : ALT_LEFT <> CTRL_G) by discriminate.
  split; [split; [exact Hb|split; [exact Hr|split; [exact Hg|reflexivity]]]|].
  apply (every_key_keeps_cursor_in_bounds 1 ALT_LEFT
           (typed (JS.lit "foo bar") 7) _ Hb Hr Hg eq_refl).
Defined.

(** The candidates for "he" are "hello" and "help", in that order. *)
Lemma candidates_sorted_scenario :
  collectedCandidates typedHe = Some [JS.lit "hello"; JS.lit "help"]
  /\ Permutation
       (collectAutocompleteCandidates
          (map (fun h => h (_history typedHe)) (_autocompleteHandlers typedHe))
          (JS.substring (getInput typedHe) 0 (getCursor typedHe)))
       [JS.lit "hello"; JS.lit "help"]
  /\ ascending [JS.lit "hello"; JS.lit "help"].
Proof.
  split; [reflexivity|].
  apply (tab_candidates_are_sorted typedHe); reflexivity.
Defined.

(** TAB on "he" lists the two candidates. *)
Lemma tab_lists_scenario :
  (_active typedHe = true
   /\ collectedCandidates typedHe = Some [JS.lit "hello"; JS.lit "help"]
   /\ Z.of_nat 2 <= _maxAutocompleteEntries typedHe)
  /\ exists s',
      _handleData 1 TAB typedHe = Some s'
      /\ screen (_pgTty s')
         = screen (_pgTty typedHe)
           ++ [Print [13; 10]; PrintWide [JS.lit "hello"; JS.lit "help"]]
      /\ getInput s' = getInput typedHe
      /\ getCursor s' = JS.length (getInput typedHe)
      /\ _history s' = _history typedHe /\ browser s' = browser typedHe
      /\ _active s' = true /\ _activePrompt s' = _activePrompt typedHe.
Proof.
  split; [repeat split; vm_compute; discriminate|].
  apply (tab_lists_candidates 1 typedHe [JS.lit "hello"; JS.lit "help"]);
    try reflexivity; try (simpl; lia); vm_compute; discriminate.
Defined.

(** With a maximum of one, TAB asks, and the answer lands in the line. *)
Lemma tab_over_limit_scenario :
  (_active crowded = true /\ _activeCharPrompt crowded = None
   /\ firstInit (_pgTty crowded) = false
   /\ collectedCandidates crowded = Some [JS.lit "hello"; JS.lit "help"]
   /\ _maxAutocompleteEntries crowded < Z.of_nat 2)
  /\ exists s1 s2,
      _handleData 1 TAB crowded = Some s1
      /\ _activeCharPrompt s1 = None
      /\ screen (_pgTty s1)
         = screen (_pgTty crowded)
           ++ [Print [13; 10]; ReadChar (displayAllQuestion 2)]
      /\ handleTermData 1 (JS.lit "y") s1 = Some s2
      /\ getInput s2 = getInput crowded ++ JS.lit "y"
      /\ screen (_pgTty s2) = screen (_pgTty s1)
      /\ settled (browser s2) = settled (browser crowded).
Proof.
  split; [repeat split; vm_compute; reflexivity|].
  apply (tab_over_limit_question_is_never_answered 1 crowded
           [JS.lit "hello"; JS.lit "help"]);
    try reflexivity; try (simpl; lia); vm_compute; reflexivity.
Defined.

(** "  solana-keygen new" is the command "solana-keygen". *)
Lemma command_name_scenario :
  (Forall (fun c => JS.isWhiteSpace c = true) (JS.lit "  ")
   /\ isWord (JS.lit "solana-keygen")
   /\ startsWithSpace (JS.lit " new"))
  /\ cmdNameOf (JS.lit "  " ++ JS.lit "solana-keygen" ++ JS.lit " new")
     = JS.lit "solana-keygen"
  /\ switchCase
       (cmdNameOf (JS.lit "  " ++ JS.lit "solana-keygen" ++ JS.lit " new"))
     = switchCase (JS.lit "solana-keygen").
Proof.
  assert (Hws : Forall (fun c => JS.isWhiteSpace c = true) (JS.lit "  "))
    by (repeat constructor).
  assert (Hw : isWord (JS.lit "solana-keygen"))
    by (split; [discriminate|repeat constructor]).
  assert (Hr : startsWithSpace (JS.lit " new")) by reflexivity.
  split; [split; [exact Hws|split; [exact Hw|exact Hr]]|].
  destruct (command_name_is_first_word (JS.lit "  ")
              (JS.lit "solana-keygen") (JS.lit " new") Hws Hw Hr)
    as (H1 & H2 & _).
  split; assumption.
Defined.

(** "!!" when the last entry is "!!". *)
Lemma repeat_last_scenario :
  (switchCase (cmdNameOf (JS.lit "!!")) = CaseRUN_LAST_CMD
   /\ getEntries (_history repeatedTwice) = [JS.lit "!!"])
  /\ _parseCommand 50 (JS.lit "!!") repeatedTwice = None.
Proof.
  split; [split; reflexivity|].
  apply (repeat_last_of_repeat_last_never_returns 50 (JS.lit "!!")
           repeatedTwice (JS.lit "!!") []); reflexivity.
Defined.

(** "!!" with an empty history arms one timer. *)
Lemma calls_enable_scenario :
  getEntries (_history prompting) = []
  /\ exists s',
      _parseCommand 1 (JS.lit "!!") prompting = Some s'
      /\ timers (browser s')
         = ((if callsEnable (switchCase (cmdNameOf (JS.lit "!!"))) prompting
             then 1 else 0)
            + timers
                (browser
                   (afterWalletTest (switchCase (cmdNameOf (JS.lit "!!")))
                      prompting)))%nat.
Proof.
  split; [reflexivity|].
  apply (commands_that_call_enable 0 (JS.lit "!!") prompting).
  intros _; reflexivity.
Defined.

(** Three disables, three enables, two timers fired. *)
Lemma nested_scenario :
  _processCount shell0 = 0
  /\ exists s',
      fireTimers 2 (repeatedly 3 enable (repeatedly 3 disable shell0))
      = Some s'
      /\ _processCount s' = 1
      /\ ((2 < 3)%nat ->
          _active s' = false /\ _activePrompt s' = _activePrompt shell0)
      /\ (2%nat = 3%nat -> _active s' = true /\ _activePrompt s' <> None).
Proof.
  split; [reflexivity|].
  apply (reenabled_by_the_outermost_enable 3 2 shell0); [reflexivity|lia|lia].
Defined.

(** "bob" is submitted while the shell waits for the name. *)
Lemma waiting_submit_scenario :
  _waitingForInput typedName = true
  /\ exists s',
      (forall fuel, handleReadComplete fuel false typedName = Some s')
      /\ events (browser s')
         = events (browser typedName)
           ++ [CustomEvent TERMINAL_WAIT_FOR_INPUT NoDetail]
      /\ timers (browser s') = timers (browser typedName)
      /\ _active s' = false
      /\ _history s' = _history typedName
      /\ _loadedPkgs s' = _loadedPkgs typedName
      /\ getInput s' = getInput typedName.
Proof.
  split; [reflexivity|].
  apply (line_submitted_while_waiting_is_not_dispatched false typedName);
    reflexivity.
Defined.

(** A wait, a submission, and a second wait. *)
Lemma one_shot_scenario :
  (_waitingForInput prompting = false
   /\ Br.isSettled (nextId (browser prompting)) (browser prompting) = false)
  /\ exists s1 s2,
      waitForUserInput (JS.lit "Name?") prompting
      = (Pending (nextId (browser prompting)), s1)
      /\ _waitingForInput s1 = true
      /\ handleReadComplete 1 false s1 = Some s2
      /\ In (nextId (browser prompting), getInput prompting)
           (settled (browser s2))
      /\ _waitingForInput s2 = false
      /\ fst (waitForUserInput (JS.lit "Age?") s2)
         = Pending (nextId (browser s2)).
Proof.
  split; [split; reflexivity|].
  apply (wait_is_one_shot (JS.lit "Name?") (JS.lit "Age?") 1 false prompting);
    reflexivity.
Defined.

(** "ls" and a line break are pasted, followed by "pwd". *)
Lemma paste_rest_scenario :
  (forEach (_handleData 1) pastedLs prompting
   = Some (returned (forEach (_handleData 1) pastedLs prompting))
   /\ _active (returned (forEach (_handleData 1) pastedLs prompting)) = false)
  /\ forEach (_handleData 1) (pastedLs ++ JS.arrayFrom (JS.lit "pwd"))
       prompting
     = Some (returned (forEach (_handleData 1) pastedLs prompting)).
Proof.
  assert (H1 : forEach (_handleData 1) pastedLs prompting
               = Some (returned (forEach (_handleData 1) pastedLs prompting)))
    by (vm_compute; reflexivity).
  assert (H2 : _active (returned (forEach (_handleData 1) pastedLs prompting))
               = false)
    by (vm_compute; reflexivity).
  split; [split; assumption|].
  apply (rest_of_paste_is_dropped_once_inactive 1 pastedLs
           (JS.arrayFrom (JS.lit "pwd")) prompting _ H1 H2).
Defined.

(** "hello world" delivered in three chunks. *)
Lemma text_chunks_scenario :
  (Forall (Forall (fun c => printable c = true))
     [JS.lit "he"; JS.lit "llo w"; JS.lit "orld"]
   /\ takesText prompting)
  /\ feed 1 [JS.lit "he"; JS.lit "llo w"; JS.lit "orld"] prompting
     = Some (_handleCursorInsert (JS.lit "hello world") prompting)
  /\ feed 1 [JS.lit "he"; JS.lit "llo w"; JS.lit "orld"] prompting
     = handleTermData 1 (JS.lit "hello world") prompting.
Proof.
  assert (Hp : Forall (Forall (fun c => printable c = true))
                 [JS.lit "he"; JS.lit "llo w"; JS.lit "orld"])
    by (repeat constructor).
  assert (Ht : takesText prompting).
  { unfold takesText, cursorInBounds; vm_compute.
    repeat split; discriminate. }
  split; [split; assumption|].
  apply (text_is_inserted_whatever_the_chunks 1
           [JS.lit "he"; JS.lit "llo w"; JS.lit "orld"] prompting Hp Ht).
Defined.

(** Carriage return and line feed in one chunk. *)
Lemma control_chunk_scenario :
  controlUnit 13 = true
  /\ _handleData 1 [13; 10] (typed (JS.lit "ls") 2)
     = Some (typed (JS.lit "ls") 2).
Proof.
  split; [reflexivity|].
  apply (control_chunk_of_several_units_is_ignored 1 13 10 []
           (typed (JS.lit "ls") 2)); reflexivity.
Defined.

(** At the end of the session no char read is pending. *)
Lemma no_char_read_scenario :
  run 1 session shell0 = Some (returned (run 1 session shell0))
  /\ _activeCharPrompt (returned (run 1 session shell0)) = None
  /\ charResolver (returned (run 1 session shell0)) = None.
Proof.
  assert (H : run 1 session shell0 = Some (returned (run 1 session shell0)))
    by (vm_compute; reflexivity).
  split; [exact H|].
  apply (char_read_is_never_pending 1 session tty0 defaultHistorySize
           defaultMaxAutocompleteEntries browser0 _ H).
Defined.

(** At the end of the session the process count is not negative. *)
Lemma process_count_scenario :
  run 1 session shell0 = Some (returned (run 1 session shell0))
  /\ 0 <= _processCount (returned (run 1 session shell0)).
Proof.
  assert (H : run 1 session shell0 = Some (returned (run 1 session shell0)))
    by (vm_compute; reflexivity).
  split; [exact H|].
  apply (process_count_is_never_negative 1 session tty0 defaultHistorySize
           defaultMaxAutocompleteEntries browser0 _ H).
Defined.

(** At the end of the session TAB still collects candidates. *)
Lemma tab_collects_scenario :
  run 1 session shell0 = Some (returned (run 1 session shell0))
  /\ exists candidates,
      collectedCandidates (returned (run 1 session shell0)) = Some candidates.
Proof.
  assert (H : run 1 session shell0 = Some (returned (run 1 session shell0)))
    by (vm_compute; reflexivity).
  split; [exact H|].
  apply (tab_always_collects_candidates 1 session tty0 defaultHistorySize
           defaultMaxAutocompleteEntries browser0 _ H).
Defined.

(** Prompting twice in a row. *)
Lemma prompt_again_scenario :
  inputStartsWithPrompt (_pgTty (prompt promptShown)) = true
  /\ prompt (prompt promptShown) = prompt promptShown.
Proof.
  split; [reflexivity|].
  apply (prompt_again_is_a_no_op promptShown); reflexivity.
Defined.

End Scenarios.
